(** * Klash market resolution: a shallow embedding of the decision engine

    The development embeds [market_resolver.py] (class [MarketResolver] and
    the module-level entry point), [team_classifier.py]
    ([TeamClassifier.classify_tweet], [classify_teams]), [sentiment_hf.py]
    ([SentimentAnalyzer], [analyze_sentiment_hf]) and [analyzer.py]
    ([process_tweets], [main]).

    Conventions of the embedding.
    - Python values decoded from JSON are the inductive [value]; a [dict] is
      an association list in insertion order, because the winner scan of
      [_resolve_by_sentiment] iterates [outcome_counts.items()].
    - Python [float] is IEEE binary64, Rocq's primitive [float]; arithmetic
      and comparisons are the primitive ones, [round] and integer true
      division are computed exactly and rounded once.
    - Exceptions are explicit: a computation returns [Ok v] or [Raise e].
    - The zero-shot pipeline, the construction and loading of the model
      handles, the wall clock and the [str] builtin are external: they are
      fields of a [capability] record the functions take as argument.
    - Where a law bounds a sum of floats, the number a binary64 datum stands
      for is a real number, [SFval]. *)

From Stdlib Require Import ZArith List String Ascii Bool Lia.
From Stdlib Require Import Permutation Sorted.
From Stdlib Require Import Floats.
From Stdlib Require Import Reals Lra.
Import ListNotations.

Set Warnings "-register-all".

Local Open Scope string_scope.
Local Open Scope Z_scope.

(** ** Binary64 numbers *)

Module F64.

(** A rank that orders the numbers among the binary64 values: comparing two
    ranks lexicographically is what [SFcompare] computes; a NaN has none. *)
Definition rank (f : spec_float) : option (Z * Z * Z) :=
  match f with
  | S754_nan => None
  | S754_infinity true => Some (-2, 0, 0)
  | S754_infinity false => Some (2, 0, 0)
  | S754_zero _ => Some (0, 0, 0)
  | S754_finite true m e => Some (-1, - e, - Zpos m)
  | S754_finite false m e => Some (1, e, Zpos m)
  end.

Definition lexlt (a b : Z * Z * Z) : Prop :=
  let '(a1, a2, a3) := a in
  let '(b1, b2, b3) := b in
  a1 < b1 \/ (a1 = b1 /\ (a2 < b2 \/ (a2 = b2 /\ a3 < b3))).

Definition lexle (a b : Z * Z * Z) : Prop := lexlt a b \/ a = b.

Definition lt (x y : float) : Prop := (x <? y)%float = true.
Definition le (x y : float) : Prop := (x <=? y)%float = true.

(** [is_num x]: [x] is not a NaN. *)
Definition is_num (x : float) : Prop := rank (Prim2SF x) <> None.

(** [Z2float z]: the binary64 nearest to the integer [z], as Python converts
    an [int] operand of a float operation. *)
Definition Z2float (z : Z) : float := SF2Prim (binary_normalize prec emax z 0 false).

(** [ratio p q]: the binary64 nearest to the exact quotient of two positive
    integers; Python's [int / int] rounds the exact quotient once. *)
Definition ratio (p q : positive) : float :=
  SF2Prim (let '(mz, ez, lz) := SFdiv_core_binary prec emax (Zpos p) 0 (Zpos q) 0 in
           binary_round_aux prec emax false mz ez lz).

(** Python's true division [a / b] of two integers, for a positive [b]: the
    source divides only by a count it has found positive, or non-zero and
    never decremented. For another divisor, where Python raises
    [ZeroDivisionError] or changes the sign, the model answers [0.0]. *)
Definition int_div (a b : Z) : float :=
  match a, b with
  | Zpos p, Zpos q => ratio p q
  | Zneg p, Zpos q => (- ratio p q)%float
  | _, _ => 0%float
  end.

(** Round half to even of the rational [n / d], [d > 0], [n >= 0]. *)
Definition round_half_even (n d : Z) : Z :=
  let q := n / d in
  let r := n mod d in
  match Z.compare (2 * r) d with
  | Lt => q
  | Gt => q + 1
  | Eq => if Z.even q then q else q + 1
  end.

(** The exact decimal rounding of a positive binary64 [m * 2^e] to
    [ndigits] places, as an integer count of units [10^-ndigits]. *)
Definition scaled_round (m : positive) (e : Z) (ndigits : Z) : Z :=
  let p10 := 10 ^ ndigits in
  if 0 <=? e then Zpos m * 2 ^ e * p10
  else round_half_even (Zpos m * p10) (2 ^ (- e)).

(** Python's [round(x, ndigits)] on a float, [0 <= ndigits]: the decimal
    rounding of the exact value of [x] (ties to even), then the binary64
    nearest to that decimal. Zeros, infinities and NaN are returned as
    they are. *)
Definition py_round (x : float) (ndigits : Z) : float :=
  match Prim2SF x with
  | S754_finite s m e =>
      match scaled_round m e ndigits with
      | Zpos n =>
          let r := ratio n (Z.to_pos (10 ^ ndigits)) in
          if s then (- r)%float else r
      | _ => if s then (-0)%float else 0%float
      end
  | _ => x
  end.

End F64.

(** ** Python values, exceptions and dictionaries *)

Module Py.

(** A value as [json.loads] builds it, or as the code builds it from such
    values. A [VDict] lists its items in insertion order. *)
Inductive value : Type :=
| VNone
| VBool (b : bool)
| VInt (z : Z)
| VFloat (f : float)
| VStr (s : string)
| VList (l : list value)
| VDict (d : list (value * value)).

Inductive exn : Type :=
| ValueError (msg : string)
| TypeError (msg : string)
| AttributeError (msg : string)
| KeyError (msg : string)
| IndexError (msg : string)
| ExternalError (msg : string).

(** [str(e)] for an exception built from one message. *)
Definition str_exn (e : exn) : string :=
  match e with
  | ValueError m | TypeError m | AttributeError m
  | KeyError m | IndexError m | ExternalError m => m
  end.

Inductive res (A : Type) : Type :=
| Ok (a : A)
| Raise (e : exn).
Arguments Ok {A} a.
Arguments Raise {A} e.

Definition bind {A B : Type} (m : res A) (f : A -> res B) : res B :=
  match m with
  | Ok a => f a
  | Raise e => Raise e
  end.

Notation "'let+' x ':=' m 'in' k" := (bind m (fun x => k))
  (at level 10, x name, m at level 100, k at level 200).

(** *** Hashing and equality of dictionary keys

    Python's [==] and [hash] identify [True], [1] and [1.0]; a [key] is the
    class of a hashable value under [==]. Lists and dicts are unhashable.
    Every NaN is one key: [json.loads] decodes the literal to one shared
    object and a dict tests identity before [==]. *)
Inductive key : Type :=
| KNone
| KInt (z : Z)
| KFloat (f : spec_float)
| KStr (s : string).

Definition float_key (f : float) : key :=
  match Prim2SF f with
  | S754_zero _ => KInt 0
  | S754_finite s m e =>
      let sign := if s then (-1) else 1 in
      if 0 <=? e then KInt (sign * (Zpos m * 2 ^ e))
      else if (Zpos m mod 2 ^ (- e)) =? 0 then KInt (sign * (Zpos m / 2 ^ (- e)))
      else KFloat (S754_finite s m e)
  | sf => KFloat sf
  end.

Definition key_of (v : value) : option key :=
  match v with
  | VNone => Some KNone
  | VBool b => Some (KInt (if b then 1 else 0))
  | VInt z => Some (KInt z)
  | VFloat f => Some (float_key f)
  | VStr s => Some (KStr s)
  | VList _ | VDict _ => None
  end.

Definition spec_float_eqb (a b : spec_float) : bool :=
  match a, b with
  | S754_zero s, S754_zero t => Bool.eqb s t
  | S754_infinity s, S754_infinity t => Bool.eqb s t
  | S754_nan, S754_nan => true
  | S754_finite s m e, S754_finite t n f => Bool.eqb s t && Pos.eqb m n && Z.eqb e f
  | _, _ => false
  end.

Definition key_eqb (a b : key) : bool :=
  match a, b with
  | KNone, KNone => true
  | KInt x, KInt y => Z.eqb x y
  | KFloat x, KFloat y => spec_float_eqb x y
  | KStr x, KStr y => String.eqb x y
  | _, _ => false
  end.

(** The truth value of an object, as [if x] and [not x] take it. *)
Definition truthy (v : value) : bool :=
  match v with
  | VNone => false
  | VBool b => b
  | VInt z => negb (z =? 0)
  | VFloat f => negb (f =? 0)%float
  | VStr s => negb (String.eqb s "")
  | VList l => match l with [] => false | _ => true end
  | VDict d => match d with [] => false | _ => true end
  end.

(** *** Dictionaries decoded from JSON, and the records the code returns *)

(** [d.get(name)] for a string key. *)
Fixpoint dict_get (d : list (value * value)) (name : string) : option value :=
  match d with
  | [] => None
  | (VStr k, v) :: rest => if String.eqb k name then Some v else dict_get rest name
  | _ :: rest => dict_get rest name
  end.

Definition dict_get_default (d : list (value * value)) (name : string) (default : value) : value :=
  match dict_get d name with
  | Some v => v
  | None => default
  end.

(** [name in d]. *)
Definition dict_has (d : list (value * value)) (name : string) : bool :=
  match dict_get d name with
  | Some _ => true
  | None => false
  end.

(** *** Ordered dictionaries keyed by hashable values

    An item keeps the canonical key, the key object first inserted and the
    payload; iteration follows insertion order. *)
Definition odict (A : Type) : Type := list (key * value * A).

Fixpoint od_get {A : Type} (d : odict A) (k : key) : option A :=
  match d with
  | [] => None
  | (k', _, a) :: rest => if key_eqb k' k then Some a else od_get rest k
  end.

Definition od_mem {A : Type} (d : odict A) (k : key) : bool :=
  match od_get d k with
  | Some _ => true
  | None => false
  end.

(** [d[obj] = a]: an existing key keeps its place and its key object. *)
Fixpoint od_set {A : Type} (d : odict A) (k : key) (obj : value) (a : A) : odict A :=
  match d with
  | [] => [(k, obj, a)]
  | (k', o', a') :: rest =>
      if key_eqb k' k then (k', o', a) :: rest
      else (k', o', a') :: od_set rest k obj a
  end.

(** In-place update of the payload stored under a key. *)
Fixpoint od_update {A : Type} (d : odict A) (k : key) (f : A -> A) : odict A :=
  match d with
  | [] => []
  | (k', o', a') :: rest =>
      if key_eqb k' k then (k', o', f a') :: rest
      else (k', o', a') :: od_update rest k f
  end.

Definition od_keys {A : Type} (d : odict A) : list key := map (fun e => fst (fst e)) d.

(** *** Strings *)

Definition lower_char (c : ascii) : ascii :=
  let n := nat_of_ascii c in
  if ((65 <=? n) && (n <=? 90))%nat then ascii_of_nat (n + 32)
  else if ((192 <=? n) && (n <=? 222) && negb (n =? 215))%nat then ascii_of_nat (n + 32)
  else c.

(** [s.lower()], characters being the code points below 256. *)
Fixpoint lower (s : string) : string :=
  match s with
  | EmptyString => EmptyString
  | String c t => String (lower_char c) (lower t)
  end.

Definition is_space (c : ascii) : bool :=
  let n := nat_of_ascii c in
  (((9 <=? n) && (n <=? 13)) || ((28 <=? n) && (n <=? 32)) || (n =? 133) || (n =? 160))%nat.

Fixpoint lstrip (s : string) : string :=
  match s with
  | EmptyString => EmptyString
  | String c t => if is_space c then lstrip t else s
  end.

Fixpoint rstrip (s : string) : string :=
  match s with
  | EmptyString => EmptyString
  | String c t =>
      match rstrip t with
      | EmptyString => if is_space c then EmptyString else String c EmptyString
      | t' => String c t'
      end
  end.

(** [s.strip()]. *)
Definition strip (s : string) : string := rstrip (lstrip s).

(** [s[:n]]. *)
Fixpoint take (n : nat) (s : string) : string :=
  match n, s with
  | O, _ => EmptyString
  | _, EmptyString => EmptyString
  | S n', String c t => String c (take n' t)
  end.

(** [needle in hay] for two strings. *)
Fixpoint contains (needle hay : string) : bool :=
  String.prefix needle hay ||
  match hay with
  | EmptyString => false
  | String _ t => contains needle t
  end.

(** The one-character strings a [for] loop over a string yields. *)
Fixpoint chars (s : string) : list value :=
  match s with
  | EmptyString => []
  | String c t => VStr (String c EmptyString) :: chars t
  end.

(** [name in container] for a string [name]; [None] and numbers are not
    containers. *)
Definition py_in (name : string) (container : value) : res bool :=
  match container with
  | VDict d => Ok (dict_has d name)
  | VList l =>
      Ok (existsb (fun v => match v with VStr s => String.eqb s name | _ => false end) l)
  | VStr s => Ok (contains name s)
  | _ => Raise (TypeError "argument is not iterable")
  end.

(** The items a [for] loop draws from an object. *)
Definition py_iter (v : value) : res (list value) :=
  match v with
  | VList l => Ok l
  | VStr s => Ok (chars s)
  | VDict d => Ok (map fst d)
  | _ => Raise (TypeError "object is not iterable")
  end.

(** [container[name]] for a string [name]. *)
Definition py_getitem (container : value) (name : string) : res value :=
  match container with
  | VDict d =>
      match dict_get d name with
      | Some v => Ok v
      | None => Raise (KeyError name)
      end
  | VList _ => Raise (TypeError "list indices must be integers or slices, not str")
  | VStr _ => Raise (TypeError "string indices must be integers")
  | _ => Raise (TypeError "object is not subscriptable")
  end.

(** [obj.get(name, default)]: only a dict has the method. *)
Definition py_get (obj : value) (name : string) (default : value) : res value :=
  match obj with
  | VDict d => Ok (dict_get_default d name default)
  | _ => Raise (AttributeError "object has no attribute 'get'")
  end.

End Py.

(** ** Shared numeric constants and the external capability *)

Module Ext.
Import Py.

(** [0.6], the resolver's [min_confidence]. *)
Definition resolver_min_confidence : float := 0x1.3333333333333p-1%float.

(** [0.5], the classifier's [min_confidence]. *)
Definition classifier_min_confidence : float := 0.5%float.

(** What the code obtains from outside.
    - [load_models]: the exception raised while the model handles are built
      and loaded ([initialize_models], [TeamClassifier()] and [load_model]),
      [None] when loading succeeds.
    - [zero_shot text labels]: the zero-shot pipeline called with
      [candidate_labels=labels, multi_label=False]; a result carries the
      [labels] and the [scores] lists. The pipeline is a function: the same
      input gives the same judgment.
    - [now]: [datetime.now(timezone.utc).isoformat()].
    - [py_str]: the [str] builtin. *)
Record capability : Type := {
  load_models : option exn;
  zero_shot : string -> list value -> res (list value * list float);
  now : string;
  py_str : value -> string
}.

(** One call into the capability, in the order the calls are made. *)
Inductive event : Type :=
| EvLoadModels
| EvClassify (text : value).

End Ext.

(** ** team_classifier.py: classifying one tweet *)

Module TeamClassifier.
Import Py Ext.

(** The result of [classify_tweet]: the keys [team] and [confidence] of the
    returned dict, the only ones its callers read. *)
Record judgment : Type := {
  team : value;
  confidence : float
}.

Definition no_judgment : judgment := {| team := VNone; confidence := 0%float |}.

(** [preprocess_text(text)] with the default [max_length=512]. A text that
    is not a string and not falsy cannot be sliced and stripped. *)
Definition preprocess_text (text : value) : res string :=
  if negb (truthy text) then Ok ""
  else match text with
       | VStr s => Ok (strip (take 512 s))
       | VList _ => Raise (AttributeError "'list' object has no attribute 'strip'")
       | _ => Raise (TypeError "object is not subscriptable")
       end.

(** [np.argmax]: the first position of the maximum; a NaN counts as the
    maximum and ends the search. [best_i] and [best] are the running
    position and value, [i] the position of the head of [l]. *)
Fixpoint argmax_from (l : list float) (i best_i : nat) (best : float) : nat :=
  match l with
  | [] => best_i
  | x :: t =>
      if is_nan best then best_i
      else if negb (x <=? best)%float then argmax_from t (S i) i x
      else argmax_from t (S i) best_i best
  end.

Definition argmax (scores : list float) : res nat :=
  match scores with
  | [] => Raise (ValueError "attempt to get argmax of an empty sequence")
  | x :: t => Ok (argmax_from t 1 0 x)
  end.

(** [dict(zip(result["labels"], map(float, result["scores"])))], the
    [all_scores] entry of the result: building it hashes the labels that
    have a score. Only whether it raises matters to the callers. *)
Definition all_scores (labels : list value) (scores : list float) : res unit :=
  if forallb (fun l => match key_of l with Some _ => true | None => false end)
             (firstn (List.length scores) labels)
  then Ok tt
  else Raise (TypeError "unhashable type").

(** The body of the [try] block of [classify_tweet]. *)
Definition classify_tweet_body (cap : capability) (text : value) (team_labels : list value)
  : res judgment :=
  let+ processed_text := preprocess_text text in
  if String.eqb processed_text "" then Ok no_judgment
  else
    let+ result := zero_shot cap processed_text team_labels in
    let '(labels, scores) := result in
    let+ best_idx := argmax scores in
    match nth_error scores best_idx with
    | None => Raise (IndexError "list index out of range")
    | Some confidence =>
        let+ team :=
          (if (classifier_min_confidence <=? confidence)%float then
             match nth_error labels best_idx with
             | Some label => Ok label
             | None => Raise (IndexError "list index out of range")
             end
           else Ok VNone) in
        let+ _ := all_scores labels scores in
        Ok {| team := team; confidence := confidence |}
    end.

(** [TeamClassifier.classify_tweet] on an instance whose [load_model] has
    run, as [classify_teams] and [MarketResolver.initialize_models] leave
    it: the guard [if not self.classifier] does nothing, and every
    exception of the body becomes the judgment
    [{"team": None, "confidence": 0.0}]. *)
Definition classify_tweet (cap : capability) (text : value) (team_labels : list value)
  : judgment :=
  match classify_tweet_body cap text team_labels with
  | Ok j => j
  | Raise _ => no_judgment
  end.

(** The state of a [TeamClassifier] instance: [__init__] does not create
    the attribute [classifier]; [load_model] binds it to a pipeline. *)
Inductive instance : Type :=
| Fresh
| Loaded.

(** [TeamClassifier.classify_tweet(text, team_labels)] on an instance. The
    guard [if not self.classifier] stands before the [try]: on a fresh
    instance it reads an attribute that does not exist. *)
Definition classify_tweet_on (cap : capability) (self : instance) (text : value)
    (team_labels : list value) : res judgment :=
  match self with
  | Fresh => Raise (AttributeError "'TeamClassifier' object has no attribute 'classifier'")
  | Loaded => Ok (classify_tweet cap text team_labels)
  end.

End TeamClassifier.

(** ** market_resolver.py: class MarketResolver *)

Module MarketResolver.
Import Py Ext TeamClassifier.

(** One value of [outcome_counts]: [{"count": .., "confidence_sum": ..}]. *)
Record stat : Type := {
  count : Z;
  confidence_sum : float
}.

Definition counts : Type := odict stat.

Definition stat0 : stat := {| count := 0; confidence_sum := 0%float |}.

(** [{outcome: {"count": 0, "confidence_sum": 0.0} for outcome in outcomes}];
    an unhashable outcome raises [TypeError]. *)
Fixpoint init_counts (outcomes : list value) (acc : counts) : res counts :=
  match outcomes with
  | [] => Ok acc
  | outcome :: rest =>
      match key_of outcome with
      | None => Raise (TypeError "unhashable type")
      | Some k => init_counts rest (od_set acc k outcome stat0)
      end
  end.

(** The statements under "Only count if confidence is above threshold". *)
Definition bump (c : float) (s : stat) : stat :=
  {| count := count s + 1; confidence_sum := (confidence_sum s + c)%float |}.

(** The effect of one judgment on [outcome_counts] and [total_analyzed].
    [and] evaluates the membership test only when the threshold test
    passed; an unhashable team raises [TypeError] there, which the
    handler around the item logs and drops. *)
Definition count_judgment (st : counts * Z) (j : judgment) : counts * Z :=
  let '(outcome_counts, total_analyzed) := st in
  if (resolver_min_confidence <=? confidence j)%float then
    match key_of (team j) with
    | None => st
    | Some k =>
        if od_mem outcome_counts k
        then (od_update outcome_counts k (bump (confidence j)), total_analyzed + 1)
        else st
    end
  else st.

(** The body of the loop over [reply_tweets]; the state carries the calls
    made to the classifier so far. *)
Definition process_tweet (cap : capability) (outcomes : list value)
    (st : counts * Z * list event) (tweet : value) : counts * Z * list event :=
  let '(tally, log) := st in
  match tweet with
  | VDict d =>
      match dict_get d "text" with
      | None => st
      | Some text =>
          (count_judgment tally (classify_tweet cap text outcomes), (log ++ [EvClassify text])%list)
      end
  | _ => st
  end.

Definition process_tweets (cap : capability) (outcomes : list value)
    (tweets : list value) (st : counts * Z * list event) : counts * Z * list event :=
  fold_left (process_tweet cap outcomes) tweets st.

(** The loop state of "Prepare sentiment breakdown". *)
Record scan : Type := {
  sentiment_breakdown : odict value;
  max_count : Z;
  winning_outcome : value
}.

Definition scan0 : scan :=
  {| sentiment_breakdown := []; max_count := 0; winning_outcome := VNone |}.

(** [round(count / total_analyzed * 100, 2) if total_analyzed > 0 else 0]. *)
Definition support_percentage (cnt total_analyzed : Z) : value :=
  match total_analyzed with
  | Zpos t => VFloat (F64.py_round (F64.int_div cnt total_analyzed * F64.Z2float 100)%float 2)
  | _ => VInt 0
  end.

(** [round(data["confidence_sum"] / count, 4) if count > 0 else 0]. *)
Definition avg_confidence (s : stat) : value :=
  if 0 <? count s then VFloat (F64.py_round (confidence_sum s / F64.Z2float (count s))%float 4)
  else VInt 0.

Definition breakdown_entry (s : stat) (total_analyzed : Z) : value :=
  VDict [ (VStr "support_count", VInt (count s));
          (VStr "support_percentage", support_percentage (count s) total_analyzed);
          (VStr "avg_confidence", avg_confidence s) ].

(** [outcome_counts[winning_outcome]]. *)
Definition counts_getitem (outcome_counts : counts) (obj : value) : res stat :=
  match key_of obj with
  | None => Raise (TypeError "unhashable type")
  | Some k =>
      match od_get outcome_counts k with
      | Some s => Ok s
      | None => Raise (KeyError "winning_outcome")
      end
  end.

(** [data["confidence_sum"] / count if count > 0 else 0]. *)
Definition current_confidence (s : stat) : float :=
  if 0 <? count s then (confidence_sum s / F64.Z2float (count s))%float else 0%float.

(** [outcome_counts[winning_outcome]["confidence_sum"] / max_count
    if max_count > 0 else 0]. *)
Definition winning_confidence (outcome_counts : counts) (sc : scan) : res float :=
  if 0 <? max_count sc then
    let+ ws := counts_getitem outcome_counts (winning_outcome sc) in
    Ok (confidence_sum ws / F64.Z2float (max_count sc))%float
  else Ok 0%float.

(** One iteration of [for outcome, data in outcome_counts.items()]. *)
Definition scan_step (outcome_counts : counts) (total_analyzed : Z)
    (sc : scan) (item : key * value * stat) : res scan :=
  let '(k, outcome, data) := item in
  let bd := od_set (sentiment_breakdown sc) k outcome (breakdown_entry data total_analyzed) in
  if max_count sc <? count data then
    Ok {| sentiment_breakdown := bd; max_count := count data; winning_outcome := outcome |}
  else if (count data =? max_count sc) && (0 <? max_count sc) then
    let+ wc := winning_confidence outcome_counts sc in
    if (wc <? current_confidence data)%float
    then Ok {| sentiment_breakdown := bd; max_count := max_count sc;
               winning_outcome := outcome |}
    else Ok {| sentiment_breakdown := bd; max_count := max_count sc;
               winning_outcome := winning_outcome sc |}
  else Ok {| sentiment_breakdown := bd; max_count := max_count sc;
             winning_outcome := winning_outcome sc |}.

Fixpoint scan_items (outcome_counts : counts) (total_analyzed : Z)
    (items : list (key * value * stat)) (sc : scan) : res scan :=
  match items with
  | [] => Ok sc
  | item :: rest =>
      let+ sc' := scan_step outcome_counts total_analyzed sc item in
      scan_items outcome_counts total_analyzed rest sc'
  end.

(** [outcomes.index(obj)]: the first position holding a value equal to
    [obj]. *)
Fixpoint index_from (outcomes : list value) (k : key) (i : Z) : res Z :=
  match outcomes with
  | [] => Raise (ValueError "value is not in list")
  | o :: rest =>
      match key_of o with
      | Some k' => if key_eqb k' k then Ok i else index_from rest k (i + 1)
      | None => index_from rest k (i + 1)
      end
  end.

Definition py_index (outcomes : list value) (obj : value) : res Z :=
  match key_of obj with
  | Some k => index_from outcomes k 0
  | None => Raise (ValueError "value is not in list")
  end.

Definition breakdown_value (bd : odict value) : value :=
  VDict (map (fun e => (snd (fst e), snd e)) bd).

(** [_pending_resolution(market_data, method, message)]. *)
Definition _pending_resolution (cap : capability) (market_data : value)
    (method message : string) : res value :=
  let+ market_id := py_get market_data "market_id" (VStr "") in
  let+ question := py_get market_data "question" (VStr "") in
  let+ outcomes := py_get market_data "outcomes" (VList []) in
  Ok (VDict [ (VStr "market_id", market_id);
              (VStr "question", question);
              (VStr "outcomes", outcomes);
              (VStr "winning_outcome", VNone);
              (VStr "winning_index", VInt (-1));
              (VStr "confidence", VFloat 0%float);
              (VStr "resolution_method", VStr method);
              (VStr "status", VStr "pending");
              (VStr "message", VStr message);
              (VStr "timestamp", VStr (now cap)) ]).

(** The default of the [message] parameter of [_pending_resolution]. *)
Definition default_message : string := "Pending manual resolution".

(** [_create_error_response(market_data, error_msg)]. *)
Definition _create_error_response (cap : capability) (market_data : value)
    (error_msg : string) : res value :=
  let+ market_id := py_get market_data "market_id" (VStr "unknown") in
  let+ question := py_get market_data "question" (VStr "") in
  let+ outcomes := py_get market_data "outcomes" (VList []) in
  Ok (VDict [ (VStr "market_id", market_id);
              (VStr "question", question);
              (VStr "outcomes", outcomes);
              (VStr "error", VStr error_msg);
              (VStr "status", VStr "error");
              (VStr "timestamp", VStr (now cap)) ]).

Definition required_fields : list string :=
  ["market_id"; "question"; "outcomes"; "resolution_method"].

Fixpoint check_fields (market_data : value) (fields : list string) : res unit :=
  match fields with
  | [] => Ok tt
  | field :: rest =>
      let+ present := py_in field market_data in
      if present then check_fields market_data rest
      else Raise (ValueError ("Missing required field: " ++ field))
  end.

(** [_validate_market_data(market_data)]. *)
Definition _validate_market_data (market_data : value) : res unit :=
  let+ _ := check_fields market_data required_fields in
  let+ outcomes := py_getitem market_data "outcomes" in
  match outcomes with
  | VList l =>
      if Z.of_nat (List.length l) <? 2
      then Raise (ValueError "At least two outcomes are required")
      else Ok tt
  | _ => Raise (ValueError "At least two outcomes are required")
  end.

(** [initialize_models()]. *)
Definition initialize_models (cap : capability) : res unit :=
  match load_models cap with
  | Some e => Raise e
  | None => Ok tt
  end.

(** The part of [_resolve_by_sentiment] that follows the loop. *)
Definition finish_sentiment (cap : capability) (market_data : value)
    (outcomes : list value) (outcome_counts : counts) (total_analyzed : Z) : res value :=
  if total_analyzed =? 0
  then Raise (ValueError "No valid tweets could be analyzed for sentiment")
  else
    let+ sc := scan_items outcome_counts total_analyzed outcome_counts scan0 in
    if max_count sc =? 0
    then _pending_resolution cap market_data "sentiment"
           "Insufficient data for sentiment analysis"
    else
      let confidence := F64.py_round (F64.int_div (max_count sc) total_analyzed) 4 in
      let+ winning_index :=
        (if truthy (winning_outcome sc) then py_index outcomes (winning_outcome sc)
         else Ok (-1)) in
      let+ market_id := py_getitem market_data "market_id" in
      let+ question := py_getitem market_data "question" in
      Ok (VDict [ (VStr "market_id", market_id);
                  (VStr "question", question);
                  (VStr "outcomes", VList outcomes);
                  (VStr "winning_outcome", winning_outcome sc);
                  (VStr "winning_index", VInt winning_index);
                  (VStr "confidence", VFloat confidence);
                  (VStr "resolution_method", VStr "sentiment");
                  (VStr "sentiment_breakdown", breakdown_value (sentiment_breakdown sc));
                  (VStr "total_analyzed", VInt total_analyzed);
                  (VStr "timestamp", VStr (now cap)) ]).

(** [_resolve_by_sentiment(market_data)], with the calls made to the
    capability. *)
Definition _resolve_by_sentiment (cap : capability) (market_data : value)
  : res value * list event :=
  match initialize_models cap with
  | Raise e => (Raise e, [EvLoadModels])
  | Ok _ =>
      match py_getitem market_data "outcomes" with
      | Raise e => (Raise e, [EvLoadModels])
      | Ok (VList outcomes) =>
          match init_counts outcomes [] with
          | Raise e => (Raise e, [EvLoadModels])
          | Ok outcome_counts =>
              match (let+ reply := py_get market_data "reply_tweets" (VList []) in
                     py_iter reply) with
              | Raise e => (Raise e, [EvLoadModels])
              | Ok tweets =>
                  let '(oc, total_analyzed, log) :=
                    process_tweets cap outcomes tweets (outcome_counts, 0, [EvLoadModels]) in
                  (finish_sentiment cap market_data outcomes oc total_analyzed, log)
              end
          end
      | Ok _ => (Raise (TypeError "outcomes is not a list"), [EvLoadModels])
      end
  end.

(** [market_data.get("resolution_method", "sentiment").lower()]. *)
Definition resolution_method_of (market_data : value) : res string :=
  let+ m := py_get market_data "resolution_method" (VStr "sentiment") in
  match m with
  | VStr s => Ok (lower s)
  | _ => Raise (AttributeError "object has no attribute 'lower'")
  end.

(** The [try] block of [resolve_market]. *)
Definition resolve_market_body (cap : capability) (market_data : value)
  : res value * list event :=
  match _validate_market_data market_data with
  | Raise e => (Raise e, [])
  | Ok _ =>
      match resolution_method_of market_data with
      | Raise e => (Raise e, [])
      | Ok resolution_method =>
          if String.eqb resolution_method "sentiment"
          then _resolve_by_sentiment cap market_data
          else if String.eqb resolution_method "oracle"
          then (_pending_resolution cap market_data "oracle" default_message, [])
          else if String.eqb resolution_method "manual"
          then (_pending_resolution cap market_data "manual" default_message, [])
          else (Raise (ValueError ("Unsupported resolution method: " ++ resolution_method)), [])
      end
  end.

(** [MarketResolver.resolve_market(market_data)]: the handler turns every
    exception of the body into an error response; what the construction of
    that response raises leaves the method. *)
Definition resolve_market (cap : capability) (market_data : value)
  : res value * list event :=
  match resolve_market_body cap market_data with
  | (Ok r, log) => (Ok r, log)
  | (Raise e, log) => (_create_error_response cap market_data (str_exn e), log)
  end.

(** The module-level [resolve_market()]: [parsed] is the outcome of reading
    and decoding standard input ([ValueError] for blank input or invalid
    JSON); the handler answers every exception with a bare error record. *)
Definition resolve_market_main (cap : capability) (parsed : res value) : value :=
  match (let+ market_data := parsed in fst (resolve_market cap market_data)) with
  | Ok result => result
  | Raise e =>
      VDict [ (VStr "error", VStr (str_exn e));
              (VStr "status", VStr "error");
              (VStr "timestamp", VStr (now cap)) ]
  end.

End MarketResolver.

(** ** team_classifier.py: classify_teams *)

Module ClassifyTeams.
Import Py Ext TeamClassifier.

(** One entry of a team's [supporters] list. *)
Record supporter : Type := {
  tweet_id : string;
  author : value;
  text : value;
  s_confidence : float
}.

(** One value of [team_stats]. *)
Record team_stat : Type := {
  t_count : Z;
  percentage : float;
  t_avg_confidence : float;
  t_confidence_sum : float;
  supporters : list supporter
}.

Definition team_stat0 : team_stat :=
  {| t_count := 0; percentage := 0%float; t_avg_confidence := 0%float;
     t_confidence_sum := 0%float; supporters := [] |}.

(** The dict comprehension that initialises [team_stats]. *)
Fixpoint init_stats (team_labels : list value) (acc : odict team_stat)
  : res (odict team_stat) :=
  match team_labels with
  | [] => Ok acc
  | t :: rest =>
      match key_of t with
      | None => Raise (TypeError "unhashable type")
      | Some k => init_stats rest (od_set acc k t team_stat0)
      end
  end.

(** The three statements of "Update team stats". *)
Definition add_supporter (s : supporter) (ts : team_stat) : team_stat :=
  {| t_count := t_count ts + 1;
     percentage := percentage ts;
     t_avg_confidence := t_avg_confidence ts;
     t_confidence_sum := (t_confidence_sum ts + s_confidence s)%float;
     supporters := (supporters ts ++ [s])%list |}.

(** The body of the loop over [tweets]; the state is [team_stats] and
    [unclassified_count]. A truthy, unhashable team makes the membership
    test raise. *)
Definition classify_step (cap : capability) (team_labels : list value)
    (st : odict team_stat * Z) (tweet : value) : res (odict team_stat * Z) :=
  let '(team_stats, unclassified_count) := st in
  match tweet with
  | VDict d =>
      match dict_get d "text" with
      | None => Ok st
      | Some txt =>
          let id := py_str cap (dict_get_default d "id" (VStr "")) in
          let auth := dict_get_default d "author" (VStr "unknown") in
          let result := classify_tweet cap txt team_labels in
          if truthy (team result) then
            match key_of (team result) with
            | None => Raise (TypeError "unhashable type")
            | Some k =>
                if od_mem team_stats k
                then Ok (od_update team_stats k
                           (add_supporter {| tweet_id := id; author := auth; text := txt;
                                             s_confidence := confidence result |}),
                         unclassified_count)
                else Ok (team_stats, unclassified_count + 1)
            end
          else Ok (team_stats, unclassified_count + 1)
      end
  | _ => Ok st
  end.

Fixpoint classify_loop (cap : capability) (team_labels : list value)
    (tweets : list value) (st : odict team_stat * Z) : res (odict team_stat * Z) :=
  match tweets with
  | [] => Ok st
  | tweet :: rest =>
      let+ st' := classify_step cap team_labels st tweet in
      classify_loop cap team_labels rest st'
  end.

(** [sum(stats["count"] for stats in team_stats.values())]. *)
Definition sum_counts (team_stats : odict team_stat) : Z :=
  fold_left (fun acc e => acc + t_count (snd e)) team_stats 0.

(** The two assignments to [percentage] and [avg_confidence]. *)
Definition with_statistics (total_classified : Z) (ts : team_stat) : team_stat :=
  {| t_count := t_count ts;
     percentage := (F64.int_div (t_count ts) total_classified * F64.Z2float 100)%float;
     t_avg_confidence :=
       if 0 <? t_count ts then (t_confidence_sum ts / F64.Z2float (t_count ts))%float
       else 0%float;
     t_confidence_sum := t_confidence_sum ts;
     supporters := supporters ts |}.

(** The winner scan of "Check for single team dominance": the state holds
    [winning_team] and the percentage the source reads back from
    [team_stats[winning_team]], the entry of an earlier team, which is
    already updated. *)
Definition winner_step (winner : value * float) (item : key * value * team_stat)
  : value * float :=
  let '(_, team, stats) := item in
  if (0.5 <=? percentage stats / F64.Z2float 100)%float &&
     match fst winner with
     | VNone => true
     | _ => (snd winner <? percentage stats)%float
     end
  then (team, percentage stats)
  else winner.

(** [supporters.sort(key=lambda x: x["confidence"], reverse=True)]: the
    stable sort by decreasing confidence. An item passes only the items
    whose confidence is strictly greater, so equal items keep their order
    of arrival. Python's sort compares keys with [<] alone; on keys that
    are pairwise comparable, as the confidences of accepted items are,
    every stable sort returns this list. *)
Fixpoint insert_desc (x : supporter) (l : list supporter) : list supporter :=
  match l with
  | [] => [x]
  | y :: t =>
      if (s_confidence x <? s_confidence y)%float then y :: insert_desc x t
      else x :: l
  end.

Definition sort_desc (l : list supporter) : list supporter :=
  fold_right insert_desc [] l.

(** "Keep only top 100 supporters": the sort, then the slice [[:100]]. *)
Definition clean_up (ts : team_stat) : team_stat :=
  {| t_count := t_count ts;
     percentage := percentage ts;
     t_avg_confidence := t_avg_confidence ts;
     t_confidence_sum := t_confidence_sum ts;
     supporters := firstn 100 (sort_desc (supporters ts)) |}.

Definition map_stats (f : team_stat -> team_stat) (d : odict team_stat) : odict team_stat :=
  map (fun e => (fst e, f (snd e))) d.

(** The result dict of [classify_teams]; [team_stats] is reported without
    the [confidence_sum] field, which the source pops. *)
Inductive teams_result : Type :=
| TeamsOk (controversy : value) (winning_team : value) (team_stats : odict team_stat)
          (total_classified unclassified_count : Z)
| TeamsError (error : string) (controversy : value).

(** The checks made on the decoded input. *)
Definition check_input (data : value) : res (value * list value * list value) :=
  match data with
  | VDict d =>
      if dict_has d "controversy" && dict_has d "teams" && dict_has d "tweets" then
        let+ controversy := py_getitem data "controversy" in
        let+ teams := py_getitem data "teams" in
        let+ tweets := py_getitem data "tweets" in
        match teams with
        | VList team_labels =>
            if Z.of_nat (List.length team_labels) <? 2
            then Raise (ValueError "At least two team labels are required")
            else match tweets with
                 | VList tw => Ok (controversy, team_labels, tw)
                 | _ => Raise (ValueError "Tweets must be a list")
                 end
        | _ => Raise (ValueError "At least two team labels are required")
        end
      else Raise (ValueError "Invalid input format. Expected keys: controversy, teams, tweets")
  | _ => Raise (ValueError "Invalid input format. Expected keys: controversy, teams, tweets")
  end.

(** [team_stats] as the loop over the tweets leaves it. *)
Definition tally_teams (cap : capability) (team_labels tweets : list value)
  : res (odict team_stat * Z) :=
  let+ team_stats := init_stats team_labels [] in
  classify_loop cap team_labels tweets (team_stats, 0).

(** The statistics, the winner and the clean-up that follow the loop. *)
Definition report_teams (controversy : value) (tally : odict team_stat * Z) : teams_result :=
  let '(team_stats, unclassified_count) := tally in
  let total_classified := sum_counts team_stats in
  let team_stats' :=
    if 0 <? total_classified then map_stats (with_statistics total_classified) team_stats
    else team_stats in
  let winning_team :=
    if 0 <? total_classified then fst (fold_left winner_step team_stats' (VNone, 0%float))
    else VNone in
  TeamsOk controversy
          (if truthy winning_team then winning_team else VStr "Undecided")
          (map_stats clean_up team_stats')
          total_classified unclassified_count.

(** The [try] block of [classify_teams]; [parsed] is the outcome of reading
    and decoding standard input. *)
Definition classify_teams_body (cap : capability) (parsed : res value) : res teams_result :=
  let+ data := parsed in
  let+ input := check_input data in
  let '(controversy, team_labels, tweets) := input in
  let+ _ := match load_models cap with Some e => Raise e | None => Ok tt end in
  let+ tally := tally_teams cap team_labels tweets in
  Ok (report_teams controversy tally).

(** [classify_teams()]: the handler reads [data.get("controversy", "")]
    when [data] was bound, which raises for a decoded value that is not a
    dict. *)
Definition classify_teams (cap : capability) (parsed : res value) : res teams_result :=
  match classify_teams_body cap parsed with
  | Ok r => Ok r
  | Raise e =>
      match parsed with
      | Raise _ => Ok (TeamsError (str_exn e) (VStr "Unknown"))
      | Ok data =>
          let+ controversy := py_get data "controversy" (VStr "") in
          Ok (TeamsError (str_exn e) controversy)
      end
  end.

End ClassifyTeams.

(** ** sentiment_hf.py: the FinBERT analyzer *)

Module SentimentHF.
Import Py.
Local Open Scope list_scope.

(** What the analyzer obtains from outside.
    - [load_analyzer]: the exception raised by [SentimentAnalyzer()] and
      [load_model()], [None] when loading succeeds.
    - [sentiment_pipeline text]: the sentiment-analysis pipeline; a result
      lists, for each prediction, the [label] and [score] entries it holds,
      a prediction that is not a list being the list of itself. *)
Record analyzer_capability : Type := {
  load_analyzer : option exn;
  sentiment_pipeline : string -> res (list (list (string * float)))
}.

(** [0.3] and [-0.3], the bounds of the neutral band. *)
Definition positive_bound : float := 0x1.3333333333333p-2%float.
Definition negative_bound : float := (- 0x1.3333333333333p-2)%float.

(** The part of [s] before its last space, if it holds one. *)
Fixpoint before_last_space (s : string) : option string :=
  match s with
  | EmptyString => None
  | String c t =>
      match before_last_space t with
      | Some p => Some (String c p)
      | None => if Ascii.eqb c " "%char then Some EmptyString else None
      end
  end.

(** [s.rsplit(' ', 1)[0]]. *)
Definition rsplit_head (s : string) : string :=
  match before_last_space s with
  | Some p => p
  | None => s
  end.

(** [SentimentAnalyzer.preprocess_text(text)], [MAX_LENGTH] being 512. *)
Definition preprocess_text (text : string) : string :=
  if (512 <? String.length text)%nat
  then strip (rsplit_head (take 512 text) ++ "...")%string
  else strip text.

(** The polarity of a lower-cased label. *)
Definition polarity_of (sentiment : string) : float :=
  if contains "pos" sentiment then 1%float
  else if contains "neg" sentiment then (-1)%float
  else 0%float.

(** The loop state of [predict_sentiment]: [detailed_results],
    [total_polarity], [total_confidence]. *)
Definition predict_step (processed_text : string) (st : list value * float * float)
    (pred : list (string * float)) : list value * float * float :=
  let '(detailed_results, total_polarity, total_confidence) := st in
  match pred with
  | [] => st
  | (label, confidence) :: _ =>
      let sentiment := lower label in
      let polarity := polarity_of sentiment in
      (detailed_results ++ [VDict [ (VStr "text", VStr processed_text);
                                    (VStr "sentiment", VStr sentiment);
                                    (VStr "confidence", VFloat confidence);
                                    (VStr "polarity", VFloat polarity) ]],
       (total_polarity + polarity * confidence)%float,
       (total_confidence + confidence)%float)
  end.

(** The overall outcome of an average polarity. *)
Definition outcome_of (avg_polarity : float) : string :=
  if (positive_bound <? avg_polarity)%float then "POSITIVE"
  else if (avg_polarity <? negative_bound)%float then "NEGATIVE"
  else "NEUTRAL".

(** The [try] block of [predict_sentiment]. *)
Definition predict_sentiment_body (cap : analyzer_capability) (text : string) : res value :=
  let processed_text := preprocess_text text in
  let+ predictions := sentiment_pipeline cap processed_text in
  let '(detailed_results, total_polarity, total_confidence) :=
    fold_left (predict_step processed_text) predictions ([], 0%float, 0%float) in
  let sample_size := Z.of_nat (List.length detailed_results) in
  if sample_size =? 0 then Raise (ValueError "No valid tweets to analyze")
  else
    let avg_polarity := (total_polarity / F64.Z2float sample_size)%float in
    let avg_confidence := (total_confidence / F64.Z2float sample_size)%float in
    Ok (VDict [ (VStr "outcome", VStr (outcome_of avg_polarity));
                (VStr "avg_polarity", VFloat avg_polarity);
                (VStr "avg_confidence", VFloat avg_confidence);
                (VStr "sample_size", VInt sample_size);
                (VStr "detailed_sentiments", VList detailed_results) ]).

(** The record [predict_sentiment] returns "in case of errors". *)
Definition neutral_fallback : value :=
  VDict [ (VStr "sentiment", VStr "neutral");
          (VStr "confidence", VFloat 0%float);
          (VStr "polarity", VFloat 0%float) ].

(** [SentimentAnalyzer.predict_sentiment(text)] on a loaded analyzer, as
    [analyze_sentiment_hf] calls it: [load_model] has run before. *)
Definition predict_sentiment (cap : analyzer_capability) (text : string) : value :=
  match predict_sentiment_body cap text with
  | Ok r => r
  | Raise _ => neutral_fallback
  end.

(** [d[name]] read as a summand of [total += d[name]]; a missing key
    raises [KeyError], whose [str] is the quoted key. *)
Definition summand (d : value) (name : string) : res float :=
  match d with
  | VDict items =>
      match dict_get items name with
      | Some (VFloat f) => Ok f
      | Some (VInt z) => Ok (F64.Z2float z)
      | Some _ => Raise (TypeError "unsupported operand type(s) for +=")
      | None => Raise (KeyError ("'" ++ name ++ "'")%string)
      end
  | _ => Raise (TypeError "object is not subscriptable")
  end.

(** [{"tweet_id": tweet_id, "text": text, **sentiment_result}]; the keys of
    a result of [predict_sentiment] are none of [tweet_id], [text]. *)
Definition tweet_result (tweet_id : value) (text : string) (sentiment_result : value) : value :=
  match sentiment_result with
  | VDict items => VDict ((VStr "tweet_id", tweet_id) :: (VStr "text", VStr text) :: items)
  | _ => VDict [(VStr "tweet_id", tweet_id); (VStr "text", VStr text)]
  end.

(** The body of the loop of [analyze_sentiment_hf]; the state is [results],
    [total_polarity], [total_confidence]. A text that is not a string has
    no [strip]. *)
Definition analyze_step (cap : analyzer_capability) (st : list value * float * float)
    (tweet : value) : res (list value * float * float) :=
  let '(results, total_polarity, total_confidence) := st in
  match tweet with
  | VDict d =>
      match dict_get d "text" with
      | None => Ok st
      | Some (VStr text) =>
          if String.eqb (strip text) "" then Ok st
          else
            let tweet_id := dict_get_default d "id" (VStr "unknown") in
            let sentiment_result := predict_sentiment cap text in
            let+ polarity := summand sentiment_result "polarity" in
            let+ confidence := summand sentiment_result "confidence" in
            Ok (results ++ [tweet_result tweet_id text sentiment_result],
                (total_polarity + polarity)%float,
                (total_confidence + confidence)%float)
      | Some _ => Raise (AttributeError "object has no attribute 'strip'")
      end
  | _ => Ok st
  end.

Fixpoint analyze_loop (cap : analyzer_capability) (tweets : list value)
    (st : list value * float * float) : res (list value * float * float) :=
  match tweets with
  | [] => Ok st
  | tweet :: rest =>
      let+ st' := analyze_step cap st tweet in
      analyze_loop cap rest st'
  end.

(** The [try] block of [analyze_sentiment_hf]; [parsed] is the outcome of
    reading and decoding standard input. *)
Definition analyze_sentiment_hf_body (cap : analyzer_capability) (parsed : res value)
  : res value :=
  let+ decoded := parsed in
  match decoded with
  | VList tweets =>
      let+ _ := match load_analyzer cap with Some e => Raise e | None => Ok tt end in
      let+ st := analyze_loop cap tweets ([], 0%float, 0%float) in
      let '(results, total_polarity, total_confidence) := st in
      let sample_size := Z.of_nat (List.length results) in
      if sample_size =? 0 then Raise (ValueError "No valid tweets to analyze")
      else
        let avg_polarity := (total_polarity / F64.Z2float sample_size)%float in
        let avg_confidence := (total_confidence / F64.Z2float sample_size)%float in
        Ok (VDict [ (VStr "outcome", VStr (outcome_of avg_polarity));
                    (VStr "avg_polarity", VFloat avg_polarity);
                    (VStr "avg_confidence", VFloat avg_confidence);
                    (VStr "sample_size", VInt sample_size);
                    (VStr "detailed_sentiments", VList results) ])
  | _ => Raise (ValueError "Input must be a JSON array of tweets")
  end.

(** [analyze_sentiment_hf()]. *)
Definition analyze_sentiment_hf (cap : analyzer_capability) (parsed : res value) : value :=
  match analyze_sentiment_hf_body cap parsed with
  | Ok r => r
  | Raise e =>
      VDict [ (VStr "error", VStr (str_exn e));
              (VStr "outcome", VStr "ERROR");
              (VStr "avg_polarity", VFloat 0%float);
              (VStr "avg_confidence", VFloat 0%float);
              (VStr "sample_size", VInt 0);
              (VStr "detailed_sentiments", VList []) ]
  end.

End SentimentHF.

(** ** analyzer.py: the aggregate of TextBlob sentiments *)

Module Analyzer.
Import Py.
Local Open Scope list_scope.

(** What [process_tweets] obtains from outside: [analyze_sentiment(text)],
    the polarity and the subjectivity TextBlob gives for the preprocessed
    text, or the exception raised on the way. *)
Record sentiment_capability : Type := {
  analyze_sentiment : value -> res (float * float)
}.

(** The overall outcome of an average polarity: the bounds are [0.3] and
    [-0.3]. *)
Definition outcome_of (avg_polarity : float) : string :=
  if (0x1.3333333333333p-2 <? avg_polarity)%float then "POSITIVE"
  else if (avg_polarity <? - 0x1.3333333333333p-2)%float then "NEGATIVE"
  else "NEUTRAL".

(** The record returned for no tweets. *)
Definition empty_result : value :=
  VDict [ (VStr "outcome", VStr "NEUTRAL");
          (VStr "avg_polarity", VFloat 0%float);
          (VStr "avg_subjectivity", VFloat 0%float);
          (VStr "sample_size", VInt 0);
          (VStr "sentiments", VList []) ].

(** The body of the loop of [process_tweets]; the state is [sentiments],
    [total_polarity], [total_subjectivity]. *)
Definition process_step (cap : sentiment_capability) (st : list value * float * float)
    (tweet : value) : res (list value * float * float) :=
  let '(sentiments, total_polarity, total_subjectivity) := st in
  let+ text := py_get tweet "text" (VStr "") in
  let+ ps := analyze_sentiment cap text in
  let '(polarity, subjectivity) := ps in
  let+ tweet_id := py_get tweet "id" (VStr "") in
  Ok (sentiments ++ [VDict [ (VStr "tweet_id", tweet_id);
                             (VStr "polarity", VFloat polarity);
                             (VStr "subjectivity", VFloat subjectivity) ]],
      (total_polarity + polarity)%float,
      (total_subjectivity + subjectivity)%float).

Fixpoint process_loop (cap : sentiment_capability) (tweets : list value)
    (st : list value * float * float) : res (list value * float * float) :=
  match tweets with
  | [] => Ok st
  | tweet :: rest =>
      let+ st' := process_step cap st tweet in
      process_loop cap rest st'
  end.

(** [process_tweets(tweets)]. *)
Definition process_tweets (cap : sentiment_capability) (tweets : list value) : res value :=
  match tweets with
  | [] => Ok empty_result
  | _ :: _ =>
      let+ st := process_loop cap tweets ([], 0%float, 0%float) in
      let '(sentiments, total_polarity, total_subjectivity) := st in
      let n := Z.of_nat (List.length tweets) in
      let avg_polarity := (total_polarity / F64.Z2float n)%float in
      let avg_subjectivity := (total_subjectivity / F64.Z2float n)%float in
      Ok (VDict [ (VStr "outcome", VStr (outcome_of avg_polarity));
                  (VStr "avg_polarity", VFloat (F64.py_round avg_polarity 4));
                  (VStr "avg_subjectivity", VFloat (F64.py_round avg_subjectivity 4));
                  (VStr "sample_size", VInt n);
                  (VStr "sentiments", VList sentiments) ])
  end.

(** What [main] finds on standard input: nothing but white space, text
    that [json.loads] rejects with a message, or a decoded value. *)
Inductive stdin_input : Type :=
| Blank
| Invalid (msg : string)
| Decoded (v : value).

(** What [main] does: it prints a result on standard output, or prints an
    error on standard error and exits with status 1. *)
Inductive main_output : Type :=
| Printed (result : value)
| Failed (error : string).

(** [main()]. *)
Definition main (cap : sentiment_capability) (input : stdin_input) : main_output :=
  match input with
  | Blank => Failed "No input data provided"
  | Invalid msg => Failed ("Invalid JSON input: " ++ msg)
  | Decoded v =>
      let tweets := match v with VList l => l | _ => [v] end in
      match process_tweets cap tweets with
      | Ok result => Printed result
      | Raise e => Failed ("Error processing tweets: " ++ str_exn e)
      end
  end.

End Analyzer.

(** ** Views of the state and of the records, used to state the properties *)

Module Views.
Import Py Ext TeamClassifier MarketResolver ClassifyTeams.
Local Open Scope list_scope.

(** The error response built for a dict. *)
Definition error_record (cap : capability) (d : list (value * value)) (msg : string) : value :=
  VDict [ (VStr "market_id", dict_get_default d "market_id" (VStr "unknown"));
          (VStr "question", dict_get_default d "question" (VStr ""));
          (VStr "outcomes", dict_get_default d "outcomes" (VList []));
          (VStr "error", VStr msg);
          (VStr "status", VStr "error");
          (VStr "timestamp", VStr (now cap)) ].

(** The pending response built for a dict. *)
Definition pending_record (cap : capability) (d : list (value * value))
    (method message : string) : value :=
  VDict [ (VStr "market_id", dict_get_default d "market_id" (VStr ""));
          (VStr "question", dict_get_default d "question" (VStr ""));
          (VStr "outcomes", dict_get_default d "outcomes" (VList []));
          (VStr "winning_outcome", VNone);
          (VStr "winning_index", VInt (-1));
          (VStr "confidence", VFloat 0%float);
          (VStr "resolution_method", VStr method);
          (VStr "status", VStr "pending");
          (VStr "message", VStr message);
          (VStr "timestamp", VStr (now cap)) ].

(** The judgment the loop obtains for a reply, if it classifies it. *)
Definition tweet_judgment (cap : capability) (outcomes : list value) (tw : value)
  : option judgment :=
  match tw with
  | VDict d =>
      match dict_get d "text" with
      | Some text => Some (classify_tweet cap text outcomes)
      | None => None
      end
  | _ => None
  end.

(** The counts alone: what is left of [outcome_counts] when the confidence
    sums are forgotten. *)
Definition counts_view (oc : counts) : odict Z :=
  map (fun e => (fst e, count (snd e))) oc.

Definition sum_of_counts (oc : counts) : Z :=
  fold_right (fun e acc => count (snd e) + acc) 0 oc.

(** The largest count, 0 for no outcome. *)
Definition largest_count (oc : counts) : Z :=
  fold_right (fun e acc => Z.max (count (snd e)) acc) 0 oc.

(** Well-formed counts: distinct keys, each the key of its object, and no
    negative count. *)
Record well_formed (oc : counts) : Prop := {
  wf_nodup : NoDup (od_keys oc);
  wf_objects : forall k obj s, In (k, obj, s) oc -> key_of obj = Some k;
  wf_nonneg : forall k obj s, In (k, obj, s) oc -> 0 <= count s
}.

(** The loop on the counts alone. *)
Definition view_step (cap : capability) (outcomes : list value)
    (st : odict Z * Z) (tw : value) : odict Z * Z :=
  match tweet_judgment cap outcomes tw with
  | None => st
  | Some j =>
      if (resolver_min_confidence <=? confidence j)%float then
        match key_of (team j) with
        | None => st
        | Some k =>
            if od_mem (fst st) k then (od_update (fst st) k Z.succ, snd st + 1) else st
        end
      else st
  end.

(** The keys of the outcomes of a market, in order, without repeats. *)
Fixpoint outcome_keys (outcomes : list value) : option (list key) :=
  match outcomes with
  | [] => Some []
  | o :: rest =>
      match key_of o, outcome_keys rest with
      | Some k, Some ks => Some (k :: ks)
      | _, _ => None
      end
  end.

(** [confidence_sum / count], the mean confidence of an outcome. *)
Definition mean_confidence (s : stat) : float :=
  (confidence_sum s / F64.Z2float (count s))%float.

(** What the scan knows after it visited [visited]: the running maximum
    is the largest count; when it is positive the running winner is one of
    the visited outcomes that reach it, no visited outcome that reaches it
    has a strictly greater mean, and the winner's mean is not below or
    equal to the mean of any such outcome visited before it. *)
Definition scan_inv (visited : counts) (sc : scan) : Prop :=
  max_count sc = largest_count visited /\
  ((max_count sc = 0 /\ winning_outcome sc = VNone) \/
   (0 < max_count sc /\
    exists pre k s post,
      visited = (pre ++ (k, winning_outcome sc, s) :: post)%list /\
      count s = max_count sc /\
      (forall e, In e pre -> count (snd e) = max_count sc ->
                 (mean_confidence s <=? mean_confidence (snd e))%float = false) /\
      (forall e, In e post -> count (snd e) = max_count sc ->
                 (mean_confidence s <? mean_confidence (snd e))%float = false))).

Definition breakdown_inv (total : Z) (visited : counts) (sc : scan) : Prop :=
  sentiment_breakdown sc = map (fun e => (fst e, breakdown_entry (snd e) total)) visited.

(** The decided record. *)
Definition decided_record (cap : capability) (market_id question : value)
    (outcomes : list value) (sc : scan) (winning_index : Z) (total_analyzed : Z) : value :=
  VDict [ (VStr "market_id", market_id);
          (VStr "question", question);
          (VStr "outcomes", VList outcomes);
          (VStr "winning_outcome", winning_outcome sc);
          (VStr "winning_index", VInt winning_index);
          (VStr "confidence",
           VFloat (F64.py_round (F64.int_div (max_count sc) total_analyzed) 4));
          (VStr "resolution_method", VStr "sentiment");
          (VStr "sentiment_breakdown", breakdown_value (sentiment_breakdown sc));
          (VStr "total_analyzed", VInt total_analyzed);
          (VStr "timestamp", VStr (now cap)) ].

(** The position [outcomes.index] reports: the first one whose value has
    the key [k]. *)
Definition first_position (outcomes : list value) (k : key) (i : Z) : Prop :=
  0 <= i /\
  (exists o, nth_error outcomes (Z.to_nat i) = Some o /\ key_of o = Some k) /\
  (forall j o, (j < Z.to_nat i)%nat -> nth_error outcomes j = Some o -> key_of o <> Some k).

(** [r[name]] for a record. *)
Definition field (r : value) (name : string) : option value :=
  match r with
  | VDict rd => dict_get rd name
  | _ => None
  end.

(** The breakdown entry of an outcome, written out. *)
Definition entry_of (s : stat) (total : Z) : value :=
  VDict [ (VStr "support_count", VInt (count s));
          (VStr "support_percentage",
           VFloat (F64.py_round (F64.int_div (count s) total * F64.Z2float 100)%float 2));
          (VStr "avg_confidence",
           if 0 <? count s then VFloat (F64.py_round (mean_confidence s) 4) else VInt 0) ].

(** The part of the breakdown that rests on the counts: for each outcome
    its [support_count] and its [support_percentage]. *)
Definition support_view (r : value) : option (list (value * option value * option value)) :=
  match field r "sentiment_breakdown" with
  | Some (VDict bd) =>
      Some (map (fun p => (fst p, field (snd p) "support_count",
                           field (snd p) "support_percentage")) bd)
  | _ => None
  end.

(** The supporter entry a tweet yields, with the key of its team, when the
    classifier names a truthy, hashable team for it. *)
Definition supporter_of (cap : capability) (team_labels : list value) (tw : value)
  : option (key * supporter) :=
  match tw with
  | VDict d =>
      match dict_get d "text" with
      | Some txt =>
          let result := classify_tweet cap txt team_labels in
          if truthy (team result) then
            match key_of (team result) with
            | Some k =>
                Some (k, {| tweet_id := py_str cap (dict_get_default d "id" (VStr ""));
                            author := dict_get_default d "author" (VStr "unknown");
                            text := txt;
                            s_confidence := confidence result |})
            | None => None
            end
          else None
      | None => None
      end
  | _ => None
  end.

(** The qualifying items of the team with key [k], in order of arrival. *)
Definition qualifying (cap : capability) (team_labels tweets : list value) (k : key)
  : list supporter :=
  flat_map (fun tw =>
              match supporter_of cap team_labels tw with
              | Some (k', s) => if key_eqb k' k then [s] else []
              | None => []
              end) tweets.



(** [sum(e["support_percentage"] for e in breakdown.values())]. *)
Definition sum_percentages (bd : list (value * value)) : float :=
  fold_left (fun acc p =>
               match field (snd p) "support_percentage" with
               | Some (VFloat f) => (acc + f)%float
               | _ => acc
               end) bd 0%float.

Definition result_of (run : res value * list event) : value :=
  match fst run with
  | Ok r => r
  | Raise _ => VNone
  end.

End Views.

(** ** Further views, for the properties beyond the laws *)

Module MoreViews.
Import Py Ext TeamClassifier MarketResolver ClassifyTeams Views.
Local Open Scope list_scope.

(** The texts the loop of [_resolve_by_sentiment] hands to the classifier:
    the [text] of every reply that is a dict and has one, in order. *)
Definition reply_texts (tweets : list value) : list value :=
  flat_map (fun tw =>
              match tw with
              | VDict d => match dict_get d "text" with Some t => [t] | None => [] end
              | _ => []
              end) tweets.

(** A reply counts: it is classified, its judgment reaches the resolver's
    threshold and names one of the keys of [outcome_counts]. *)
Definition accepted_reply (cap : capability) (outcomes : list value) (oc : counts)
    (tw : value) : bool :=
  match tweet_judgment cap outcomes tw with
  | Some j =>
      (resolver_min_confidence <=? confidence j)%float &&
      match key_of (team j) with
      | Some k => od_mem oc k
      | None => false
      end
  | None => false
  end.

(** The loop of [_resolve_by_sentiment] on [outcome_counts] and
    [total_analyzed] alone. *)
Definition tally_step (cap : capability) (outcomes : list value)
    (st : counts * Z) (tw : value) : counts * Z :=
  match tweet_judgment cap outcomes tw with
  | Some j => count_judgment st j
  | None => st
  end.

(** A reply the loop passes over or fails to classify: it is no dict, has
    no [text], or the body of [classify_tweet] raises for its text. *)
Definition fails (cap : capability) (outcomes : list value) (tw : value) : Prop :=
  match tw with
  | VDict d =>
      match dict_get d "text" with
      | Some text => exists e, classify_tweet_body cap text outcomes = Raise e
      | None => True
      end
  | _ => True
  end.

(** A tweet [classify_teams] classifies: a dict with a [text]. *)
Definition has_text (tw : value) : bool :=
  match tw with
  | VDict d => dict_has d "text"
  | _ => false
  end.

(** The sum of the counts of a reported [team_stats]. *)
Definition sum_team_counts (stats : odict team_stat) : Z :=
  fold_right (fun e acc => t_count (snd e) + acc) 0 stats.

(** The count of a team is the length of its list of supporters, as long
    as the list is not cut. *)
Definition counted (st : odict team_stat) : Prop :=
  forall k obj ts, In (k, obj, ts) st -> t_count ts = Z.of_nat (List.length (supporters ts)).

(** Before the statistics are computed every team keeps the percentage
    and the average it was created with. *)
Definition unrated (st : odict team_stat) : Prop :=
  forall k obj ts, In (k, obj, ts) st ->
    percentage ts = 0%float /\ t_avg_confidence ts = 0%float.

End MoreViews.

Module SentimentViews.
Import Py SentimentHF.

(** A prediction the loop of [predict_sentiment] reads: a list that is
    not empty. *)
Definition has_prediction (pred : list (string * float)) : bool :=
  match pred with
  | [] => false
  | _ :: _ => true
  end.

(** An entry of [detailed_sentiments] made from the fallback record. *)
Definition fallback_entry (r : value) : Prop :=
  exists tweet_id text, r = tweet_result tweet_id text neutral_fallback.

(** A tweet the loop of [analyze_sentiment_hf] analyses and for which the
    [try] block of [predict_sentiment] returns its result. *)
Definition predicted (cap : analyzer_capability) (tw : value) : Prop :=
  match tw with
  | VDict d =>
      match dict_get d "text" with
      | Some (VStr text) =>
          strip text <> "" /\ exists r, predict_sentiment_body cap text = Ok r
      | _ => False
      end
  | _ => False
  end.

(** What the aggregates are while the loop of [analyze_sentiment_hf]
    runs: both totals are 0.0 and every result comes from the fallback
    record. *)
Definition all_fallback (st : list value * float * float) : Prop :=
  Forall fallback_entry (fst (fst st)) /\ snd (fst st) = 0%float /\ snd st = 0%float.

End SentimentViews.

Module AnalyzerViews.
Import Py Analyzer.

(** A tweet [process_tweets] can analyse: a dict whose [text], the empty
    string when it has none, [analyze_sentiment] accepts. *)
Definition analysable (cap : sentiment_capability) (tw : value) : Prop :=
  match tw with
  | VDict d => exists ps, analyze_sentiment cap (dict_get_default d "text" (VStr "")) = Ok ps
  | _ => False
  end.

(** The entry of [sentiments] that belongs to a tweet. *)
Definition entry_for (cap : sentiment_capability) (tw entry : value) : Prop :=
  exists d polarity subjectivity,
    tw = VDict d /\
    analyze_sentiment cap (dict_get_default d "text" (VStr "")) = Ok (polarity, subjectivity) /\
    entry = VDict [ (VStr "tweet_id", dict_get_default d "id" (VStr ""));
                    (VStr "polarity", VFloat polarity);
                    (VStr "subjectivity", VFloat subjectivity) ].

End AnalyzerViews.

(** ** Views for the laws of the loop and of the order of the replies *)

Module LawViews.
Import Py Ext TeamClassifier MarketResolver Views MoreViews.
Local Open Scope list_scope.

(** The confidence a reply adds to the confidence sum of the outcome with
    key [k]: the confidence of its judgment when the judgment reaches the
    threshold and names that outcome. *)
Definition confidence_for (cap : capability) (outcomes : list value) (k : key) (tw : value)
  : list float :=
  match tweet_judgment cap outcomes tw with
  | Some j =>
      if (resolver_min_confidence <=? confidence j)%float then
        match key_of (team j) with
        | Some k' => if key_eqb k' k then [confidence j] else []
        | None => []
        end
      else []
  | None => []
  end.

(** The confidences accepted for the outcome with key [k], in order of
    arrival. *)
Definition confidences_for (cap : capability) (outcomes : list value) (k : key)
    (tweets : list value) : list float :=
  flat_map (confidence_for cap outcomes k) tweets.

(** [outcome_counts[k]] after the confidences [l] have been counted. *)
Definition absorb (s : stat) (l : list float) : stat :=
  {| count := count s + Z.of_nat (List.length l);
     confidence_sum := fold_left PrimFloat.add l (confidence_sum s) |}.

(** The items of [sentiment_breakdown] and the [support_count] of an
    entry. *)
Definition breakdown_of (r : value) : list (value * value) :=
  match field r "sentiment_breakdown" with
  | Some (VDict bd) => bd
  | _ => []
  end.

Definition support_count_of (entry : value) : Z :=
  match field entry "support_count" with
  | Some (VInt c) => c
  | _ => 0
  end.

(** One outcome has strictly more support than every other. *)
Definition single_leader (r : value) : Prop :=
  exists pre p post,
    breakdown_of r = pre ++ p :: post /\
    forall q, In q (pre ++ post) -> support_count_of (snd q) < support_count_of (snd p).

(** No outcome has more than two accepted replies. *)
Definition at_most_two_each (r : value) : Prop :=
  forall p, In p (breakdown_of r) -> support_count_of (snd p) <= 2.

End LawViews.

(** ** The value of a float, and views of the percentages *)

Module FloatValue.

(** The real number [2^e]. *)
Definition bpow (e : Z) : R := powerRZ 2 e.

(** The real number a binary64 datum stands for; 0 for what is not a
    number. *)
Definition SFval (f : spec_float) : R :=
  match f with
  | S754_finite s m e => ((if s then -1 else 1) * IZR (Zpos m) * bpow e)%R
  | _ => 0%R
  end.

(** A non-negative number: [+0.0] or a positive finite number. *)
Definition nonneg_number (f : spec_float) : bool :=
  match f with
  | S754_zero false => true
  | S754_finite false _ _ => true
  | _ => false
  end.

(** A finite number of either sign. *)
Definition finite_number (f : spec_float) : bool :=
  match f with
  | S754_zero _ => true
  | S754_finite _ _ _ => true
  | _ => false
  end.

(** What one rounding to binary64 may lose on the real [x]: a relative
    [2^-52], or [2^-1074] near zero. *)
Definition rounding_slack (x : R) : R := (bpow (-52) * Rabs x + bpow (-1074))%R.

End FloatValue.

Module PercentViews.
Import Py Ext MarketResolver Views LawViews FloatValue.
Local Open Scope list_scope.

(** The float of [support_percentage]:
    [round(count / total_analyzed * 100, 2)]. *)
Definition percentage_of (cnt total : Z) : float :=
  F64.py_round (F64.int_div cnt total * F64.Z2float 100)%float 2.

(** The items of the breakdown with at least one accepted reply. *)
Definition supported_outcomes (r : value) : list (value * value) :=
  filter (fun p => 0 <? support_count_of (snd p)) (breakdown_of r).

(** The real number an entry reports as its percentage, and the exact sum
    of these numbers over a breakdown. *)
Definition percentage_value (entry : value) : R :=
  match field entry "support_percentage" with
  | Some (VFloat f) => SFval (Prim2SF f)
  | _ => 0%R
  end.

Definition exact_sum_percentages (bd : list (value * value)) : R :=
  fold_right (fun p acc => (percentage_value (snd p) + acc)%R) 0%R bd.

(** What one percentage may be away from [100 * count / total]: half a
    unit of the second decimal and the roundings of binary64; and the
    same with the rounding of one addition. *)
Definition percentage_slack : R := (/ 200 + 1403 * bpow (-52))%R.

Definition term_slack : R := (/ 200 + 2000 * bpow (-52))%R.

End PercentViews.

(** ** Record shapes and sample inputs *)

Module Samples.
Import Py Ext TeamClassifier MarketResolver ClassifyTeams Views.

(** The three shapes of a resolution record, told apart as a caller does:
    by the [status] key and the keys that come with it. *)
Definition is_error (r : value) : bool :=
  match r with
  | VDict d =>
      match dict_get d "status", dict_get d "error", dict_get d "timestamp" with
      | Some (VStr st), Some (VStr _), Some (VStr _) => String.eqb st "error"
      | _, _, _ => false
      end
  | _ => false
  end.

Definition is_pending (r : value) : bool :=
  match r with
  | VDict d =>
      match dict_get d "status", dict_get d "winning_outcome", dict_get d "winning_index",
            dict_get d "confidence", dict_get d "message", dict_get d "timestamp" with
      | Some (VStr st), Some VNone, Some (VInt i), Some (VFloat c), Some (VStr _),
        Some (VStr _) =>
          String.eqb st "pending" && (i =? -1) && PrimFloat.Leibniz.eqb c 0%float
      | _, _, _, _, _, _ => false
      end
  | _ => false
  end.

Definition is_decided (r : value) : bool :=
  match r with
  | VDict d =>
      match dict_get d "status", dict_get d "winning_outcome", dict_get d "winning_index",
            dict_get d "confidence", dict_get d "sentiment_breakdown",
            dict_get d "total_analyzed", dict_get d "timestamp" with
      | None, Some _, Some (VInt _), Some (VFloat _), Some (VDict _), Some (VInt _),
        Some (VStr _) => true
      | _, _, _, _, _, _, _ => false
      end
  | _ => false
  end.

(** A pipeline given by a table from texts to one label and its score. *)
Fixpoint table_lookup (t : list (string * (value * float))) (text : string)
  : res (list value * list float) :=
  match t with
  | [] => Raise (ExternalError "no judgment")
  | (k, (l, c)) :: rest =>
      if String.eqb k text then Ok ([l], [c]) else table_lookup rest text
  end.

Definition table_cap (t : list (string * (value * float))) : capability :=
  {| load_models := None;
     zero_shot := fun text _ => table_lookup t text;
     now := "2025-11-10T00:00:00+00:00";
     py_str := fun v => match v with VStr s => s | _ => "?" end |}.

Definition tweet (s : string) : value :=
  VDict [(VStr "id", VStr s); (VStr "text", VStr s); (VStr "author", VStr "someone")].

Definition market_of (market_id : string) (outcomes : list value) (method : string)
    (tweets : list value) : value :=
  VDict [ (VStr "market_id", VStr market_id);
          (VStr "question", VStr "Will Bitcoin hit $100k by end of 2025?");
          (VStr "outcomes", VList outcomes);
          (VStr "resolution_method", VStr method);
          (VStr "reply_tweets", VList tweets) ].

Definition yes_no : list value := [VStr "Yes"; VStr "No"].

(** The same market with [reply_tweets] bound to [x]. *)
Definition with_replies (x : value) (d : list (value * value)) : list (value * value) :=
  (VStr "reply_tweets", x) :: d.

(** [0.4], [0.9], [0.8], [0.7], [0.75], [0.65] as binary64. *)
Definition c040 : float := 0x1.999999999999ap-2%float.
Definition c090 : float := 0x1.ccccccccccccdp-1%float.
Definition c080 : float := 0x1.999999999999ap-1%float.
Definition c070 : float := 0x1.6666666666666p-1%float.
Definition c075 : float := 0.75%float.
Definition c065 : float := 0x1.4cccccccccccdp-1%float.

(** Five replies, every one judged with confidence [0.4]. *)
Definition low_table : list (string * (value * float)) :=
  [ ("r1", (VStr "Yes", c040)); ("r2", (VStr "No", c040)); ("r3", (VStr "Yes", c040));
    ("r4", (VStr "No", c040)); ("r5", (VStr "Yes", c040)) ].

Definition five_replies : list value :=
  [tweet "r1"; tweet "r2"; tweet "r3"; tweet "r4"; tweet "r5"].

(** Three replies for [Yes] at [0.9, 0.8, 0.7], two for [No] at
    [0.75, 0.65]. *)
Definition scenario_table : list (string * (value * float)) :=
  [ ("r1", (VStr "Yes", c090)); ("r2", (VStr "Yes", c080)); ("r3", (VStr "Yes", c070));
    ("r4", (VStr "No", c075)); ("r5", (VStr "No", c065)) ].

Definition sample_counts : counts :=
  [ (KStr "Yes", VStr "Yes", {| count := 2; confidence_sum := 0x1.8p+0%float |});
    (KStr "No", VStr "No", stat0) ].

Definition only_one_market : list (value * value) :=
  [ (VStr "market_id", VStr "market_123");
    (VStr "question", VStr "Will Bitcoin hit $100k by end of 2025?");
    (VStr "outcomes", VList [VStr "OnlyOne"]);
    (VStr "resolution_method", VStr "sentiment");
    (VStr "reply_tweets", VList five_replies) ].

Definition oracle_market : list (value * value) :=
  [ (VStr "market_id", VStr "market_123");
    (VStr "question", VStr "Will Bitcoin hit $100k by end of 2025?");
    (VStr "outcomes", VList yes_no);
    (VStr "resolution_method", VStr "Oracle");
    (VStr "reply_tweets", VList five_replies) ].

Definition manual_market : list (value * value) :=
  [ (VStr "market_id", VStr "market_123");
    (VStr "question", VStr "Will Bitcoin hit $100k by end of 2025?");
    (VStr "outcomes", VList yes_no);
    (VStr "resolution_method", VStr "manual");
    (VStr "reply_tweets", VList five_replies) ].

(** A pipeline that answers every text with the text itself as label, at
    confidence [0.9]. *)
Definition echo_cap : capability :=
  {| load_models := None;
     zero_shot := fun text _ => Ok ([VStr text], [c090]);
     now := "2025-11-10T00:00:00+00:00";
     py_str := fun v => match v with VStr s => s | _ => "?" end |}.

Definition thirty_one_names : list string :=
  [ "o01"; "o02"; "o03"; "o04"; "o05"; "o06"; "o07"; "o08"; "o09"; "o10"; "o11";
    "o12"; "o13"; "o14"; "o15"; "o16"; "o17"; "o18"; "o19"; "o20"; "o21"; "o22";
    "o23"; "o24"; "o25"; "o26"; "o27"; "o28"; "o29"; "o30"; "o31" ].

Definition thirty_one_market : value :=
  market_of "market_31" (map VStr thirty_one_names) "sentiment" (map tweet thirty_one_names).

(** Two outcomes, one reply for each: [A] at 0.7 and [B] at 0.9. *)
Definition tie_table : list (string * (value * float)) :=
  [ ("a7", (VStr "A", c070)); ("a8", (VStr "A", c080)); ("a9", (VStr "A", c090));
    ("b7", (VStr "B", c070)); ("b8", (VStr "B", c080)); ("b9", (VStr "B", c090)) ].

Definition tie_market : list (value * value) :=
  [ (VStr "market_id", VStr "market_ab");
    (VStr "question", VStr "A or B?");
    (VStr "outcomes", VList [VStr "A"; VStr "B"]);
    (VStr "resolution_method", VStr "sentiment");
    (VStr "reply_tweets", VList [tweet "a7"; tweet "b9"]) ].

Definition order_market : list (value * value) :=
  [ (VStr "market_id", VStr "market_ab");
    (VStr "question", VStr "A or B?");
    (VStr "outcomes", VList [VStr "A"; VStr "B"]);
    (VStr "resolution_method", VStr "sentiment") ].

Definition a_rising : list value := [tweet "a7"; tweet "a8"; tweet "a9"].

Definition b_falling : list value := [tweet "b9"; tweet "b8"; tweet "b7"].

(** A run with 110 qualifying items for one team: 60 at confidence 0.75,
    then 50 at confidence 0.9. *)
Definition crowd_table : list (string * (value * float)) :=
  [ ("low", (VStr "A", c075)); ("high", (VStr "A", c090)) ].

Definition crowd_tweets : list value :=
  repeat (tweet "low") 60 ++ repeat (tweet "high") 50.

Definition crowd_input : value :=
  VDict [ (VStr "controversy", VStr "A or B?");
          (VStr "teams", VList [VStr "A"; VStr "B"]);
          (VStr "tweets", VList crowd_tweets) ].

Definition crowd_stats : odict team_stat :=
  match classify_teams (table_cap crowd_table) (Ok crowd_input) with
  | Ok (TeamsOk _ _ stats _ _) => stats
  | _ => []
  end.

Definition crowd_a : team_stat :=
  match od_get crowd_stats (KStr "A") with
  | Some ts => ts
  | None => team_stat0
  end.

End Samples.

(** ** Sample inputs for the further properties *)

Module MoreSamples.
Import Py Ext TeamClassifier MarketResolver ClassifyTeams Views MoreViews Samples.
Local Open Scope list_scope.

(** A pipeline that scores three labels [0.4], [0.9], [0.9], whatever the
    text. *)
Definition three_way_cap : capability :=
  {| load_models := None;
     zero_shot := fun _ labels => Ok (labels, [c040; c090; c090]);
     now := "2025-11-10T00:00:00+00:00";
     py_str := fun v => match v with VStr s => s | _ => "?" end |}.

(** Eight tweets for the teams [A] and [B]: two are judged for [A], one
    for [B], one below the threshold, one for a label that is no team, one
    is unknown to the pipeline, one has no text and one is no dict. *)
Definition mixed_table : list (string * (value * float)) :=
  [ ("a-first", (VStr "A", c090)); ("a-second", (VStr "A", c075));
    ("b-only", (VStr "B", c080)); ("weak", (VStr "A", c040));
    ("other", (VStr "C", c090)) ].

Definition mixed_tweets : list value :=
  [ tweet "a-first"; tweet "weak"; VDict [(VStr "id", VStr "no text")]; tweet "b-only";
    VStr "not a dict"; tweet "a-second"; tweet "other"; tweet "unknown" ].

Definition mixed_input : value :=
  VDict [ (VStr "controversy", VStr "A or B?");
          (VStr "teams", VList [VStr "A"; VStr "B"]);
          (VStr "tweets", VList mixed_tweets) ].

Definition mixed_stats : odict team_stat :=
  match classify_teams (table_cap mixed_table) (Ok mixed_input) with
  | Ok (TeamsOk _ _ stats _ _) => stats
  | _ => []
  end.

(** The counts of [A] and [B] before any reply. *)
Definition a_b_counts : counts :=
  [ (KStr "A", VStr "A", stat0); (KStr "B", VStr "B", stat0) ].

(** An analyzer whose pipeline finds every text positive, at [0.9]. *)
Definition bullish_analyzer : SentimentHF.analyzer_capability :=
  {| SentimentHF.load_analyzer := None;
     SentimentHF.sentiment_pipeline := fun _ => Ok [[("positive", c090)]] |}.

Definition moon_tweet : value :=
  VDict [ (VStr "id", VStr "1"); (VStr "text", VStr "to the moon") ].

(** A TextBlob that finds every string mildly positive. *)
Definition mild_blob : Analyzer.sentiment_capability :=
  {| Analyzer.analyze_sentiment :=
       fun v => match v with
                | VStr _ => Ok (0.25%float, 0.5%float)
                | _ => Raise (TypeError "expected a string")
                end |}.

Definition two_tweets : list value :=
  [ VDict [ (VStr "id", VStr "1"); (VStr "text", VStr "good") ];
    VDict [ (VStr "text", VStr "fine") ] ].

Definition two_tweets_result : value :=
  match Analyzer.process_tweets mild_blob two_tweets with
  | Ok r => r
  | Raise _ => VNone
  end.

(** Three tweets none of which is classified for a team. *)
Definition idle_input : value :=
  VDict [ (VStr "controversy", VStr "A or B?");
          (VStr "teams", VList [VStr "A"; VStr "B"]);
          (VStr "tweets", VList [tweet "weak"; VInt 3; tweet "unknown"]) ].

Definition idle_stats : odict team_stat :=
  match classify_teams (table_cap mixed_table) (Ok idle_input) with
  | Ok (TeamsOk _ _ stats _ _) => stats
  | _ => []
  end.

End MoreSamples.

Module LawSamples.
Import Py Ext TeamClassifier MarketResolver Views MoreViews Samples MoreSamples.
Local Open Scope list_scope.

(** A pipeline that judges the reply [x] for the label [None], at 0.9. *)
Definition none_table : list (string * (value * float)) := [ ("x", (VNone, c090)) ].

Definition none_or_no : list value := [VNone; VStr "No"].

(** Three replies for [A], at 0.801, 0.993 and 0.93075, in two orders. *)
Definition c0801 : float := 0x1.9a1cac083126fp-1%float.
Definition c0993 : float := 0x1.fc6a7ef9db22dp-1%float.
Definition c093075 : float := 0x1.dc8b439581062p-1%float.

Definition three_table : list (string * (value * float)) :=
  [ ("p", (VStr "A", c0801)); ("q", (VStr "A", c0993)); ("r", (VStr "A", c093075)) ].

Definition p_q_r : list value := [tweet "p"; tweet "q"; tweet "r"].

Definition p_r_q : list value := [tweet "p"; tweet "r"; tweet "q"].

(** Two replies for [A] and one for [B], and the same replies reversed. *)
Definition a_b_a : list value := [tweet "a7"; tweet "b9"; tweet "a8"].

(** The means 0.9083 and 0.9082. *)
Definition c09083 : float := 0x1.d10cb295e9e1bp-1%float.
Definition c09082 : float := 0x1.d0ff972474539p-1%float.

End LawSamples.

Module PercentSamples.
Import Py Ext MarketResolver Views Samples MoreSamples.
Local Open Scope list_scope.

(** Three outcomes, one accepted reply for each. *)
Definition thirds : list string := ["o01"; "o02"; "o03"].

Definition thirds_market : list (value * value) :=
  [ (VStr "market_id", VStr "market_3");
    (VStr "question", VStr "Which third?");
    (VStr "outcomes", VList (map VStr thirds));
    (VStr "resolution_method", VStr "sentiment");
    (VStr "reply_tweets", VList (map tweet thirds)) ].

(** Twenty outcomes and 32 accepted replies: three outcomes have five
    replies, the others one. *)
Definition twenty_names : list string := firstn 20 thirty_one_names.

Definition twenty_support : list nat :=
  [1; 1; 5; 1; 1; 1; 1; 1; 1; 1; 1; 1; 1; 1; 1; 1; 1; 5; 1; 5]%nat.

Definition twenty_market : value :=
  market_of "market_20" (map VStr twenty_names) "sentiment"
    (flat_map (fun p => repeat (tweet (fst p)) (snd p)) (combine twenty_names twenty_support)).

End PercentSamples.

(** * Properties

    ** The order of binary64 numbers *)

Module F64Order.
Import F64.


Lemma rank_compare (a b : spec_float) :
  SFcompare a b =
  match rank a, rank b with
  | Some x, Some y =>
      Some (if Z.ltb (fst (fst x)) (fst (fst y)) then Lt
            else if Z.ltb (fst (fst y)) (fst (fst x)) then Gt
            else if Z.ltb (snd (fst x)) (snd (fst y)) then Lt
            else if Z.ltb (snd (fst y)) (snd (fst x)) then Gt
            else if Z.ltb (snd x) (snd y) then Lt
            else if Z.ltb (snd y) (snd x) then Gt
            else Eq)
  | _, _ => None
  end.
Proof.
  destruct a as [sa|sa| |sa ma ea], b as [sb|sb| |sb mb eb];
    try destruct sa; try destruct sb; try reflexivity; cbn [SFcompare rank fst snd];
    f_equal; change (Pos.compare_cont Eq ma mb) with (Pos.compare ma mb);
    destruct (Z.compare_spec ea eb); destruct (Pos.compare_spec ma mb);
    repeat match goal with
           | |- context [Z.ltb ?x ?y] => destruct (Z.ltb_spec x y)
           end; cbn [CompOpp]; try reflexivity; try lia.
Qed.

Lemma SFltb_rank (a b : spec_float) :
  SFltb a b = true <-> exists x y, rank a = Some x /\ rank b = Some y /\ lexlt x y.
Proof.
  unfold SFltb. rewrite rank_compare.
  destruct (rank a) as [[[a1 a2] a3]|], (rank b) as [[[b1 b2] b3]|]; cbn [fst snd].
  - split.
    + intros H. exists (a1, a2, a3), (b1, b2, b3). repeat split. unfold lexlt.
      repeat match type of H with
             | context [Z.ltb ?x ?y] => destruct (Z.ltb_spec x y)
             end; try discriminate; lia.
    + intros (x & y & Hx & Hy & Hlt). injection Hx as <-. injection Hy as <-.
      unfold lexlt in Hlt.
      repeat match goal with
             | |- context [Z.ltb ?x ?y] => destruct (Z.ltb_spec x y)
             end; try reflexivity; lia.
  - split; [discriminate | intros (x & y & _ & Hy & _); discriminate].
  - split; [discriminate | intros (x & y & Hx & _); discriminate].
  - split; [discriminate | intros (x & y & Hx & _); discriminate].
Qed.

Lemma SFleb_rank (a b : spec_float) :
  SFleb a b = true <-> exists x y, rank a = Some x /\ rank b = Some y /\ lexle x y.
Proof.
  unfold SFleb. rewrite rank_compare.
  destruct (rank a) as [[[a1 a2] a3]|], (rank b) as [[[b1 b2] b3]|]; cbn [fst snd].
  - split.
    + intros H. exists (a1, a2, a3), (b1, b2, b3). repeat split. unfold lexle, lexlt.
      repeat match type of H with
             | context [Z.ltb ?x ?y] => destruct (Z.ltb_spec x y)
             end; try discriminate; try (left; lia).
      right. f_equal; [f_equal|]; lia.
    + intros (x & y & Hx & Hy & Hle). injection Hx as <-. injection Hy as <-.
      destruct Hle as [Hlt | Heq].
      * unfold lexlt in Hlt.
        repeat match goal with
               | |- context [Z.ltb ?x ?y] => destruct (Z.ltb_spec x y)
               end; try reflexivity; lia.
      * injection Heq as -> -> ->. rewrite !Z.ltb_irrefl. reflexivity.
  - split; [discriminate | intros (x & y & _ & Hy & _); discriminate].
  - split; [discriminate | intros (x & y & Hx & _); discriminate].
  - split; [discriminate | intros (x & y & Hx & _); discriminate].
Qed.

Lemma f64_lt_rank (x y : float) :
  lt x y <-> exists a b, rank (Prim2SF x) = Some a /\ rank (Prim2SF y) = Some b /\ lexlt a b.
Proof. unfold lt. rewrite ltb_spec. apply SFltb_rank. Qed.

Lemma f64_le_rank (x y : float) :
  le x y <-> exists a b, rank (Prim2SF x) = Some a /\ rank (Prim2SF y) = Some b /\ lexle a b.
Proof. unfold le. rewrite leb_spec. apply SFleb_rank. Qed.

Ltac rank_facts :=
  repeat match goal with
         | H : lt _ _ |- _ => apply f64_lt_rank in H; destruct H as (? & ? & ? & ? & H)
         | H : le _ _ |- _ => apply f64_le_rank in H; destruct H as (? & ? & ? & ? & H)
         | H : is_num _ |- _ =>
             unfold is_num in H;
             match type of H with
             | rank ?f <> None => destruct (rank f) as [?|] eqn:?; [clear H | congruence]
             end
         end;
  repeat match goal with
         | H1 : rank ?f = Some ?a, H2 : rank ?f = Some ?b |- _ =>
             rewrite H1 in H2; injection H2 as <-
         | H1 : rank ?f = Some ?a, H2 : Some ?b = rank ?f |- _ =>
             rewrite H1 in H2; injection H2 as <-
         end.

Ltac lex_solve :=
  unfold lexle, lexlt in *;
  repeat match goal with
         | x : (Z * Z * Z)%type |- _ => destruct x as [[? ?] ?]
         end;
  repeat match goal with
         | H : _ \/ (_, _, _) = (_, _, _) |- _ => destruct H as [H | H]; [| injection H as -> -> ->]
         end;
  try lia.

Lemma f64_lt_trans (x y z : float) : lt x y -> lt y z -> lt x z.
Proof.
  intros Hxy Hyz. rank_facts. apply f64_lt_rank. do 2 eexists. repeat split; eauto. lex_solve.
Qed.

Lemma f64_le_trans (x y z : float) : le x y -> le y z -> le x z.
Proof.
  intros Hxy Hyz. rank_facts. apply f64_le_rank. do 2 eexists. repeat split; eauto.
  lex_solve; try (left; lia); right; reflexivity.
Qed.

Lemma f64_le_lt_trans (x y z : float) : le x y -> lt y z -> lt x z.
Proof.
  intros Hxy Hyz. rank_facts. apply f64_lt_rank. do 2 eexists. repeat split; eauto. lex_solve.
Qed.

Lemma f64_lt_le_trans (x y z : float) : lt x y -> le y z -> lt x z.
Proof.
  intros Hxy Hyz. rank_facts. apply f64_lt_rank. do 2 eexists. repeat split; eauto. lex_solve.
Qed.

Lemma f64_lt_not_le (x y : float) : lt x y -> (y <=? x)%float = false.
Proof.
  intros Hxy. destruct (y <=? x)%float eqn:E; [| reflexivity].
  change (le y x) in E. rank_facts. exfalso. lex_solve.
Qed.

Lemma f64_lt_asym (x y : float) : lt x y -> (y <? x)%float = false.
Proof.
  intros Hxy. destruct (y <? x)%float eqn:E; [| reflexivity].
  change (lt y x) in E. rank_facts. exfalso. lex_solve.
Qed.

Lemma f64_le_is_num_l (x y : float) : le x y -> is_num x.
Proof. intros H. rank_facts. unfold is_num. congruence. Qed.

Lemma f64_le_is_num_r (x y : float) : le x y -> is_num y.
Proof. intros H. rank_facts. unfold is_num. congruence. Qed.

Lemma f64_le_refl (x : float) : is_num x -> le x x.
Proof.
  intros H. rank_facts. apply f64_le_rank. do 2 eexists. repeat split; eauto. right. reflexivity.
Qed.

(** Two numbers are always comparable: when [x < y] fails, [y <= x] holds. *)
Lemma f64_not_lt_le (x y : float) :
  is_num x -> is_num y -> (x <? y)%float = false -> le y x.
Proof.
  intros Hx Hy Hlt. rank_facts.
  apply f64_le_rank. do 2 eexists. repeat split; eauto.
  assert (Hn : ~ lt x y) by (unfold lt; congruence).
  rewrite f64_lt_rank in Hn.
  match goal with
  | Ha : rank (Prim2SF x) = Some ?a, Hb : rank (Prim2SF y) = Some ?b |- _ =>
      assert (Hl : ~ lexlt a b) by (intros Hl; apply Hn; eauto)
  end.
  unfold lexle, lexlt in *.
  repeat match goal with
         | x : (Z * Z * Z)%type |- _ => destruct x as [[? ?] ?]
         end.
  match goal with
  | |- _ \/ (?a1, ?a2, ?a3) = (?b1, ?b2, ?b3) =>
      destruct (Z.eq_dec a1 b1); [destruct (Z.eq_dec a2 b2); [destruct (Z.eq_dec a3 b3)|]|]
  end; subst; try (right; reflexivity); left; lia.
Qed.

Lemma f64_lt_le (x y : float) : lt x y -> le x y.
Proof.
  intros H. rank_facts. apply f64_le_rank. do 2 eexists. repeat split; eauto. left. exact H.
Qed.

Lemma f64_lt_irrefl (x : float) : (x <? x)%float = false.
Proof.
  destruct (x <? x)%float eqn:E; [| reflexivity].
  pose proof (f64_lt_asym x x E) as H. congruence.
Qed.

End F64Order.

(** ** Keys and ordered dictionaries *)

Module OdictFacts.
Import Py.

Lemma spec_float_eqb_eq (a b : spec_float) : spec_float_eqb a b = true <-> a = b.
Proof.
  destruct a as [s|s| |s m e], b as [t|t| |t n f]; cbn; try (split; [discriminate | congruence]).
  - rewrite Bool.eqb_true_iff. split; congruence.
  - rewrite Bool.eqb_true_iff. split; congruence.
  - split; reflexivity.
  - rewrite !andb_true_iff, Bool.eqb_true_iff, Pos.eqb_eq, Z.eqb_eq.
    split; [intros [[-> ->] ->]; reflexivity | intros H; injection H as -> -> ->; auto].
Qed.

Lemma key_eqb_eq (a b : key) : key_eqb a b = true <-> a = b.
Proof.
  destruct a, b; cbn; try (split; [discriminate | congruence]).
  - split; reflexivity.
  - rewrite Z.eqb_eq. split; congruence.
  - rewrite spec_float_eqb_eq. split; congruence.
  - rewrite String.eqb_eq. split; congruence.
Qed.

Lemma key_eqb_refl (a : key) : key_eqb a a = true.
Proof. apply key_eqb_eq. reflexivity. Qed.

Lemma key_eqb_neq (a b : key) : a <> b -> key_eqb a b = false.
Proof.
  intros H. destruct (key_eqb a b) eqn:E; [| reflexivity].
  apply key_eqb_eq in E. contradiction.
Qed.

Section Odict.
Context {A : Type}.
Implicit Types (d : odict A) (k : key) (f : A -> A).

Lemma od_mem_get d k : od_mem d k = true <-> exists a, od_get d k = Some a.
Proof.
  unfold od_mem. destruct (od_get d k) as [a|].
  - split; eauto.
  - split; [discriminate | intros [a H]; discriminate].
Qed.

Lemma od_get_In d k a : od_get d k = Some a -> exists obj, In (k, obj, a) d.
Proof.
  induction d as [|[[k' o'] a'] d IH]; cbn; [discriminate |].
  destruct (key_eqb k' k) eqn:E.
  - intros H. injection H as ->. apply key_eqb_eq in E. subst. eauto.
  - intros H. destruct (IH H) as [obj Hin]. eauto.
Qed.

Lemma od_get_keys d k : (exists a, od_get d k = Some a) <-> In k (od_keys d).
Proof.
  induction d as [|[[k' o'] a'] d IH]; cbn.
  - split; [intros [a H]; discriminate | contradiction].
  - destruct (key_eqb k' k) eqn:E.
    + apply key_eqb_eq in E. subst. split; eauto.
    + rewrite IH. split; [tauto |].
      intros [H | H]; [| assumption]. subst. rewrite key_eqb_refl in E. discriminate.
Qed.

Lemma od_get_update_same d k f a :
  od_get d k = Some a -> od_get (od_update d k f) k = Some (f a).
Proof.
  induction d as [|[[k' o'] a'] d IH]; cbn; [discriminate |].
  destruct (key_eqb k' k) eqn:E; cbn; rewrite E.
  - congruence.
  - exact IH.
Qed.

Lemma od_get_update_other d k k' f :
  k' <> k -> od_get (od_update d k f) k' = od_get d k'.
Proof.
  intros Hne. induction d as [|[[k0 o0] a0] d IH]; cbn; [reflexivity |].
  destruct (key_eqb k0 k) eqn:E; cbn.
  - apply key_eqb_eq in E. subst. rewrite (key_eqb_neq k k') by congruence. reflexivity.
  - destruct (key_eqb k0 k'); [reflexivity | exact IH].
Qed.

Lemma od_update_names d k f : map fst (od_update d k f) = map fst d.
Proof.
  induction d as [|[[k0 o0] a0] d IH]; cbn; [reflexivity |].
  destruct (key_eqb k0 k); cbn; [reflexivity | rewrite IH; reflexivity].
Qed.

Lemma od_update_keys d k f : od_keys (od_update d k f) = od_keys d.
Proof.
  unfold od_keys. rewrite <- !(map_map fst fst), od_update_names. reflexivity.
Qed.

Lemma od_update_length d k f : List.length (od_update d k f) = List.length d.
Proof.
  rewrite <- (length_map fst), od_update_names, length_map. reflexivity.
Qed.

Lemma od_set_fresh d k obj a : od_get d k = None -> od_set d k obj a = (d ++ [(k, obj, a)])%list.
Proof.
  induction d as [|[[k0 o0] a0] d IH]; cbn; [reflexivity |].
  destruct (key_eqb k0 k); [discriminate |]. intros H. rewrite IH by assumption. reflexivity.
Qed.

End Odict.

End OdictFacts.

(** ** The acceptance rule of one judgment *)

Module ThresholdLaw.
Import Py Ext TeamClassifier MarketResolver Views Samples OdictFacts.

Lemma count_judgment_below (oc : counts) (total : Z) (j : judgment) :
  (resolver_min_confidence <=? confidence j)%float = false ->
  count_judgment (oc, total) j = (oc, total).
Proof. intros H. unfold count_judgment. rewrite H. reflexivity. Qed.

Lemma count_judgment_outside (oc : counts) (total : Z) (j : judgment) :
  (forall k, key_of (team j) = Some k -> od_mem oc k = false) ->
  count_judgment (oc, total) j = (oc, total).
Proof.
  intros H. unfold count_judgment.
  destruct (resolver_min_confidence <=? confidence j)%float; [| reflexivity].
  destruct (key_of (team j)) as [k|]; [| reflexivity].
  rewrite (H k eq_refl). reflexivity.
Qed.

Lemma count_judgment_accept (oc : counts) (total : Z) (j : judgment) (k : key) :
  F64.le resolver_min_confidence (confidence j) ->
  key_of (team j) = Some k ->
  od_mem oc k = true ->
  count_judgment (oc, total) j = (od_update oc k (bump (confidence j)), total + 1).
Proof.
  intros Hc Hk Hm. unfold count_judgment. unfold F64.le in Hc. rewrite Hc, Hk, Hm. reflexivity.
Qed.

End ThresholdLaw.

(** ** Validation, dispatch and the handler of resolve_market *)

Module Dispatch.
Import Py Ext TeamClassifier MarketResolver Views Samples OdictFacts.

Lemma create_error_response_dict cap d msg :
  _create_error_response cap (VDict d) msg = Ok (error_record cap d msg).
Proof. reflexivity. Qed.

Lemma pending_resolution_dict cap d method message :
  _pending_resolution cap (VDict d) method message = Ok (pending_record cap d method message).
Proof. reflexivity. Qed.

Lemma error_record_shape cap d msg :
  is_error (error_record cap d msg) = true /\
  is_pending (error_record cap d msg) = false /\
  is_decided (error_record cap d msg) = false.
Proof. repeat split. Qed.

Lemma pending_record_shape cap d method message :
  is_pending (pending_record cap d method message) = true /\
  is_error (pending_record cap d method message) = false.
Proof. repeat split. Qed.

(** A body that raises is answered, for a dict, with the error record. *)
Lemma resolve_market_raise cap d e log :
  resolve_market_body cap (VDict d) = (Raise e, log) ->
  resolve_market cap (VDict d) = (Ok (error_record cap d (str_exn e)), log).
Proof. intros H. unfold resolve_market. rewrite H. reflexivity. Qed.

Lemma resolve_market_ok cap md r log :
  resolve_market_body cap md = (Ok r, log) ->
  resolve_market cap md = (Ok r, log).
Proof. intros H. unfold resolve_market. rewrite H. reflexivity. Qed.

Lemma check_fields_dict d :
  check_fields (VDict d) required_fields =
  if dict_has d "market_id" then
    if dict_has d "question" then
      if dict_has d "outcomes" then
        if dict_has d "resolution_method" then Ok tt
        else Raise (ValueError "Missing required field: resolution_method")
      else Raise (ValueError "Missing required field: outcomes")
    else Raise (ValueError "Missing required field: question")
  else Raise (ValueError "Missing required field: market_id").
Proof.
  cbn. destruct (dict_has d "market_id"), (dict_has d "question"),
    (dict_has d "outcomes"), (dict_has d "resolution_method"); reflexivity.
Qed.

(** What a dict that passes validation holds. *)
Lemma validate_ok d :
  _validate_market_data (VDict d) = Ok tt ->
  dict_has d "market_id" = true /\ dict_has d "question" = true /\
  dict_has d "resolution_method" = true /\
  exists l, dict_get d "outcomes" = Some (VList l) /\ (2 <= List.length l)%nat.
Proof.
  unfold _validate_market_data. rewrite check_fields_dict.
  destruct (dict_has d "market_id"); [| discriminate].
  destruct (dict_has d "question"); [| discriminate].
  destruct (dict_has d "outcomes"); [| discriminate].
  destruct (dict_has d "resolution_method"); [| discriminate].
  cbn. destruct (dict_get d "outcomes") as [[| | | | |l|]|]; cbn; try discriminate.
  destruct (Z.ltb_spec (Z.of_nat (List.length l)) 2); [discriminate |].
  intros _. repeat split. exists l. split; [reflexivity | lia].
Qed.

Lemma validate_complete d l :
  dict_has d "market_id" = true -> dict_has d "question" = true ->
  dict_has d "resolution_method" = true ->
  dict_get d "outcomes" = Some (VList l) -> (2 <= List.length l)%nat ->
  _validate_market_data (VDict d) = Ok tt.
Proof.
  intros H1 H2 H3 H4 H5. unfold _validate_market_data. rewrite check_fields_dict.
  unfold dict_has at 3. rewrite H1, H2, H3, H4. cbn. rewrite H4. cbn.
  destruct (Z.ltb_spec (Z.of_nat (List.length l)) 2); [lia | reflexivity].
Qed.

(** A validation failure, for a dict, raises [ValueError] with one of the
    five messages. *)
Lemma validate_failure d :
  dict_has d "market_id" = false \/ dict_has d "question" = false \/
  dict_has d "outcomes" = false \/ dict_has d "resolution_method" = false \/
  (forall l, dict_get d "outcomes" = Some (VList l) -> (List.length l < 2)%nat) ->
  exists msg,
    _validate_market_data (VDict d) = Raise (ValueError msg) /\
    (msg = "At least two outcomes are required" \/
     exists field, In field required_fields /\ msg = "Missing required field: " ++ field).
Proof.
  intros H. unfold _validate_market_data. rewrite check_fields_dict.
  destruct (dict_has d "market_id") eqn:E1;
    [| eexists; split; [reflexivity | right; exists "market_id"; cbn; auto]].
  destruct (dict_has d "question") eqn:E2;
    [| eexists; split; [reflexivity | right; exists "question"; cbn; auto]].
  destruct (dict_has d "outcomes") eqn:E3;
    [| eexists; split; [reflexivity | right; exists "outcomes"; cbn; auto]].
  destruct (dict_has d "resolution_method") eqn:E4;
    [| eexists; split; [reflexivity | right; exists "resolution_method"; cbn; auto 6]].
  destruct H as [H | [H | [H | [H | H]]]]; try discriminate.
  cbn. unfold dict_has in E3.
  destruct (dict_get d "outcomes") as [[| | | | |l|]|] eqn:E; cbn;
    try discriminate; try (eexists; split; [reflexivity | left; reflexivity]).
  specialize (H l eq_refl).
  destruct (Z.ltb_spec (Z.of_nat (List.length l)) 2); [| lia].
  eexists; split; [reflexivity | left; reflexivity].
Qed.

(** C6, as the code has it. For a dict in which one of [market_id],
    [question], [outcomes], [resolution_method] is absent, or whose
    [outcomes] is not a list of at least two entries, [resolve_market]
    returns the error record carrying the validation message, and made no
    call to the models: nothing was loaded and no item was classified. *)
Theorem validation_failure_is_error (cap : capability) (d : list (value * value))
    (Hbad : dict_has d "market_id" = false \/ dict_has d "question" = false \/
            dict_has d "outcomes" = false \/ dict_has d "resolution_method" = false \/
            (forall l, dict_get d "outcomes" = Some (VList l) -> (List.length l < 2)%nat)) :
  exists msg,
    resolve_market cap (VDict d) = (Ok (error_record cap d msg), []) /\
    is_error (error_record cap d msg) = true /\
    (msg = "At least two outcomes are required" \/
     exists field, In field required_fields /\ msg = "Missing required field: " ++ field).
Proof.
  destruct (validate_failure d Hbad) as (msg & Hv & Hmsg).
  exists msg. split; [| split; [reflexivity | exact Hmsg]].
  apply (resolve_market_raise cap d (ValueError msg)).
  unfold resolve_market_body. rewrite Hv. reflexivity.
Qed.

Lemma validation_failure_is_error_witness :
  exists msg,
    resolve_market (table_cap scenario_table) (VDict only_one_market)
      = (Ok (error_record (table_cap scenario_table) only_one_market msg), []) /\
    is_error (error_record (table_cap scenario_table) only_one_market msg) = true /\
    (msg = "At least two outcomes are required" \/
     exists field, In field required_fields /\ msg = "Missing required field: " ++ field).
Proof.
  apply (validation_failure_is_error (table_cap scenario_table) only_one_market).
  right. right. right. right. intros l H. injection H as <-. cbn. lia.
Defined.

(** C6, as stated, fails: an empty [market_id] and a duplicated outcome
    both pass validation; with the method [oracle] the answer is a pending
    record, not an error record. *)
Lemma empty_or_duplicate_not_rejected :
  (exists r, resolve_market (table_cap scenario_table)
               (market_of "" yes_no "oracle" five_replies) = (Ok r, []) /\
             is_pending r = true /\ is_error r = false) /\
  (exists r, resolve_market (table_cap scenario_table)
               (market_of "market_123" [VStr "Yes"; VStr "Yes"] "oracle" five_replies)
               = (Ok r, []) /\
             is_pending r = true /\ is_error r = false).
Proof. split; eexists; repeat split. Qed.

End Dispatch.

(** ** Pending methods, unsupported methods and totality *)

Module Totality.
Import Py Ext TeamClassifier MarketResolver Views Samples OdictFacts Dispatch.

Lemma resolution_method_string d s :
  dict_get d "resolution_method" = Some (VStr s) ->
  resolution_method_of (VDict d) = Ok (lower s).
Proof.
  intros H. unfold resolution_method_of. cbn. unfold dict_get_default. rewrite H. reflexivity.
Qed.

Lemma validate_with_replies x d :
  _validate_market_data (VDict (with_replies x d)) = _validate_market_data (VDict d).
Proof. reflexivity. Qed.

(** C7, as the code has it. For a dict that passes validation and whose
    [resolution_method] is a string equal to [oracle] or [manual] up to
    case, [resolve_market] returns the pending record: status [pending],
    [winning_outcome] [None], [winning_index] -1, confidence 0.0, the
    lower-cased method in [resolution_method] and the one message
    [Pending manual resolution]; no call is made to the models and the
    record is the same whatever [reply_tweets] is bound to. A string that
    is, lower-cased, none of [sentiment], [oracle], [manual] gives the
    error record [Unsupported resolution method: <method>]; a method that
    is not a string gives an error record too. *)
Theorem pending_and_unsupported_methods (cap : capability) (d : list (value * value))
    (m : value)
    (Hvalid : _validate_market_data (VDict d) = Ok tt)
    (Hm : dict_get d "resolution_method" = Some m) :
  (forall s, m = VStr s -> lower s = "oracle" \/ lower s = "manual" ->
     resolve_market cap (VDict d) = (Ok (pending_record cap d (lower s) default_message), []) /\
     (forall x, resolve_market cap (VDict (with_replies x d))
                = (Ok (pending_record cap d (lower s) default_message), [])) /\
     is_pending (pending_record cap d (lower s) default_message) = true)
  /\
  (forall s, m = VStr s ->
     lower s <> "sentiment" -> lower s <> "oracle" -> lower s <> "manual" ->
     resolve_market cap (VDict d)
     = (Ok (error_record cap d ("Unsupported resolution method: " ++ lower s)), []))
  /\
  ((forall s, m <> VStr s) ->
     exists msg, resolve_market cap (VDict d) = (Ok (error_record cap d msg), [])).
Proof.
  split; [| split].
  - intros s -> Hs.
    assert (Hgen : forall d', _validate_market_data (VDict d') = Ok tt ->
                     dict_get d' "resolution_method" = Some (VStr s) ->
                     resolve_market cap (VDict d')
                     = (Ok (pending_record cap d' (lower s) default_message), [])).
    { intros d' Hv Hm'. apply resolve_market_ok. unfold resolve_market_body.
      rewrite Hv, (resolution_method_string d' s Hm').
      destruct Hs as [-> | ->]; reflexivity. }
    split; [| split].
    + apply Hgen; assumption.
    + intros x. rewrite (Hgen (with_replies x d)); [reflexivity | exact Hvalid | exact Hm].
    + reflexivity.
  - intros s -> H1 H2 H3.
    apply (resolve_market_raise cap d (ValueError _)). unfold resolve_market_body.
    rewrite Hvalid, (resolution_method_string d s Hm).
    apply String.eqb_neq in H1, H2, H3. rewrite H1, H2, H3. reflexivity.
  - intros Hns.
    exists "object has no attribute 'lower'".
    apply (resolve_market_raise cap d (AttributeError _)). unfold resolve_market_body.
    rewrite Hvalid. unfold resolution_method_of. cbn. unfold dict_get_default. rewrite Hm.
    destruct m; try reflexivity. exfalso. apply (Hns s). reflexivity.
Qed.

Lemma pending_and_unsupported_methods_witness :
  resolve_market (table_cap scenario_table) (VDict oracle_market)
  = (Ok (pending_record (table_cap scenario_table) oracle_market "oracle" default_message), [])
  /\
  resolve_market (table_cap scenario_table) (VDict (with_replies (VInt 7) oracle_market))
  = (Ok (pending_record (table_cap scenario_table) oracle_market "oracle" default_message), []).
Proof.
  destruct (pending_and_unsupported_methods (table_cap scenario_table) oracle_market
              (VStr "Oracle") eq_refl eq_refl) as [H _].
  destruct (H "Oracle" eq_refl (or_introl eq_refl)) as (H1 & H2 & _).
  split; [exact H1 | exact (H2 (VInt 7))].
Defined.

(** C7, as stated, fails on the message: it does not depend on the
    method. The oracle market and the manual market get the same message,
    which names the manual method. *)
Lemma pending_message_not_method_specific :
  exists r1 r2 d1 d2,
    resolve_market (table_cap scenario_table) (VDict oracle_market) = (Ok r1, []) /\
    resolve_market (table_cap scenario_table) (VDict manual_market) = (Ok r2, []) /\
    r1 = VDict d1 /\ r2 = VDict d2 /\
    dict_get d1 "resolution_method" = Some (VStr "oracle") /\
    dict_get d2 "resolution_method" = Some (VStr "manual") /\
    dict_get d1 "message" = Some (VStr "Pending manual resolution") /\
    dict_get d2 "message" = dict_get d1 "message".
Proof. do 4 eexists. repeat split. Qed.

(** What [finish_sentiment] returns is a decided or a pending record. *)
Lemma finish_sentiment_shape cap md outcomes oc total r :
  finish_sentiment cap md outcomes oc total = Ok r ->
  is_decided r = true \/ is_pending r = true.
Proof.
  unfold finish_sentiment.
  destruct (total =? 0); [discriminate |].
  destruct (scan_items oc total oc scan0) as [sc|e]; cbn; [| discriminate].
  destruct (max_count sc =? 0).
  - unfold _pending_resolution.
    destruct (py_get md "market_id" (VStr "")); cbn; [| discriminate].
    destruct (py_get md "question" (VStr "")); cbn; [| discriminate].
    destruct (py_get md "outcomes" (VList [])); cbn; [| discriminate].
    intros H. injection H as <-. right. reflexivity.
  - destruct (if truthy (winning_outcome sc) then py_index outcomes (winning_outcome sc)
              else Ok (-1)); cbn; [| discriminate].
    destruct (py_getitem md "market_id"); cbn; [| discriminate].
    destruct (py_getitem md "question"); cbn; [| discriminate].
    intros H. injection H as <-. left. reflexivity.
Qed.

Lemma resolve_by_sentiment_shape cap md r log :
  _resolve_by_sentiment cap md = (Ok r, log) ->
  is_decided r = true \/ is_pending r = true.
Proof.
  unfold _resolve_by_sentiment.
  destruct (initialize_models cap); [| discriminate].
  destruct (py_getitem md "outcomes") as [[| | | | |outcomes|]|]; try discriminate.
  destruct (init_counts outcomes []) as [oc0|]; [| discriminate].
  destruct (let+ reply := py_get md "reply_tweets" (VList []) in py_iter reply)
    as [tweets|]; [| discriminate].
  destruct (process_tweets cap outcomes tweets (oc0, 0, [EvLoadModels])) as [[oc total] lg].
  intros H. injection H as H _. eapply finish_sentiment_shape. exact H.
Qed.

Lemma resolve_market_body_shape cap md r log :
  resolve_market_body cap md = (Ok r, log) ->
  is_decided r = true \/ is_pending r = true.
Proof.
  unfold resolve_market_body.
  destruct (_validate_market_data md); [| discriminate].
  destruct (resolution_method_of md) as [method|]; [| discriminate].
  destruct (String.eqb method "sentiment"); [apply resolve_by_sentiment_shape |].
  assert (Hp : forall meth, (_pending_resolution cap md meth default_message, @nil event)
                            = (Ok r, log) -> is_decided r = true \/ is_pending r = true).
  { intros meth. unfold _pending_resolution.
    destruct (py_get md "market_id" (VStr "")); cbn; [| discriminate].
    destruct (py_get md "question" (VStr "")); cbn; [| discriminate].
    destruct (py_get md "outcomes" (VList [])); cbn; [| discriminate].
    intros H. injection H as <- _. right. reflexivity. }
  destruct (String.eqb method "oracle"); [apply Hp |].
  destruct (String.eqb method "manual"); [apply Hp | discriminate].
Qed.

(** C2, as the code has it. For every dict, whatever its fields hold and
    whatever the models do, [resolve_market] returns a record, and the
    record is decided, pending or an error. For a decoded value that is
    not a dict the handler itself raises [AttributeError] out of the
    method, and the module-level entry point answers with a bare error
    record. *)
Theorem resolve_market_total_on_dicts (cap : capability) :
  (forall d, exists r log,
      resolve_market cap (VDict d) = (Ok r, log) /\
      (is_decided r = true \/ is_pending r = true \/ is_error r = true))
  /\
  (forall v, (forall d, v <> VDict d) ->
      fst (resolve_market cap v) = Raise (AttributeError "object has no attribute 'get'") /\
      resolve_market_main cap (Ok v)
      = VDict [ (VStr "error", VStr "object has no attribute 'get'");
                (VStr "status", VStr "error");
                (VStr "timestamp", VStr (now cap)) ]).
Proof.
  split.
  - intros d. destruct (resolve_market_body cap (VDict d)) as [[r|e] log] eqn:E.
    + exists r, log. split; [apply resolve_market_ok; exact E |].
      destruct (resolve_market_body_shape _ _ _ _ E); auto.
    + exists (error_record cap d (str_exn e)), log.
      split; [apply resolve_market_raise; exact E | right; right; reflexivity].
  - intros v Hv.
    assert (Hbody : exists e log, resolve_market_body cap v = (Raise e, log)).
    { unfold resolve_market_body.
      destruct (_validate_market_data v) as [[]|e] eqn:E; [| eauto].
      exfalso. unfold _validate_market_data in E.
      destruct (check_fields v required_fields); cbn in E; [| discriminate].
      destruct v; cbn in E; try discriminate. apply (Hv d). reflexivity. }
    destruct Hbody as (e & log & Hb).
    assert (Hr : fst (resolve_market cap v)
                 = Raise (AttributeError "object has no attribute 'get'")).
    { unfold resolve_market. rewrite Hb. unfold _create_error_response.
      destruct v; try reflexivity. exfalso. apply (Hv d). reflexivity. }
    split; [exact Hr |]. unfold resolve_market_main. cbn. rewrite Hr. reflexivity.
Qed.

(** C2, as stated, fails: [None] (JSON [null]) is a value the method can
    be passed, and the method raises. *)
Lemma resolve_market_raises_on_null :
  fst (resolve_market (table_cap scenario_table) VNone)
    = Raise (AttributeError "object has no attribute 'get'") /\
  ~ (exists r, fst (resolve_market (table_cap scenario_table) VNone) = Ok r).
Proof. split; [reflexivity | intros [r H]; discriminate]. Qed.

(** C1, on the code. With [resolution_method] [sentiment] and five replies
    all judged with confidence 0.4, below the threshold, the answer is the
    error record [No valid tweets could be analyzed for sentiment], not a
    pending record. *)
Theorem sentiment_without_evidence_is_error :
  exists log,
    resolve_market (table_cap low_table) (market_of "market_123" yes_no "sentiment" five_replies)
    = (Ok (VDict [ (VStr "market_id", VStr "market_123");
                   (VStr "question", VStr "Will Bitcoin hit $100k by end of 2025?");
                   (VStr "outcomes", VList yes_no);
                   (VStr "error", VStr "No valid tweets could be analyzed for sentiment");
                   (VStr "status", VStr "error");
                   (VStr "timestamp", VStr "2025-11-10T00:00:00+00:00") ]), log) /\
    List.length log = 6%nat.
Proof. eexists. split; reflexivity. Qed.

End Totality.

(** ** The tally of the loop over the replies *)

Module Tally.
Import Py Ext TeamClassifier MarketResolver Views Samples OdictFacts.

Lemma od_mem_view (oc : counts) k : od_mem (counts_view oc) k = od_mem oc k.
Proof.
  unfold od_mem. induction oc as [|[[k' o'] s'] oc IH]; cbn; [reflexivity |].
  destruct (key_eqb k' k); [reflexivity | exact IH].
Qed.

Lemma view_update (oc : counts) k c :
  counts_view (od_update oc k (bump c)) = od_update (counts_view oc) k Z.succ.
Proof.
  unfold counts_view in *.
  induction oc as [|[[k' o'] s'] oc IH]; cbn; [reflexivity |].
  destruct (key_eqb k' k); cbn; [reflexivity | rewrite IH; reflexivity].
Qed.

Lemma process_tweet_view cap outcomes oc total log tw :
  let '(oc', total', _) := process_tweet cap outcomes (oc, total, log) tw in
  (counts_view oc', total') = view_step cap outcomes (counts_view oc, total) tw.
Proof.
  unfold process_tweet, view_step, tweet_judgment.
  destruct tw as [| | | | | |d]; try reflexivity.
  destruct (dict_get d "text") as [text|]; [| reflexivity].
  unfold count_judgment. cbn [fst snd].
  destruct (resolver_min_confidence <=? confidence (classify_tweet cap text outcomes))%float;
    [| reflexivity].
  destruct (key_of (team (classify_tweet cap text outcomes))) as [k|]; [| reflexivity].
  rewrite od_mem_view. destruct (od_mem oc k); [| reflexivity].
  cbv beta iota. rewrite view_update. reflexivity.
Qed.

Lemma process_tweets_view cap outcomes tweets : forall oc total log,
  let '(oc', total', _) := process_tweets cap outcomes tweets (oc, total, log) in
  (counts_view oc', total') = fold_left (view_step cap outcomes) tweets (counts_view oc, total).
Proof.
  induction tweets as [|tw tweets IH]; intros oc total log; [reflexivity |].
  unfold process_tweets. cbn [fold_left].
  pose proof (process_tweet_view cap outcomes oc total log tw) as H.
  destruct (process_tweet cap outcomes (oc, total, log) tw) as [[oc1 total1] log1].
  rewrite <- H. apply (IH oc1 total1 log1).
Qed.

(** Updates of an ordered dictionary by one function commute. *)
Lemma od_update_comm {A : Type} (d : odict A) k1 k2 (f : A -> A) :
  od_update (od_update d k1 f) k2 f = od_update (od_update d k2 f) k1 f.
Proof.
  induction d as [|[[k o] a] d IH]; cbn; [reflexivity |].
  destruct (key_eqb k k1) eqn:E1, (key_eqb k k2) eqn:E2; cbn; rewrite ?E1, ?E2;
    try reflexivity.
  rewrite IH. reflexivity.
Qed.

Lemma od_mem_update {A : Type} (d : odict A) k k' (f : A -> A) :
  od_mem (od_update d k f) k' = od_mem d k'.
Proof.
  unfold od_mem. induction d as [|[[k0 o0] a0] d IH]; cbn; [reflexivity |].
  destruct (key_eqb k0 k) eqn:E; cbn; destruct (key_eqb k0 k'); auto.
Qed.

Lemma view_step_comm cap outcomes st tw1 tw2 :
  view_step cap outcomes (view_step cap outcomes st tw1) tw2
  = view_step cap outcomes (view_step cap outcomes st tw2) tw1.
Proof.
  unfold view_step.
  destruct (tweet_judgment cap outcomes tw1) as [j1|],
           (tweet_judgment cap outcomes tw2) as [j2|]; try reflexivity.
  destruct (resolver_min_confidence <=? confidence j1)%float,
           (resolver_min_confidence <=? confidence j2)%float; try reflexivity.
  destruct (key_of (team j1)) as [k1|], (key_of (team j2)) as [k2|]; try reflexivity.
  destruct st as [v t]. cbn [fst snd].
  destruct (od_mem v k1) eqn:M1, (od_mem v k2) eqn:M2; cbn [fst snd];
    rewrite ?od_mem_update, ?M1, ?M2; cbn [fst snd]; try reflexivity.
  rewrite od_update_comm. reflexivity.
Qed.

(** The counts and [total_analyzed] do not depend on the order of the
    replies. *)
Lemma view_permutation cap outcomes tweets1 tweets2 :
  Permutation tweets1 tweets2 ->
  forall st, fold_left (view_step cap outcomes) tweets1 st
             = fold_left (view_step cap outcomes) tweets2 st.
Proof.
  induction 1 as [| tw l1 l2 _ IH | tw1 tw2 l | l1 l2 l3 _ IH1 _ IH2]; intros st; cbn.
  - reflexivity.
  - apply IH.
  - rewrite view_step_comm. reflexivity.
  - rewrite IH1. apply IH2.
Qed.

(** *** Invariants of the tally *)

Lemma sum_update (oc : counts) k c s :
  od_get oc k = Some s -> sum_of_counts (od_update oc k (bump c)) = sum_of_counts oc + 1.
Proof.
  unfold sum_of_counts.
  induction oc as [|[[k' o'] s'] oc IH]; cbn; [discriminate |].
  destruct (key_eqb k' k); cbn.
  - intros _. lia.
  - intros H. rewrite (IH H). lia.
Qed.

Lemma In_update (oc : counts) k0 c k obj s :
  In (k, obj, s) (od_update oc k0 (bump c)) ->
  In (k, obj, s) oc \/ exists s0, In (k, obj, s0) oc /\ s = bump c s0.
Proof.
  induction oc as [|[[k' o'] s'] oc IH]; cbn; [contradiction |].
  destruct (key_eqb k' k0); cbn.
  - intros [H | H]; [| auto]. injection H as <- <- <-. right. eauto.
  - intros [H | H]; [auto |]. destruct (IH H) as [H' | (s0 & H' & ->)]; eauto.
Qed.

Lemma well_formed_update (oc : counts) k c :
  well_formed oc -> well_formed (od_update oc k (bump c)).
Proof.
  intros [Hn Ho Hp]. split.
  - rewrite od_update_keys. exact Hn.
  - intros k1 obj s H. destruct (In_update _ _ _ _ _ _ H) as [H' | (s0 & H' & _)]; eauto.
  - intros k1 obj s H. destruct (In_update _ _ _ _ _ _ H) as [H' | (s0 & H' & ->)]; eauto.
    cbn. specialize (Hp _ _ _ H'). lia.
Qed.

Lemma count_judgment_inv (oc : counts) total j :
  well_formed oc ->
  let '(oc', total') := count_judgment (oc, total) j in
  well_formed oc' /\ map fst oc' = map fst oc /\
  sum_of_counts oc' - total' = sum_of_counts oc - total.
Proof.
  intros Hwf. unfold count_judgment.
  destruct (resolver_min_confidence <=? confidence j)%float; [| auto].
  destruct (key_of (team j)) as [k|]; [| auto].
  destruct (od_mem oc k) eqn:M; [| auto].
  apply od_mem_get in M. destruct M as [s Hs].
  split; [apply well_formed_update; exact Hwf |].
  split; [apply od_update_names |].
  rewrite (sum_update oc k _ s Hs). lia.
Qed.

Lemma process_tweets_inv cap outcomes tweets : forall oc total log,
  well_formed oc ->
  let '(oc', total', _) := process_tweets cap outcomes tweets (oc, total, log) in
  well_formed oc' /\ map fst oc' = map fst oc /\
  sum_of_counts oc' - total' = sum_of_counts oc - total.
Proof.
  induction tweets as [|tw tweets IH]; intros oc total log Hwf; [cbn; auto |].
  unfold process_tweets. cbn [fold_left].
  assert (Hstep : let '(oc1, total1, _) := process_tweet cap outcomes (oc, total, log) tw in
                  well_formed oc1 /\ map fst oc1 = map fst oc /\
                  sum_of_counts oc1 - total1 = sum_of_counts oc - total).
  { unfold process_tweet. destruct tw as [| | | | | |d]; auto.
    destruct (dict_get d "text") as [text|]; auto.
    pose proof (count_judgment_inv oc total (classify_tweet cap text outcomes) Hwf) as H.
    destruct (count_judgment (oc, total) (classify_tweet cap text outcomes)). exact H. }
  destruct (process_tweet cap outcomes (oc, total, log) tw) as [[oc1 total1] log1].
  destruct Hstep as (Hwf1 & Hn1 & Hs1).
  pose proof (IH oc1 total1 log1 Hwf1) as H.
  fold (process_tweets cap outcomes tweets (oc1, total1, log1)).
  destruct (process_tweets cap outcomes tweets (oc1, total1, log1)) as [[oc2 total2] log2].
  destruct H as (Hwf2 & Hn2 & Hs2). split; [exact Hwf2 |]. split; [congruence | lia].
Qed.

Lemma od_set_stat0 (acc : counts) k obj :
  (forall k' o' s', In (k', o', s') acc -> s' = stat0) ->
  well_formed acc -> key_of obj = Some k ->
  well_formed (od_set acc k obj stat0) /\
  (forall k' o' s', In (k', o', s') (od_set acc k obj stat0) -> s' = stat0) /\
  (od_get acc k = None -> od_set acc k obj stat0 = (acc ++ [(k, obj, stat0)])%list) /\
  ((exists s, od_get acc k = Some s) -> od_set acc k obj stat0 = acc).
Proof.
  intros Hall Hwf Hk.
  assert (Hsame : (exists s, od_get acc k = Some s) -> od_set acc k obj stat0 = acc).
  { clear Hwf. induction acc as [|[[k' o'] s'] acc IH]; cbn; [intros [s H]; discriminate |].
    destruct (key_eqb k' k).
    - intros _. rewrite (Hall k' o' s' (or_introl eq_refl)). reflexivity.
    - intros H. rewrite IH; auto. intros; eapply Hall; right; eauto. }
  destruct (od_get acc k) as [s|] eqn:G.
  - rewrite (Hsame (ex_intro _ s eq_refl)). repeat split; auto; try discriminate.
    all: destruct Hwf; eauto.
  - rewrite (od_set_fresh acc k obj stat0 G). destruct Hwf as [Hn Ho Hp].
    split; [split |]; [| | | split; [| split]].
    + unfold od_keys. rewrite map_app. cbn.
      apply NoDup_app_remove_l with (l := []). cbn.
      rewrite <- (app_nil_r (map _ acc ++ [k])), <- app_assoc. cbn.
      apply NoDup_incl_NoDup with (l := k :: map (fun e => fst (fst e)) acc).
      * constructor; [| exact Hn]. intros Hin.
        apply (od_get_keys acc k) in Hin. destruct Hin as [a Ha]. congruence.
      * rewrite length_app. cbn. lia.
      * intros x [<- | Hx]; apply in_or_app; cbn; auto.
    + intros k1 o1 s1 Hin. apply in_app_or in Hin. destruct Hin as [Hin | [Hin | []]]; eauto.
      injection Hin as <- <- <-. exact Hk.
    + intros k1 o1 s1 Hin. apply in_app_or in Hin. destruct Hin as [Hin | [Hin | []]]; eauto.
      injection Hin as <- <- <-. cbn. lia.
    + intros k1 o1 s1 Hin. apply in_app_or in Hin. destruct Hin as [Hin | [Hin | []]]; eauto.
      injection Hin as <- <- <-. reflexivity.
    + reflexivity.
    + intros [s H]. discriminate.
Qed.

Lemma init_counts_inv outcomes : forall acc oc,
  well_formed acc ->
  (forall k o s, In (k, o, s) acc -> s = stat0) ->
  init_counts outcomes acc = Ok oc ->
  well_formed oc /\ (forall k o s, In (k, o, s) oc -> s = stat0).
Proof.
  induction outcomes as [|o outcomes IH]; intros acc oc Hwf Hall; cbn.
  - intros H. injection H as <-. auto.
  - destruct (key_of o) as [k|] eqn:K; [| discriminate].
    destruct (od_set_stat0 acc k o Hall Hwf K) as (Hwf' & Hall' & _).
    apply IH; assumption.
Qed.

Lemma sum_stat0 (oc : counts) :
  (forall k o s, In (k, o, s) oc -> s = stat0) -> sum_of_counts oc = 0.
Proof.
  unfold sum_of_counts.
  induction oc as [|[[k o] s] oc IH]; cbn; [reflexivity |].
  intros H. rewrite (H k o s (or_introl eq_refl)), IH; [reflexivity |].
  intros; eapply H; right; eauto.
Qed.

Lemma well_formed_nil : well_formed [].
Proof. split; [constructor | contradiction | contradiction]. Qed.

(** What the loop leaves when it starts from the initial counts: distinct
    keys, no negative count, and as many accepted judgments as
    [total_analyzed] says. *)
Lemma tally_inv cap outcomes tweets oc0 log0 :
  init_counts outcomes [] = Ok oc0 ->
  let '(oc, total, _) := process_tweets cap outcomes tweets (oc0, 0, log0) in
  well_formed oc /\ map fst oc = map fst oc0 /\ sum_of_counts oc = total.
Proof.
  intros Hinit.
  destruct (init_counts_inv outcomes [] oc0 well_formed_nil (fun _ _ _ H => match H with end)
              Hinit) as [Hwf Hall].
  pose proof (process_tweets_inv cap outcomes tweets oc0 0 log0 Hwf) as H.
  destruct (process_tweets cap outcomes tweets (oc0, 0, log0)) as [[oc total] log].
  destruct H as (Hwf' & Hn & Hs). rewrite (sum_stat0 oc0 Hall) in Hs.
  split; [exact Hwf' |]. split; [exact Hn | lia].
Qed.

End Tally.

(** ** The winner scan *)

Module WinnerScan.
Import Py Ext TeamClassifier MarketResolver Views Samples OdictFacts Tally.
Local Open Scope list_scope.

Lemma largest_count_app (l : counts) (x : key * value * stat) :
  largest_count (l ++ [x]) = Z.max (largest_count l) (count (snd x)).
Proof.
  unfold largest_count. induction l as [|e l IH]; cbn; [lia |]. rewrite IH. lia.
Qed.

Lemma largest_count_ge (l : counts) e : In e l -> count (snd e) <= largest_count l.
Proof.
  unfold largest_count. induction l as [|e' l IH]; cbn; [contradiction |].
  intros [-> | H]; [lia |]. specialize (IH H). lia.
Qed.

Lemma largest_count_nonneg (l : counts) : 0 <= largest_count l.
Proof. unfold largest_count. induction l as [|e l IH]; cbn; lia. Qed.

Lemma largest_count_positive (l : counts) :
  (forall k o s, In (k, o, s) l -> 0 <= count s) ->
  0 < sum_of_counts l -> 0 < largest_count l.
Proof.
  unfold largest_count, sum_of_counts.
  induction l as [|[[k o] s] l IH]; cbn; [lia |].
  intros Hp Hs. pose proof (Hp k o s (or_introl eq_refl)) as H0.
  destruct (Z.eq_dec (count s) 0) as [Hz | Hz]; [| lia].
  assert (0 < fold_right (fun e acc => Z.max (count (snd e)) acc) 0 l).
  { apply IH; [intros; eapply Hp; right; eauto | lia]. }
  lia.
Qed.

Lemma od_get_NoDup {A : Type} (d : odict A) k obj a :
  NoDup (od_keys d) -> In (k, obj, a) d -> od_get d k = Some a.
Proof.
  induction d as [|[[k' o'] a'] d IH]; cbn; [contradiction |].
  intros Hn [H | H].
  - injection H as -> -> ->. rewrite key_eqb_refl. reflexivity.
  - inversion Hn as [|? ? Hnotin Hn']; subst.
    destruct (key_eqb k' k) eqn:E; [| auto].
    apply key_eqb_eq in E. subst. exfalso. apply Hnotin.
    apply (od_get_keys d k). exists a. auto.
Qed.

Lemma current_confidence_mean (s : stat) :
  0 < count s -> current_confidence s = mean_confidence s.
Proof.
  intros H. unfold current_confidence, mean_confidence.
  destruct (Z.ltb_spec 0 (count s)); [reflexivity | lia].
Qed.

Lemma od_get_breakdown total (visited : counts) k :
  ~ In k (od_keys visited) ->
  od_get (map (fun e => (fst e, breakdown_entry (snd e) total)) visited) k = None.
Proof.
  induction visited as [|[[k' o'] s'] visited IH]; cbn; [reflexivity |].
  intros H. rewrite key_eqb_neq by tauto. apply IH. tauto.
Qed.

Section Step.
Variables (oc : counts) (total : Z).
Hypothesis Hwf : well_formed oc.

Lemma counts_getitem_winner k w s :
  In (k, w, s) oc -> counts_getitem oc w = Ok s.
Proof.
  intros Hin. unfold counts_getitem.
  rewrite (wf_objects oc Hwf k w s Hin).
  rewrite (od_get_NoDup oc k w s (wf_nodup oc Hwf) Hin). reflexivity.
Qed.

Lemma scan_step_inv visited sc item rest :
  oc = (visited ++ item :: rest)%list ->
  scan_inv visited sc -> breakdown_inv total visited sc ->
  exists sc',
    scan_step oc total sc item = Ok sc' /\
    scan_inv (visited ++ [item]) sc' /\
    breakdown_inv total (visited ++ [item]) sc'.
Proof.
  intros Hoc [Hmax Hwin] Hbd. destruct item as [[k outcome] data].
  assert (Hfresh : ~ In k (od_keys visited)).
  { pose proof (wf_nodup oc Hwf) as Hn. rewrite Hoc in Hn. unfold od_keys in Hn.
    rewrite map_app in Hn. cbn in Hn. apply NoDup_remove_2 in Hn.
    intros Hin. apply Hn. apply in_or_app. left. exact Hin. }
  assert (Hbd' : od_set (sentiment_breakdown sc) k outcome (breakdown_entry data total)
                 = map (fun e => (fst e, breakdown_entry (snd e) total))
                       (visited ++ [(k, outcome, data)])).
  { rewrite Hbd, od_set_fresh by (apply od_get_breakdown; exact Hfresh).
    rewrite map_app. reflexivity. }
  unfold scan_step. rewrite Hbd'.
  assert (Hle : forall e, In e visited -> count (snd e) <= max_count sc).
  { intros e He. rewrite Hmax. apply largest_count_ge. exact He. }
  destruct (Z.ltb_spec (max_count sc) (count data)) as [Hgt | Hngt].
  - (* a strictly larger count *)
    eexists. split; [reflexivity |]. split; [| reflexivity].
    split; cbn [max_count winning_outcome].
    + rewrite largest_count_app. cbn. lia.
    + right. pose proof (largest_count_nonneg visited). split; [lia |].
      exists visited, k, data, []. repeat split.
      * intros e He Hc. specialize (Hle e He). lia.
      * intros e [].
  - destruct (Z.eqb_spec (count data) (max_count sc)) as [Heq | Hne];
      [destruct (Z.ltb_spec 0 (max_count sc)) as [Hpos | Hnpos] |]; cbn [andb].
    + (* a tie at a positive count *)
      destruct Hwin as [[Hz _] | [_ (pre & kw & s & post & Hvis & Hcs & Hpre & Hpost)]];
        [lia |].
      assert (Hin : In (kw, winning_outcome sc, s) oc).
      { rewrite Hoc, Hvis. apply in_or_app. left. apply in_or_app. right. left. reflexivity. }
      unfold winning_confidence.
      destruct (Z.ltb_spec 0 (max_count sc)); [| lia].
      rewrite (counts_getitem_winner _ _ _ Hin). cbn [bind].
      rewrite current_confidence_mean by lia.
      replace (confidence_sum s / F64.Z2float (max_count sc))%float
        with (mean_confidence s) by (unfold mean_confidence; rewrite Hcs; reflexivity).
      destruct (mean_confidence s <? mean_confidence data)%float eqn:Hlt.
      * (* the later outcome has the strictly greater mean *)
        eexists. split; [reflexivity |]. split; [| reflexivity].
        split; cbn [max_count winning_outcome].
        -- rewrite largest_count_app. cbn. lia.
        -- right. split; [lia |]. exists visited, k, data, []. repeat split; [lia | |].
           ++ intros e He Hc. rewrite Hvis in He.
              destruct (mean_confidence data <=? mean_confidence (snd e))%float eqn:Hle';
                [| reflexivity].
              exfalso. change (F64.lt (mean_confidence s) (mean_confidence data)) in Hlt.
              change (F64.le (mean_confidence data) (mean_confidence (snd e))) in Hle'.
              pose proof (F64Order.f64_lt_le_trans _ _ _ Hlt Hle') as Hse.
              apply in_app_or in He. destruct He as [He | [<- | He]].
              ** pose proof (Hpre e He Hc) as Hf.
                 rewrite (F64Order.f64_lt_le _ _ Hse) in Hf. discriminate.
              ** unfold F64.lt in Hse. cbn [snd] in Hse.
                 rewrite F64Order.f64_lt_irrefl in Hse. discriminate.
              ** pose proof (Hpost e He Hc) as Hf. rewrite Hse in Hf. discriminate.
           ++ intros e [].
      * (* the running winner keeps its place *)
        eexists. split; [reflexivity |]. split; [| reflexivity].
        split; cbn [max_count winning_outcome].
        -- rewrite largest_count_app. cbn. lia.
        -- right. split; [lia |]. exists pre, kw, s, (post ++ [(k, outcome, data)])%list.
           repeat split; auto.
           ++ rewrite Hvis, <- app_assoc. reflexivity.
           ++ intros e He Hc. apply in_app_or in He. destruct He as [He | [<- | []]]; auto.
    + (* a tie at count zero *)
      eexists. split; [reflexivity |]. split; [| reflexivity].
      split; cbn [max_count winning_outcome].
      * rewrite largest_count_app. cbn. lia.
      * left. pose proof (largest_count_nonneg visited).
        destruct Hwin as [[Hz Hw] | [Hp _]]; [auto | lia].
    + (* a smaller count *)
      eexists. split; [reflexivity |]. split; [| reflexivity].
      split; cbn [max_count winning_outcome].
      * rewrite largest_count_app. cbn. lia.
      * destruct Hwin as [[Hz Hw] | [Hp (pre & kw & s & post & Hvis & Hcs & Hpre & Hpost)]];
          [left; auto |].
        right. split; [exact Hp |]. exists pre, kw, s, (post ++ [(k, outcome, data)])%list.
        repeat split; auto.
        -- rewrite Hvis, <- app_assoc. reflexivity.
        -- intros e He Hc. apply in_app_or in He. destruct He as [He | [<- | []]]; auto.
           cbn in Hc. lia.
Qed.

Lemma scan_items_inv : forall rest visited sc,
  oc = (visited ++ rest)%list ->
  scan_inv visited sc -> breakdown_inv total visited sc ->
  exists sc',
    scan_items oc total rest sc = Ok sc' /\ scan_inv oc sc' /\ breakdown_inv total oc sc'.
Proof.
  induction rest as [|item rest IH]; intros visited sc Hoc Hinv Hbd.
  - rewrite app_nil_r in Hoc. subst visited. exists sc. auto.
  - destruct (scan_step_inv visited sc item rest Hoc Hinv Hbd) as (sc1 & Hs & Hinv1 & Hbd1).
    cbn [scan_items]. rewrite Hs. cbn [bind].
    apply (IH (visited ++ [item])%list sc1); auto.
    rewrite <- app_assoc. exact Hoc.
Qed.

(** The scan of well-formed counts never raises, and ends in a state that
    satisfies the two invariants for all the outcomes. *)
Lemma scan_all :
  exists sc,
    scan_items oc total oc scan0 = Ok sc /\ scan_inv oc sc /\ breakdown_inv total oc sc.
Proof.
  apply (scan_items_inv oc [] scan0); [reflexivity | | reflexivity].
  split; [reflexivity | left; auto].
Qed.

End Step.

End WinnerScan.

(** ** A sentiment resolution, from the market to the record *)

Module SentimentRun.
Import Py Ext TeamClassifier MarketResolver Views Samples OdictFacts Dispatch Tally WinnerScan.
Local Open Scope list_scope.

Lemma index_from_spec outcomes k : forall base,
  (exists o, In o outcomes /\ key_of o = Some k) ->
  exists i, index_from outcomes k base = Ok (base + i) /\ first_position outcomes k i.
Proof.
  induction outcomes as [|o outcomes IH]; intros base [o' [Hin Hk]]; [contradiction |].
  cbn [index_from].
  destruct (key_of o) as [k'|] eqn:K.
  - destruct (key_eqb k' k) eqn:E.
    + apply key_eqb_eq in E. subst k'. exists 0. split; [f_equal; lia |].
      split; [lia |]. split; [exists o; auto | intros j o0 Hj; cbn in Hj; lia].
    + destruct Hin as [-> | Hin].
      { rewrite Hk in K. injection K as ->. rewrite key_eqb_refl in E. discriminate. }
      destruct (IH (base + 1) (ex_intro _ o' (conj Hin Hk))) as (i & Hi & H0 & (o1 & Hn & Ho1) & Hb).
      exists (i + 1). split; [rewrite Hi; f_equal; lia |].
      split; [lia |]. split.
      * exists o1. replace (Z.to_nat (i + 1)) with (S (Z.to_nat i)) by lia. auto.
      * intros j o0 Hj Hnth. destruct j as [|j]; cbn in Hnth.
        -- injection Hnth as <-. rewrite K. intros H. injection H as ->.
           rewrite key_eqb_refl in E. discriminate.
        -- apply (Hb j o0); [lia | exact Hnth].
  - destruct Hin as [-> | Hin]; [congruence |].
    destruct (IH (base + 1) (ex_intro _ o' (conj Hin Hk))) as (i & Hi & H0 & (o1 & Hn & Ho1) & Hb).
    exists (i + 1). split; [rewrite Hi; f_equal; lia |].
    split; [lia |]. split.
    + exists o1. replace (Z.to_nat (i + 1)) with (S (Z.to_nat i)) by lia. auto.
    + intros j o0 Hj Hnth. destruct j as [|j]; cbn in Hnth.
      * injection Hnth as <-. congruence.
      * apply (Hb j o0); [lia | exact Hnth].
Qed.

Lemma od_set_keys {A : Type} (d : odict A) k obj a k' :
  In k' (od_keys (od_set d k obj a)) -> In k' (od_keys d) \/ k' = k.
Proof.
  induction d as [|[[k0 o0] a0] d IH]; cbn.
  - intros [<- | []]. auto.
  - destruct (key_eqb k0 k); cbn; [tauto |]. intros [H | H]; [auto |].
    destruct (IH H); auto.
Qed.

Lemma init_counts_keys outcomes : forall acc oc k,
  init_counts outcomes acc = Ok oc -> In k (od_keys oc) ->
  In k (od_keys acc) \/ exists o, In o outcomes /\ key_of o = Some k.
Proof.
  induction outcomes as [|o outcomes IH]; intros acc oc k; cbn [init_counts].
  - intros H. injection H as <-. auto.
  - destruct (key_of o) as [k0|] eqn:K; [| discriminate].
    intros Hi Hin. destruct (IH _ _ _ Hi Hin) as [H | (o' & Ho' & Hk')].
    + destruct (od_set_keys _ _ _ _ _ H) as [H' | ->]; [auto |].
      right. exists o. split; [left; reflexivity | exact K].
    + right. exists o'. split; [right; exact Ho' | exact Hk'].
Qed.

(** With distinct keys the initial counts list the outcomes as declared. *)
Lemma init_counts_unique outcomes : forall ks acc,
  outcome_keys outcomes = Some ks -> NoDup (od_keys acc ++ ks) ->
  exists oc, init_counts outcomes acc = Ok oc /\
             map (fun e => snd (fst e)) oc = map (fun e => snd (fst e)) acc ++ outcomes.
Proof.
  induction outcomes as [|o outcomes IH]; intros ks acc; cbn [outcome_keys init_counts].
  - intros _ _. exists acc. rewrite app_nil_r. auto.
  - destruct (key_of o) as [k|] eqn:K; [| discriminate].
    destruct (outcome_keys outcomes) as [ks'|] eqn:Ks; [| discriminate].
    intros H Hn. injection H as <-.
    assert (Hfresh : od_get acc k = None).
    { destruct (od_get acc k) as [a|] eqn:G; [| reflexivity].
      exfalso. apply NoDup_remove_2 in Hn. apply Hn. apply in_or_app. left.
      apply (od_get_keys acc k). eauto. }
    rewrite (od_set_fresh acc k o stat0 Hfresh).
    destruct (IH ks' (acc ++ [(k, o, stat0)])) as (oc & Hoc & Hobj); [reflexivity | |].
    + unfold od_keys. rewrite map_app. cbn. rewrite <- app_assoc. exact Hn.
    + exists oc. split; [exact Hoc |]. rewrite Hobj, map_app, <- app_assoc. reflexivity.
Qed.

Section Run.
Variables (cap : capability) (d : list (value * value)) (outcomes tweets : list value).
Hypothesis Hvalid : _validate_market_data (VDict d) = Ok tt.
Hypothesis Hmethod : resolution_method_of (VDict d) = Ok "sentiment".
Hypothesis Houtcomes : dict_get d "outcomes" = Some (VList outcomes).
Hypothesis Htweets : py_iter (dict_get_default d "reply_tweets" (VList [])) = Ok tweets.

(** [resolve_market] on a valid sentiment market, step by step. *)
Lemma resolve_market_sentiment :
  resolve_market cap (VDict d) =
  match load_models cap with
  | Some e => (Ok (error_record cap d (str_exn e)), [EvLoadModels])
  | None =>
      match init_counts outcomes [] with
      | Raise e => (Ok (error_record cap d (str_exn e)), [EvLoadModels])
      | Ok oc0 =>
          let '(oc, total, log) :=
            process_tweets cap outcomes tweets (oc0, 0, [EvLoadModels]) in
          (match finish_sentiment cap (VDict d) outcomes oc total with
           | Ok r => Ok r
           | Raise e => Ok (error_record cap d (str_exn e))
           end, log)
      end
  end.
Proof.
  unfold resolve_market, resolve_market_body. rewrite Hvalid, Hmethod. cbn [String.eqb].
  change (String.eqb "sentiment" "sentiment") with true. cbv iota.
  unfold _resolve_by_sentiment, initialize_models.
  destruct (load_models cap) as [e|]; [reflexivity |].
  cbn [py_getitem]. rewrite Houtcomes.
  destruct (init_counts outcomes []) as [oc0|e]; [| reflexivity].
  cbn [py_get bind]. rewrite Htweets.
  destruct (process_tweets cap outcomes tweets (oc0, 0, [EvLoadModels])) as [[oc total] log].
  destruct (finish_sentiment cap (VDict d) outcomes oc total); reflexivity.
Qed.

(** A decided record comes from the last branch: the models loaded, the
    outcomes were hashable and at least one judgment was accepted. *)
Lemma decided_inversion r log :
  resolve_market cap (VDict d) = (Ok r, log) -> is_decided r = true ->
  exists oc0 oc total,
    load_models cap = None /\
    init_counts outcomes [] = Ok oc0 /\
    process_tweets cap outcomes tweets (oc0, 0, [EvLoadModels]) = (oc, total, log) /\
    finish_sentiment cap (VDict d) outcomes oc total = Ok r.
Proof.
  rewrite resolve_market_sentiment.
  destruct (load_models cap) as [e|].
  { intros H. injection H as <- _. discriminate. }
  destruct (init_counts outcomes []) as [oc0|e].
  2: { intros H. injection H as <- _. discriminate. }
  destruct (process_tweets cap outcomes tweets (oc0, 0, [EvLoadModels]))
    as [[oc total] lg] eqn:Hp.
  destruct (finish_sentiment cap (VDict d) outcomes oc total) as [r'|e] eqn:Hf.
  2: { intros H. injection H as <- _. discriminate. }
  intros H. injection H as <- <-. intros _. exists oc0, oc, total. auto.
Qed.

(** The record [finish_sentiment] builds from a tally of the loop: the scan
    succeeds, its maximum is positive, and the record is decided. *)
Lemma finish_sentiment_decided oc0 oc total log :
  init_counts outcomes [] = Ok oc0 ->
  process_tweets cap outcomes tweets (oc0, 0, [EvLoadModels]) = (oc, total, log) ->
  total <> 0 ->
  exists sc winning_index market_id question,
    scan_items oc total oc scan0 = Ok sc /\
    scan_inv oc sc /\ breakdown_inv total oc sc /\
    well_formed oc /\ sum_of_counts oc = total /\ 0 < total /\ 0 < max_count sc /\
    map fst oc = map fst oc0 /\
    dict_get d "market_id" = Some market_id /\ dict_get d "question" = Some question /\
    (if truthy (winning_outcome sc)
     then py_index outcomes (winning_outcome sc) = Ok winning_index
     else winning_index = -1) /\
    finish_sentiment cap (VDict d) outcomes oc total
    = Ok (decided_record cap market_id question outcomes sc winning_index total).
Proof.
  intros Hinit Hproc Hnz.
  pose proof (tally_inv cap outcomes tweets oc0 [EvLoadModels] Hinit) as Hinv.
  rewrite Hproc in Hinv. destruct Hinv as (Hwf & Hnames & Hsum).
  destruct (scan_all oc total Hwf) as (sc & Hscan & Hsinv & Hbd).
  assert (Hsum0 : 0 <= sum_of_counts oc).
  { clear - Hwf. destruct Hwf as [_ _ Hp]. unfold sum_of_counts.
    induction oc as [|[[k o] s] l IH]; cbn; [lia |].
    pose proof (Hp k o s (or_introl eq_refl)).
    assert (0 <= fold_right (fun e acc => count (snd e) + acc) 0 l)
      by (apply IH; intros; eapply Hp; right; eauto).
    lia. }
  assert (Hpos : 0 < total) by lia.
  assert (Hmaxpos : 0 < max_count sc).
  { destruct Hsinv as [-> _]. apply largest_count_positive; [apply (wf_nonneg oc Hwf) | lia]. }
  destruct (validate_ok d Hvalid) as (Hid & Hq & _ & _).
  unfold dict_has in Hid, Hq.
  destruct (dict_get d "market_id") as [market_id|] eqn:Gid; [| discriminate].
  destruct (dict_get d "question") as [question|] eqn:Gq; [| discriminate].
  assert (Hidx : exists wi, if truthy (winning_outcome sc)
                            then py_index outcomes (winning_outcome sc) = Ok wi
                            else wi = -1).
  { destruct (truthy (winning_outcome sc)); [| eauto].
    destruct Hsinv as [_ [[Hz _] | [_ (pre & k & s & post & Hvis & _)]]]; [lia |].
    assert (Hin : In (k, winning_outcome sc, s) oc).
    { rewrite Hvis. apply in_or_app. right. left. reflexivity. }
    unfold py_index. rewrite (wf_objects oc Hwf _ _ _ Hin).
    assert (Hk : In k (od_keys oc0)).
    { unfold od_keys. rewrite <- (map_map fst fst), <- Hnames, (map_map fst fst).
      apply (in_map (fun e => fst (fst e)) oc _ Hin). }
    destruct (init_counts_keys outcomes [] oc0 k Hinit Hk) as [[] | Hex].
    destruct (index_from_spec outcomes k 0 Hex) as (i & Hi & _). eauto. }
  destruct Hidx as [wi Hwi].
  exists sc, wi, market_id, question.
  repeat (split; [first [assumption | reflexivity] |]).
  unfold finish_sentiment.
  destruct (Z.eqb_spec total 0); [contradiction |].
  rewrite Hscan. cbn [bind].
  destruct (Z.eqb_spec (max_count sc) 0); [lia |].
  destruct (truthy (winning_outcome sc)).
  - rewrite Hwi. cbn [bind py_getitem]. rewrite Gid, Gq. reflexivity.
  - subst wi. cbn [bind py_getitem]. rewrite Gid, Gq. reflexivity.
Qed.

End Run.

End SentimentRun.

(** ** The laws of a decided sentiment resolution *)

Module Laws.
Import Py Ext TeamClassifier MarketResolver Views Samples OdictFacts Dispatch Tally WinnerScan.
Import SentimentRun.
Local Open Scope list_scope.

(** The guards of the two formulas: no division when the divisor is 0. *)
Lemma support_percentage_zero_total cnt : support_percentage cnt 0 = VInt 0.
Proof. reflexivity. Qed.

Lemma avg_confidence_zero_count s : count s = 0 -> avg_confidence s = VInt 0.
Proof. intros H. unfold avg_confidence. rewrite H. reflexivity. Qed.

Lemma breakdown_entry_positive s total : 0 < total -> breakdown_entry s total = entry_of s total.
Proof.
  intros H. unfold breakdown_entry, entry_of, support_percentage, avg_confidence.
  destruct total; try lia. reflexivity.
Qed.

Section Run.
Variables (cap : capability) (d : list (value * value)) (outcomes tweets : list value).
Hypothesis Hvalid : _validate_market_data (VDict d) = Ok tt.
Hypothesis Hmethod : resolution_method_of (VDict d) = Ok "sentiment".
Hypothesis Houtcomes : dict_get d "outcomes" = Some (VList outcomes).
Hypothesis Htweets : py_iter (dict_get_default d "reply_tweets" (VList [])) = Ok tweets.

(** C3. In a sentiment resolution of a market whose outcomes are distinct,
    a decided record names as winner an outcome [w] that reaches the
    largest accepted count; no outcome that reaches it has a mean
    confidence strictly greater than the mean of [w]; and for every
    outcome that reaches it and is declared before [w], the mean of [w] is
    not below or equal to its mean: an earlier outcome gives way only to a
    strictly greater mean, so equal means leave the earliest one. *)
Theorem tie_break_law (ks : list key) (r : value) (log : list event)
    (Hkeys : outcome_keys outcomes = Some ks) (Hunique : NoDup ks)
    (Hrun : resolve_market cap (VDict d) = (Ok r, log))
    (Hdecided : is_decided r = true) :
  exists oc0 oc total pre k w s post,
    init_counts outcomes [] = Ok oc0 /\
    process_tweets cap outcomes tweets (oc0, 0, [EvLoadModels]) = (oc, total, log) /\
    map (fun e => snd (fst e)) oc = outcomes /\
    oc = pre ++ (k, w, s) :: post /\
    field r "winning_outcome" = Some w /\
    count s = largest_count oc /\ 0 < count s /\
    (forall e, In e oc -> count (snd e) = largest_count oc ->
               (mean_confidence s <? mean_confidence (snd e))%float = false) /\
    (forall e, In e pre -> count (snd e) = largest_count oc ->
               (mean_confidence s <=? mean_confidence (snd e))%float = false).
Proof.
  destruct (decided_inversion cap d outcomes tweets Hvalid Hmethod Houtcomes Htweets
              r log Hrun Hdecided) as (oc0 & oc & total & Hload & Hinit & Hproc & Hfin).
  assert (Hnz : total <> 0).
  { intros ->. unfold finish_sentiment in Hfin. cbn in Hfin. discriminate. }
  destruct (finish_sentiment_decided cap d outcomes tweets Hvalid oc0 oc total log
              Hinit Hproc Hnz)
    as (sc & wi & mid & q & Hscan & Hsinv & Hbd & Hwf & Hsum & Hpos & Hmax & Hnames & _ & _ & _ & Hrec).
  rewrite Hrec in Hfin. injection Hfin as <-.
  destruct Hsinv as [Hmc [[Hz _] | [_ (pre & k & s & post & Hvis & Hcs & Hpre & Hpost)]]];
    [lia |].
  exists oc0, oc, total, pre, k, (winning_outcome sc), s, post.
  split; [exact Hinit |]. split; [exact Hproc |]. split.
  { destruct (init_counts_unique outcomes ks [] Hkeys Hunique) as (oc0' & Hi' & Hobj).
    rewrite Hinit in Hi'. injection Hi' as <-. cbn in Hobj. rewrite <- Hobj.
    rewrite <- !(map_map fst snd), Hnames. reflexivity. }
  split; [exact Hvis |]. split; [reflexivity |].
  rewrite <- Hmc. split; [exact Hcs |]. split; [lia |]. split; [| exact Hpre].
  intros e He Hc. rewrite Hvis in He. apply in_app_or in He.
  destruct He as [He | [<- | He]].
  - destruct (mean_confidence s <? mean_confidence (snd e))%float eqn:Hlt; [| reflexivity].
    pose proof (Hpre e He Hc) as Hf.
    rewrite (F64Order.f64_lt_le _ _ Hlt) in Hf. discriminate.
  - apply F64Order.f64_lt_irrefl.
  - apply Hpost; assumption.
Qed.

(** X9. The confidence and the index of a decided record: the confidence
    is the largest count over [total_analyzed], rounded to 4 places; the
    index is the first position of the winner among the outcomes when the
    winner is a truthy value, and -1 when it is falsy. *)
Lemma decided_confidence_and_index (r : value) (log : list event) :
  resolve_market cap (VDict d) = (Ok r, log) -> is_decided r = true ->
  exists oc0 oc total w k i,
    init_counts outcomes [] = Ok oc0 /\
    process_tweets cap outcomes tweets (oc0, 0, [EvLoadModels]) = (oc, total, log) /\
    field r "confidence"
    = Some (VFloat (F64.py_round (F64.int_div (largest_count oc) total) 4)) /\
    field r "winning_outcome" = Some w /\ key_of w = Some k /\
    field r "winning_index" = Some (VInt i) /\
    (truthy w = true -> first_position outcomes k i) /\
    (truthy w = false -> i = -1).
Proof.
  intros Hrun Hdecided.
  destruct (decided_inversion cap d outcomes tweets Hvalid Hmethod Houtcomes Htweets
              r log Hrun Hdecided) as (oc0 & oc & total & Hload & Hinit & Hproc & Hfin).
  assert (Hnz : total <> 0).
  { intros ->. unfold finish_sentiment in Hfin. cbn in Hfin. discriminate. }
  destruct (finish_sentiment_decided cap d outcomes tweets Hvalid oc0 oc total log
              Hinit Hproc Hnz)
    as (sc & wi & mid & q & Hscan & Hsinv & Hbd & Hwf & Hsum & Hpos & Hmax & Hnames & _ & _ & Hwi & Hrec).
  rewrite Hrec in Hfin. injection Hfin as <-.
  destruct Hsinv as [Hmc [[Hz _] | [_ (pre & k & s & post & Hvis & Hcs & _)]]]; [lia |].
  assert (Hin : In (k, winning_outcome sc, s) oc).
  { rewrite Hvis. apply in_or_app. right. left. reflexivity. }
  pose proof (wf_objects oc Hwf _ _ _ Hin) as Hk.
  exists oc0, oc, total, (winning_outcome sc), k, wi.
  split; [exact Hinit |]. split; [exact Hproc |].
  split; [cbn; rewrite Hmc; reflexivity |].
  split; [reflexivity |]. split; [exact Hk |]. split; [reflexivity |].
  destruct (truthy (winning_outcome sc)); split; try discriminate; auto.
  intros _. unfold py_index in Hwi. rewrite Hk in Hwi.
  assert (Hex : exists o, In o outcomes /\ key_of o = Some k).
  { assert (Hk0 : In k (od_keys oc0)).
    { unfold od_keys. rewrite <- (map_map fst fst), <- Hnames, (map_map fst fst).
      apply (in_map (fun e => fst (fst e)) oc _ Hin). }
    destruct (init_counts_keys outcomes [] oc0 k Hinit Hk0) as [[] | Hex]. exact Hex. }
  destruct (index_from_spec outcomes k 0 Hex) as (i & Hi & Hfirst).
  rewrite Hi in Hwi. injection Hwi as <-. exact Hfirst.
Qed.

(** X10. A valid sentiment market is never answered with a pending
    record: the branch of [_resolve_by_sentiment] that builds one, for a
    largest count of 0, lies behind the [ValueError] raised when
    [total_analyzed] is 0. *)
Lemma sentiment_is_never_pending (r : value) (log : list event) :
  resolve_market cap (VDict d) = (Ok r, log) -> is_pending r = false.
Proof.
  rewrite (resolve_market_sentiment cap d outcomes tweets Hvalid Hmethod Houtcomes Htweets).
  destruct (load_models cap) as [e|].
  { intros H. injection H as <- _. reflexivity. }
  destruct (init_counts outcomes []) as [oc0|e] eqn:Hinit.
  2: { intros H. injection H as <- _. reflexivity. }
  destruct (process_tweets cap outcomes tweets (oc0, 0, [EvLoadModels]))
    as [[oc total] lg] eqn:Hproc.
  destruct (Z.eq_dec total 0) as [-> | Hnz].
  - intros H. injection H as <- _. reflexivity.
  - destruct (finish_sentiment_decided cap d outcomes tweets Hvalid oc0 oc total lg
                Hinit Hproc Hnz)
      as (sc & wi & mid & q & _ & _ & _ & _ & _ & _ & _ & _ & _ & _ & _ & Hrec).
    rewrite Hrec. intros H. injection H as <- _. reflexivity.
Qed.

End Run.

End Laws.

(** ** Concrete runs *)

Module Runs.
Import Py Ext TeamClassifier MarketResolver Views Samples OdictFacts Dispatch Tally WinnerScan.
Import SentimentRun Laws.
Local Open Scope list_scope.

(** C9, as stated, fails on the tolerance: with 31 outcomes, each supported
    by one accepted reply, every percentage is [round(100/31, 2) = 3.23]
    and the percentages sum to 100.13, more than 0.1 away from 100. *)
Lemma percentages_can_miss_100 :
  exists r log bd,
    resolve_market echo_cap thirty_one_market = (Ok r, log) /\
    is_decided r = true /\
    field r "total_analyzed" = Some (VInt 31) /\
    field r "sentiment_breakdown" = Some (VDict bd) /\
    List.length bd = 31%nat /\
    (0x1.999999999999ap-4 <? abs (sum_percentages bd - 100))%float = true.
Proof.
  exists (result_of (resolve_market echo_cap thirty_one_market)),
         (snd (resolve_market echo_cap thirty_one_market)),
         (match field (result_of (resolve_market echo_cap thirty_one_market))
                  "sentiment_breakdown" with
          | Some (VDict bd) => bd
          | _ => []
          end).
  repeat split; vm_compute; reflexivity.
Qed.

Lemma nodup_a_b : NoDup [KStr "A"; KStr "B"].
Proof.
  constructor; [intros [H | []]; discriminate |].
  constructor; [intros [] | constructor].
Defined.

Lemma tie_break_law_witness :
  exists oc0 oc total pre k w s post,
    init_counts [VStr "A"; VStr "B"] [] = Ok oc0 /\
    process_tweets (table_cap tie_table) [VStr "A"; VStr "B"] [tweet "a7"; tweet "b9"]
      (oc0, 0, [EvLoadModels])
    = (oc, total, snd (resolve_market (table_cap tie_table) (VDict tie_market))) /\
    map (fun e => snd (fst e)) oc = [VStr "A"; VStr "B"] /\
    oc = pre ++ (k, w, s) :: post /\
    field (result_of (resolve_market (table_cap tie_table) (VDict tie_market)))
      "winning_outcome" = Some w /\
    count s = largest_count oc /\ 0 < count s /\
    (forall e, In e oc -> count (snd e) = largest_count oc ->
               (mean_confidence s <? mean_confidence (snd e))%float = false) /\
    (forall e, In e pre -> count (snd e) = largest_count oc ->
               (mean_confidence s <=? mean_confidence (snd e))%float = false).
Proof.
  refine (tie_break_law (table_cap tie_table) tie_market [VStr "A"; VStr "B"]
            [tweet "a7"; tweet "b9"] _ _ _ _ [KStr "A"; KStr "B"]
            (result_of (resolve_market (table_cap tie_table) (VDict tie_market)))
            (snd (resolve_market (table_cap tie_table) (VDict tie_market)))
            _ nodup_a_b _ _); vm_compute; reflexivity.
Defined.

(** The tie of the witness goes to [B], the later outcome with the greater
    mean. *)
Example tie_goes_to_greater_mean :
  field (result_of (resolve_market (table_cap tie_table) (VDict tie_market))) "winning_outcome"
  = Some (VStr "B").
Proof. vm_compute. reflexivity. Qed.

(** The scenario of the specification: [Yes] at [0.9, 0.8, 0.7] and [No] at
    [0.75, 0.65] give the winner [Yes], [total_analyzed] 5, confidence
    [0.6] and [winning_index] 0. *)
Example scenario_yes_no :
  let r := result_of (resolve_market (table_cap scenario_table)
                        (market_of "market_123" yes_no "sentiment" five_replies)) in
  is_decided r = true /\
  field r "winning_outcome" = Some (VStr "Yes") /\
  field r "total_analyzed" = Some (VInt 5) /\
  field r "confidence" = Some (VFloat resolver_min_confidence) /\
  field r "winning_index" = Some (VInt 0).
Proof. vm_compute. repeat split. Qed.

(** C5, on the code. The outcomes are the empty string and [No]; one reply
    is judged for the empty string at 0.9. The record is decided and its
    winner is the empty string, which stands at position 0 of the outcomes;
    the record reports [winning_index] -1, because the index is looked up
    only for a truthy winner. *)
Theorem falsy_winner_index :
  let outcomes := [VStr ""; VStr "No"] in
  let r := result_of (resolve_market (table_cap [("x", (VStr "", c090))])
                        (market_of "market_123" outcomes "sentiment" [tweet "x"])) in
  is_decided r = true /\
  field r "winning_outcome" = Some (VStr "") /\
  py_index outcomes (VStr "") = Ok 0 /\
  field r "winning_index" = Some (VInt (-1)).
Proof. vm_compute. repeat split. Qed.

End Runs.

(** ** The order of the replies *)

Module ReplyOrder.
Import Py Ext TeamClassifier MarketResolver Views Samples OdictFacts Dispatch Tally WinnerScan.
Import SentimentRun Laws Runs.
Local Open Scope list_scope.

Lemma largest_count_view (oc : counts) :
  largest_count oc = fold_right (fun e acc => Z.max (snd e) acc) 0 (counts_view oc).
Proof.
  unfold largest_count, counts_view. induction oc as [|e oc IH]; cbn; [reflexivity |].
  rewrite IH. reflexivity.
Qed.

Lemma support_view_decided cap mid q outcomes sc wi total (oc : counts) :
  breakdown_inv total oc sc ->
  support_view (decided_record cap mid q outcomes sc wi total)
  = Some (map (fun v => (snd (fst v), Some (VInt (snd v)),
                         Some (support_percentage (snd v) total)))
              (counts_view oc)).
Proof.
  intros Hbd. unfold support_view. cbn. unfold breakdown_value, counts_view.
  rewrite Hbd, !map_map. f_equal.
Qed.


Lemma rising_falling_permutation :
  Permutation (a_rising ++ b_falling) (rev a_rising ++ rev b_falling).
Proof. apply Permutation_app; apply Permutation_rev. Defined.

End ReplyOrder.

(** ** The supporters reported by classify_teams *)

Module SupporterCap.
Import Py Ext TeamClassifier ClassifyTeams Views Samples OdictFacts.
Local Open Scope list_scope.




(** *** The loop collects the qualifying items *)

Lemma classify_step_spec cap team_labels st u tw st' u' :
  classify_step cap team_labels (st, u) tw = Ok (st', u') ->
  match supporter_of cap team_labels tw with
  | Some (k, s) => st' = if od_mem st k then od_update st k (add_supporter s) else st
  | None => st' = st
  end.
Proof.
  unfold classify_step, supporter_of. destruct tw as [| | | | | |d];
    try (intros H; injection H as <- _; reflexivity).
  destruct (dict_get d "text") as [txt|]; [| intros H; injection H as <- _; reflexivity].
  destruct (truthy (team (classify_tweet cap txt team_labels)));
    [| intros H; injection H as <- _; reflexivity].
  destruct (key_of (team (classify_tweet cap txt team_labels))) as [k|]; [| discriminate].
  destruct (od_mem st k); intros H; injection H as <- _; reflexivity.
Qed.

Lemma classify_loop_spec cap team_labels tweets : forall st u st' u',
  classify_loop cap team_labels tweets (st, u) = Ok (st', u') ->
  od_keys st' = od_keys st /\
  forall k ts, od_get st k = Some ts ->
    exists ts', od_get st' k = Some ts' /\
                supporters ts' = supporters ts ++ qualifying cap team_labels tweets k.
Proof.
  induction tweets as [|tw tweets IH]; intros st u st' u'; cbn [classify_loop].
  - intros H. injection H as <- _. split; [reflexivity |].
    intros k ts Hk. exists ts. rewrite app_nil_r. auto.
  - destruct (classify_step cap team_labels (st, u) tw) as [[st1 u1]|] eqn:Hstep;
      cbn [bind]; [| discriminate].
    intros Hloop. destruct (IH _ _ _ _ Hloop) as [Hkeys Hsup].
    pose proof (classify_step_spec _ _ _ _ _ _ _ Hstep) as Hs.
    unfold qualifying. cbn [flat_map]. fold (qualifying cap team_labels tweets).
    destruct (supporter_of cap team_labels tw) as [[k1 s]|].
    + destruct (od_mem st k1) eqn:M; subst st1.
      * split; [rewrite Hkeys; apply od_update_keys |].
        intros k ts Hk. destruct (key_eqb k1 k) eqn:E.
        -- apply key_eqb_eq in E. subst k1.
           destruct (Hsup k (add_supporter s ts)) as (ts' & G & S).
           { apply od_get_update_same. exact Hk. }
           exists ts'. split; [exact G |]. rewrite S. cbn. rewrite <- app_assoc. reflexivity.
        -- destruct (Hsup k ts) as (ts' & G & S).
           { rewrite od_get_update_other; [exact Hk |].
             intros ->. rewrite key_eqb_refl in E. discriminate. }
           exists ts'. auto.
      * split; [exact Hkeys |]. intros k ts Hk. destruct (key_eqb k1 k) eqn:E.
        -- apply key_eqb_eq in E. subst k1. unfold od_mem in M. rewrite Hk in M. discriminate.
        -- apply Hsup. exact Hk.
    + subst st1. split; [exact Hkeys |]. intros k ts Hk. apply Hsup. exact Hk.
Qed.

Lemma od_set_nodup {A : Type} (d : odict A) k obj a :
  NoDup (od_keys d) -> NoDup (od_keys (od_set d k obj a)).
Proof.
  induction d as [|[[k0 o0] a0] d IH]; cbn.
  - intros _. constructor; [intros [] | constructor].
  - destruct (key_eqb k0 k) eqn:E; [auto |]. cbn. intros Hn.
    inversion Hn as [|? ? Hnotin Hn']; subst. constructor; [| auto].
    intros Hin. unfold od_keys in *.
    assert (Hor : In k0 (map (fun e => fst (fst e)) d) \/ k0 = k).
    { clear - Hin. induction d as [|[[k1 o1] a1] d IH]; cbn in *.
      - destruct Hin as [<- | []]. auto.
      - destruct (key_eqb k1 k); cbn in Hin; [tauto |].
        destruct Hin as [H | H]; [auto |]. destruct (IH H); auto. }
    destruct Hor as [H | ->]; [contradiction | rewrite key_eqb_refl in E; discriminate].
Qed.

Lemma od_set_initial {A : Type} (d : odict A) k obj a0 :
  (forall k' o' a', In (k', o', a') d -> a' = a0) ->
  forall k' o' a', In (k', o', a') (od_set d k obj a0) -> a' = a0.
Proof.
  induction d as [|[[k0 o0] a1] d IH]; cbn; intros Hall k' o' a'.
  - intros [H | []]. injection H as _ _ <-. reflexivity.
  - destruct (key_eqb k0 k); cbn.
    + intros [H | H]; [injection H as _ _ <-; reflexivity | eapply Hall; right; eauto].
    + intros [H | H]; [eapply Hall; left; eauto |].
      eapply IH; [intros; eapply Hall; right; eauto | exact H].
Qed.

Lemma init_stats_inv team_labels : forall acc st,
  NoDup (od_keys acc) ->
  (forall k o ts, In (k, o, ts) acc -> ts = team_stat0) ->
  init_stats team_labels acc = Ok st ->
  NoDup (od_keys st) /\ (forall k o ts, In (k, o, ts) st -> ts = team_stat0).
Proof.
  induction team_labels as [|t team_labels IH]; intros acc st Hn Hall; cbn [init_stats].
  - intros H. injection H as <-. auto.
  - destruct (key_of t) as [k|]; [| discriminate].
    apply IH; [apply od_set_nodup; exact Hn | apply od_set_initial; exact Hall].
Qed.

(** What the loop leaves for a team: the qualifying items, as they came. *)
Lemma tally_teams_supporters cap team_labels tweets st u k obj ts :
  tally_teams cap team_labels tweets = Ok (st, u) ->
  In (k, obj, ts) st ->
  supporters ts = qualifying cap team_labels tweets k.
Proof.
  unfold tally_teams.
  destruct (init_stats team_labels []) as [st0|] eqn:Hinit; cbn [bind]; [| discriminate].
  intros Hloop Hin.
  destruct (init_stats_inv team_labels [] st0 (NoDup_nil _) (fun _ _ _ H => match H with end)
              Hinit) as [Hn Hall].
  destruct (classify_loop_spec _ _ _ _ _ _ _ Hloop) as [Hkeys Hsup].
  assert (Hk : In k (od_keys st)) by (apply (in_map (fun e => fst (fst e)) st _ Hin)).
  rewrite Hkeys in Hk. apply (od_get_keys st0 k) in Hk. destruct Hk as [ts0 G0].
  destruct (od_get_In _ _ _ G0) as [o0 Hin0].
  pose proof (Hall _ _ _ Hin0) as ->.
  destruct (Hsup k team_stat0 G0) as (ts' & G & S).
  assert (Hn' : NoDup (od_keys st)) by (rewrite Hkeys; exact Hn).
  pose proof (WinnerScan.od_get_NoDup st k obj ts Hn' Hin) as G'.
  rewrite G in G'. injection G' as ->. exact S.
Qed.

(** *** The sort *)

Lemma insert_desc_perm x l : Permutation (insert_desc x l) (x :: l).
Proof.
  induction l as [|y t IH]; cbn; [reflexivity |].
  destruct (s_confidence x <? s_confidence y)%float; [| reflexivity].
  rewrite IH. apply perm_swap.
Qed.

Lemma sort_desc_perm l : Permutation (sort_desc l) l.
Proof.
  induction l as [|x l IH]; cbn; [reflexivity |].
  rewrite insert_desc_perm. constructor. exact IH.
Qed.







(** The crowd of the witness: 110 qualify, 100 are reported, the 50 at 0.9
    first. *)
Example crowd_is_capped :
  List.length (qualifying (Samples.table_cap crowd_table) [VStr "A"; VStr "B"]
                 crowd_tweets (KStr "A")) = 110%nat /\
  List.length (supporters crowd_a) = 100%nat /\
  map s_confidence (supporters crowd_a)
  = repeat Samples.c090 50 ++ repeat Samples.c075 50.
Proof. vm_compute. repeat split. Qed.

End SupporterCap.

(** ** Further facts on binary64 numbers *)

Module F64More.
Import F64 F64Order.

Lemma is_nan_is_num (x : float) : is_nan x = false <-> is_num x.
Proof.
  unfold is_nan, is_num. rewrite negb_false_iff, eqb_spec. unfold SFeqb.
  rewrite rank_compare. destruct (rank (Prim2SF x)) as [[[a b] c]|]; cbn [fst snd].
  - rewrite !Z.ltb_irrefl. split; [discriminate | reflexivity].
  - split; [discriminate | intros H; contradiction H; reflexivity].
Qed.

(** Between two numbers, when [x <= y] fails, [y < x] holds. *)
Lemma f64_not_le_lt (x y : float) :
  is_num x -> is_num y -> (x <=? y)%float = false -> lt y x.
Proof.
  intros Hx Hy Hle.
  destruct (y <? x)%float eqn:E; [exact E |].
  pose proof (f64_not_lt_le y x Hy Hx E) as H. unfold le in H. congruence.
Qed.

End F64More.

(** ** Slices and stripped strings *)

Module StringFacts.
Import Py.

Lemma take_length n s : (String.length (take n s) <= n)%nat.
Proof.
  revert s. induction n as [|n IH]; intros s; [cbn; lia |].
  destruct s as [|c t]; cbn; [lia |]. specialize (IH t). lia.
Qed.

Lemma take_all n s : (String.length s <= n)%nat -> take n s = s.
Proof.
  revert s. induction n as [|n IH]; intros [|c t]; cbn; intros H; try reflexivity; try lia.
  rewrite IH by lia. reflexivity.
Qed.

Lemma lstrip_length s : (String.length (lstrip s) <= String.length s)%nat.
Proof.
  induction s as [|c t IH]; cbn; [lia |]. destruct (is_space c); cbn; lia.
Qed.

Lemma rstrip_length s : (String.length (rstrip s) <= String.length s)%nat.
Proof.
  induction s as [|c t IH]; cbn; [lia |].
  destruct (rstrip t) as [|c' t']; [destruct (is_space c) |]; cbn in *; lia.
Qed.

Lemma lstrip_idem s : lstrip (lstrip s) = lstrip s.
Proof.
  induction s as [|c t IH]; cbn; [reflexivity |].
  destruct (is_space c) eqn:E; [exact IH |]. cbn. rewrite E. reflexivity.
Qed.

Lemma rstrip_idem s : rstrip (rstrip s) = rstrip s.
Proof.
  induction s as [|c t IH]; cbn; [reflexivity |].
  destruct (rstrip t) as [|c' t'] eqn:R.
  - destruct (is_space c) eqn:E; cbn; [reflexivity |]. rewrite E. reflexivity.
  - change (rstrip (String c (String c' t')))
      with (match rstrip (String c' t') with
            | EmptyString => if is_space c then EmptyString else String c EmptyString
            | t'' => String c t''
            end).
    rewrite IH. reflexivity.
Qed.

(** A string that [lstrip] leaves alone is empty or starts with a
    character that is no space. *)
Lemma lstrip_fixed s :
  lstrip s = s -> s = EmptyString \/ exists c t, s = String c t /\ is_space c = false.
Proof.
  destruct s as [|c t]; [auto |]. cbn. destruct (is_space c) eqn:E; [| eauto].
  intros H. pose proof (lstrip_length t) as L. rewrite H in L. cbn in L. lia.
Qed.

Lemma lstrip_rstrip s : lstrip s = s -> lstrip (rstrip s) = rstrip s.
Proof.
  intros H. destruct (lstrip_fixed s H) as [-> | (c & t & -> & E)]; [reflexivity |].
  cbn [rstrip]. destruct (rstrip t); rewrite ?E; cbn [lstrip]; rewrite E; reflexivity.
Qed.

Lemma strip_idem s : strip (strip s) = strip s.
Proof.
  unfold strip. rewrite (lstrip_rstrip (lstrip s) (lstrip_idem s)). apply rstrip_idem.
Qed.

Lemma strip_length s : (String.length (strip s) <= String.length s)%nat.
Proof.
  unfold strip. pose proof (rstrip_length (lstrip s)). pose proof (lstrip_length s). lia.
Qed.

End StringFacts.

(** ** team_classifier.py: the judgment of one tweet *)

Module ClassifierFacts.
Import Py Ext TeamClassifier Views MoreViews Samples MoreSamples OdictFacts StringFacts.
Local Open Scope list_scope.

Lemma preprocess_text_string s : preprocess_text (VStr s) = Ok (strip (take 512 s)).
Proof.
  unfold preprocess_text. cbn [truthy]. destruct (String.eqb_spec s ""); [subst |]; reflexivity.
Qed.

(** X1. [preprocess_text] on a string returns at most 512 characters, with
    no white space at either end, and is idempotent: preprocessing its own
    result changes nothing. *)
Theorem preprocess_text_bounded_and_stable (s : string) :
  exists r,
    preprocess_text (VStr s) = Ok r /\
    (String.length r <= 512)%nat /\
    lstrip r = r /\ rstrip r = r /\
    preprocess_text (VStr r) = Ok r.
Proof.
  exists (strip (take 512 s)).
  assert (Hlen : (String.length (strip (take 512 s)) <= 512)%nat).
  { pose proof (strip_length (take 512 s)). pose proof (take_length 512 s). lia. }
  split; [apply preprocess_text_string |]. split; [exact Hlen |].
  split; [unfold strip; apply lstrip_rstrip, lstrip_idem |].
  split; [unfold strip; apply rstrip_idem |].
  rewrite preprocess_text_string, (take_all 512 _ Hlen), strip_idem. reflexivity.
Qed.

(** *** The position [np.argmax] returns *)

Lemma argmax_from_spec (l : list float) : forall pre bi b,
  nth_error (pre ++ l) bi = Some b -> (bi < List.length pre)%nat ->
  (F64.is_num b ->
   (forall x, In x pre -> F64.le x b) /\
   (forall j x, (j < bi)%nat -> nth_error pre j = Some x -> F64.lt x b)) ->
  exists v,
    nth_error (pre ++ l) (argmax_from l (List.length pre) bi b) = Some v /\
    (F64.is_num v ->
     (forall x, In x (pre ++ l) -> F64.le x v) /\
     (forall j x, (j < argmax_from l (List.length pre) bi b)%nat ->
                  nth_error (pre ++ l) j = Some x -> F64.lt x v)).
Proof.
  induction l as [|x t IH]; intros pre bi b Hnth Hbi Hinv.
  - cbn [argmax_from]. exists b. split; [exact Hnth |]. rewrite app_nil_r. exact Hinv.
  - cbn [argmax_from]. destruct (is_nan b) eqn:Hnan.
    + exists b. split; [exact Hnth |]. intros Hb.
      apply F64More.is_nan_is_num in Hb. congruence.
    + apply F64More.is_nan_is_num in Hnan. destruct (Hinv Hnan) as [Hle Hlt].
      assert (Hlen : List.length (pre ++ [x]) = S (List.length pre))
        by (rewrite length_app; cbn; lia).
      assert (Happ : (pre ++ [x]) ++ t = pre ++ x :: t)
        by (rewrite <- app_assoc; reflexivity).
      destruct (x <=? b)%float eqn:Hxb; cbn [negb].
      * destruct (IH (pre ++ [x]) bi b) as (v & Hv & Hmax).
        { rewrite Happ. exact Hnth. }
        { rewrite Hlen. lia. }
        { intros _. split.
          - intros y Hy. apply in_app_or in Hy. destruct Hy as [Hy | [<- | []]]; auto.
          - intros j y Hj Hy. rewrite nth_error_app1 in Hy by lia. eauto. }
        rewrite Hlen, Happ in *. exists v. auto.
      * destruct (IH (pre ++ [x]) (List.length pre) x) as (v & Hv & Hmax).
        { rewrite nth_error_app1 by (rewrite Hlen; lia).
          rewrite nth_error_app2 by lia. rewrite Nat.sub_diag. reflexivity. }
        { rewrite Hlen. lia. }
        { intros Hx. pose proof (F64More.f64_not_le_lt x b Hx Hnan Hxb) as Hbx. split.
          - intros y Hy. apply in_app_or in Hy. destruct Hy as [Hy | [<- | []]].
            + eapply F64Order.f64_le_trans; [apply Hle; exact Hy |].
              apply F64Order.f64_lt_le. exact Hbx.
            + apply F64Order.f64_le_refl. exact Hx.
          - intros j y Hj Hy. rewrite nth_error_app1 in Hy by lia.
            eapply F64Order.f64_le_lt_trans; [| exact Hbx].
            apply Hle. eapply nth_error_In. exact Hy. }
        rewrite Hlen, Happ in *. exists v. auto.
Qed.

Lemma argmax_spec (scores : list float) (i : nat) :
  argmax scores = Ok i ->
  exists v,
    nth_error scores i = Some v /\
    (F64.is_num v ->
     (forall x, In x scores -> F64.le x v) /\
     (forall j x, (j < i)%nat -> nth_error scores j = Some x -> F64.lt x v)).
Proof.
  destruct scores as [|x t]; [discriminate |]. cbn [argmax]. intros H. injection H as <-.
  apply (argmax_from_spec t [x] 0%nat x); [reflexivity | cbn; lia |].
  intros Hx. split.
  - intros y [<- | []]. apply F64Order.f64_le_refl. exact Hx.
  - intros j y Hj. lia.
Qed.

(** X2. When [classify_tweet] names a team (the team is truthy), the text
    was a non-blank string, the pipeline answered, and the team is the
    label standing at the position of the first largest score: the
    confidence is that score, it is at least 0.5, no score is greater and
    every score before it is strictly smaller. *)
Theorem team_is_first_best_label (cap : capability) (txt : value) (team_labels : list value)
    (Hteam : truthy (team (classify_tweet cap txt team_labels)) = true) :
  exists processed labels scores i,
    preprocess_text txt = Ok processed /\ processed <> EmptyString /\
    zero_shot cap processed team_labels = Ok (labels, scores) /\
    nth_error labels i = Some (team (classify_tweet cap txt team_labels)) /\
    nth_error scores i = Some (confidence (classify_tweet cap txt team_labels)) /\
    F64.le classifier_min_confidence (confidence (classify_tweet cap txt team_labels)) /\
    (forall x, In x scores ->
               F64.le x (confidence (classify_tweet cap txt team_labels))) /\
    (forall j x, (j < i)%nat -> nth_error scores j = Some x ->
                 F64.lt x (confidence (classify_tweet cap txt team_labels))).
Proof.
  revert Hteam. unfold classify_tweet, classify_tweet_body.
  destruct (preprocess_text txt) as [processed|]; cbn [bind]; [| discriminate].
  destruct (String.eqb_spec processed ""); [discriminate |].
  destruct (zero_shot cap processed team_labels) as [[labels scores]|] eqn:Hz; cbn [bind];
    [| discriminate].
  destruct (argmax scores) as [i|] eqn:Harg; cbn [bind]; [| discriminate].
  destruct (argmax_spec scores i Harg) as (v & Hv & Hmax). rewrite Hv.
  destruct (classifier_min_confidence <=? v)%float eqn:E.
  - destruct (nth_error labels i) as [label|] eqn:Hl; cbn [bind]; [| discriminate].
    destruct (all_scores labels scores); cbn [bind]; [| discriminate].
    cbn [team confidence]. intros _.
    destruct (Hmax (F64Order.f64_le_is_num_r _ _ E)) as [Hle Hlt].
    exists processed, labels, scores, i.
    repeat split; try reflexivity; try assumption.
  - cbn [bind]. destruct (all_scores labels scores); discriminate.
Qed.

Lemma team_is_first_best_label_witness :
  exists processed labels scores i,
    preprocess_text (VStr "  up only ") = Ok processed /\ processed <> EmptyString /\
    zero_shot three_way_cap processed [VStr "A"; VStr "B"; VStr "C"] = Ok (labels, scores) /\
    nth_error labels i
    = Some (team (classify_tweet three_way_cap (VStr "  up only ")
                    [VStr "A"; VStr "B"; VStr "C"])) /\
    nth_error scores i
    = Some (confidence (classify_tweet three_way_cap (VStr "  up only ")
                          [VStr "A"; VStr "B"; VStr "C"])) /\
    F64.le classifier_min_confidence
      (confidence (classify_tweet three_way_cap (VStr "  up only ")
                     [VStr "A"; VStr "B"; VStr "C"])) /\
    (forall x, In x scores ->
       F64.le x (confidence (classify_tweet three_way_cap (VStr "  up only ")
                               [VStr "A"; VStr "B"; VStr "C"]))) /\
    (forall j x, (j < i)%nat -> nth_error scores j = Some x ->
       F64.lt x (confidence (classify_tweet three_way_cap (VStr "  up only ")
                               [VStr "A"; VStr "B"; VStr "C"]))).
Proof.
  refine (team_is_first_best_label three_way_cap (VStr "  up only ")
            [VStr "A"; VStr "B"; VStr "C"] _).
  vm_compute. reflexivity.
Defined.

(** The witness names [B]: the first of the two labels scored [0.9]. *)
Example first_of_two_best :
  team (classify_tweet three_way_cap (VStr "  up only ") [VStr "A"; VStr "B"; VStr "C"])
  = VStr "B".
Proof. vm_compute. reflexivity. Qed.

(** X3. On a loaded classifier [classify_tweet] never raises on an
    unusable text. A text that is not a string, or that is empty or blank
    within its first 512 characters, is never sent to the pipeline:
    whatever the pipeline would answer, the method returns the judgment
    without team and with confidence 0.0. The same judgment answers a
    pipeline that raises, or that returns no score. On an instance whose
    [load_model] has not run the guard before the [try] raises an
    [AttributeError], whatever the text. *)
Theorem unusable_text_gives_no_judgment (cap : capability) (txt : value)
    (team_labels : list value) :
  (match txt with VStr s => strip (take 512 s) = EmptyString | _ => True end ->
   classify_tweet_on cap Loaded txt team_labels = Ok no_judgment) /\
  (forall processed,
      preprocess_text txt = Ok processed ->
      (exists e, zero_shot cap processed team_labels = Raise e) \/
      (exists labels, zero_shot cap processed team_labels = Ok (labels, [])) ->
      classify_tweet_on cap Loaded txt team_labels = Ok no_judgment) /\
  (exists msg, classify_tweet_on cap Fresh txt team_labels = Raise (AttributeError msg)).
Proof.
  unfold classify_tweet_on. split; [| split; [| eexists; reflexivity]].
  - intros H. f_equal. unfold classify_tweet, classify_tweet_body.
    destruct txt as [| [|] | z | f | s | [|v l] | [|p d]];
      try reflexivity.
    + unfold preprocess_text. cbn [truthy]. destruct (negb (z =? 0)); reflexivity.
    + unfold preprocess_text. cbn [truthy]. destruct (negb (f =? 0)%float); reflexivity.
    + rewrite preprocess_text_string, H. reflexivity.
  - intros processed Hp H. f_equal. unfold classify_tweet, classify_tweet_body.
    rewrite Hp. cbn [bind].
    destruct (String.eqb processed ""); [reflexivity |].
    destruct H as [[e ->] | [labels ->]]; reflexivity.
Qed.

End ClassifierFacts.

(** ** team_classifier.py: the accounts and the winner of classify_teams *)

Module TeamsFacts.
Import Py Ext TeamClassifier ClassifyTeams Views MoreViews Samples MoreSamples OdictFacts.
Import SupporterCap.
Local Open Scope list_scope.

(** What a successful run is made of: the tally of the loop, then the
    statistics and the clean-up. *)
Lemma teams_run_inversion cap data controversy team_labels tweets c w stats total u :
  check_input data = Ok (controversy, team_labels, tweets) ->
  classify_teams cap (Ok data) = Ok (TeamsOk c w stats total u) ->
  exists st,
    tally_teams cap team_labels tweets = Ok (st, u) /\
    c = controversy /\
    total = sum_counts st /\
    report_teams controversy (st, u) = TeamsOk c w stats total u.
Proof.
  intros Hinput Hrun. unfold classify_teams in Hrun.
  destruct (classify_teams_body cap (Ok data)) as [r|] eqn:Hbody.
  2: { cbn in Hrun. destruct (py_get data "controversy" (VStr "")); discriminate. }
  injection Hrun as ->. unfold classify_teams_body in Hbody. cbn [bind] in Hbody.
  rewrite Hinput in Hbody. cbn [bind] in Hbody.
  destruct (load_models cap); cbn [bind] in Hbody; [discriminate |].
  destruct (tally_teams cap team_labels tweets) as [[st u0]|] eqn:Htally;
    cbn [bind] in Hbody; [| discriminate].
  assert (Hrep : report_teams controversy (st, u0) = TeamsOk c w stats total u)
    by congruence.
  clear Hbody. pose proof Hrep as Hrep'.
  unfold report_teams in Hrep'. cbv beta iota zeta in Hrep'.
  assert (Hu : u0 = u) by congruence. assert (Hc : controversy = c) by congruence.
  assert (Ht : sum_counts st = total) by congruence. subst u0.
  exists st. auto.
Qed.

Lemma sum_counts_fold (st : odict team_stat) : sum_counts st = sum_team_counts st.
Proof.
  unfold sum_counts, sum_team_counts.
  assert (H : forall acc, fold_left (fun a e => a + t_count (snd e)) st acc
                          = acc + fold_right (fun e a => t_count (snd e) + a) 0 st).
  { induction st as [|e st IH]; intros acc; cbn; [lia |]. rewrite IH. lia. }
  rewrite H. lia.
Qed.

Lemma sum_team_counts_update (st : odict team_stat) k s :
  od_mem st k = true ->
  sum_team_counts (od_update st k (add_supporter s)) = sum_team_counts st + 1.
Proof.
  unfold od_mem, sum_team_counts. induction st as [|[[k' o'] ts] st IH]; cbn; [discriminate |].
  destruct (key_eqb k' k); cbn; [lia |]. intros H. rewrite (IH H). lia.
Qed.

Lemma sum_team_counts_map (f : team_stat -> team_stat) (st : odict team_stat) :
  (forall ts, t_count (f ts) = t_count ts) ->
  sum_team_counts (map_stats f st) = sum_team_counts st.
Proof.
  intros Hf. unfold sum_team_counts, map_stats.
  induction st as [|e st IH]; cbn; [reflexivity |]. rewrite Hf, IH. reflexivity.
Qed.

(** One turn of the loop either passes over a tweet without text, or
    credits one team, or adds 1 to [unclassified_count]. *)
Lemma classify_step_account cap team_labels st u tw st' u' :
  classify_step cap team_labels (st, u) tw = Ok (st', u') ->
  sum_team_counts st' + u' = sum_team_counts st + u + (if has_text tw then 1 else 0).
Proof.
  unfold classify_step, has_text, dict_has. destruct tw as [| | | | | |d];
    try (intros H; injection H as <- <-; lia).
  destruct (dict_get d "text") as [txt|]; [| intros H; injection H as <- <-; lia].
  destruct (truthy (team (classify_tweet cap txt team_labels)));
    [| intros H; injection H as <- <-; lia].
  destruct (key_of (team (classify_tweet cap txt team_labels))) as [k|]; [| discriminate].
  destruct (od_mem st k) eqn:M; intros H; injection H as <- <-; [| lia].
  rewrite sum_team_counts_update by exact M. lia.
Qed.

Lemma classify_loop_account cap team_labels tweets : forall st u st' u',
  classify_loop cap team_labels tweets (st, u) = Ok (st', u') ->
  sum_team_counts st' + u'
  = sum_team_counts st + u + Z.of_nat (List.length (filter has_text tweets)).
Proof.
  induction tweets as [|tw tweets IH]; intros st u st' u'; cbn [classify_loop].
  - intros H. injection H as <- <-. cbn. lia.
  - destruct (classify_step cap team_labels (st, u) tw) as [[st1 u1]|] eqn:Hstep;
      cbn [bind]; [| discriminate].
    intros Hloop. rewrite (IH _ _ _ _ Hloop), (classify_step_account _ _ _ _ _ _ _ Hstep).
    cbn [filter]. destruct (has_text tw); cbn [List.length]; lia.
Qed.

Lemma In_update_team (st : odict team_stat) k0 s k obj ts :
  In (k, obj, ts) (od_update st k0 (add_supporter s)) ->
  In (k, obj, ts) st \/ exists ts0, In (k, obj, ts0) st /\ ts = add_supporter s ts0.
Proof.
  induction st as [|[[k' o'] ts'] st IH]; cbn; [contradiction |].
  destruct (key_eqb k' k0); cbn.
  - intros [H | H]; [| auto]. injection H as <- <- <-. right. eauto.
  - intros [H | H]; [auto |]. destruct (IH H) as [H' | (ts0 & H' & ->)]; eauto.
Qed.

Lemma classify_loop_counted cap team_labels tweets : forall st u st' u',
  counted st ->
  classify_loop cap team_labels tweets (st, u) = Ok (st', u') -> counted st'.
Proof.
  induction tweets as [|tw tweets IH]; intros st u st' u' Hc; cbn [classify_loop].
  - intros H. injection H as <- _. exact Hc.
  - destruct (classify_step cap team_labels (st, u) tw) as [[st1 u1]|] eqn:Hstep;
      cbn [bind]; [| discriminate].
    apply IH. pose proof (classify_step_spec _ _ _ _ _ _ _ Hstep) as Hs.
    destruct (supporter_of cap team_labels tw) as [[k1 s]|]; [| subst; exact Hc].
    destruct (od_mem st k1); subst st1; [| exact Hc].
    intros k obj ts Hin. destruct (In_update_team _ _ _ _ _ _ Hin) as [H | (ts0 & H & ->)].
    + eapply Hc. exact H.
    + cbn. rewrite length_app, (Hc _ _ _ H). cbn. lia.
Qed.

Lemma tally_teams_counted cap team_labels tweets st u :
  tally_teams cap team_labels tweets = Ok (st, u) -> counted st.
Proof.
  unfold tally_teams.
  destruct (init_stats team_labels []) as [st0|] eqn:Hinit; cbn [bind]; [| discriminate].
  apply classify_loop_counted.
  destruct (init_stats_inv team_labels [] st0 (NoDup_nil _) (fun _ _ _ H => match H with end)
              Hinit) as [_ Hall].
  intros k obj ts Hin. rewrite (Hall _ _ _ Hin). reflexivity.
Qed.

Lemma tally_teams_account cap team_labels tweets st u :
  tally_teams cap team_labels tweets = Ok (st, u) ->
  sum_team_counts st + u = Z.of_nat (List.length (filter has_text tweets)).
Proof.
  unfold tally_teams.
  destruct (init_stats team_labels []) as [st0|] eqn:Hinit; cbn [bind]; [| discriminate].
  intros Hloop. rewrite (classify_loop_account _ _ _ _ _ _ _ Hloop).
  destruct (init_stats_inv team_labels [] st0 (NoDup_nil _) (fun _ _ _ H => match H with end)
              Hinit) as [_ Hall].
  assert (H0 : sum_team_counts st0 = 0).
  { clear - Hall. unfold sum_team_counts. induction st0 as [|[[k o] ts] st0 IH]; cbn;
      [reflexivity |].
    rewrite (Hall k o ts (or_introl eq_refl)), IH; [reflexivity |].
    intros; eapply Hall; right; eauto. }
  lia.
Qed.

(** The entries of the reported [team_stats] and those of the tally. *)
Lemma reported_entry controversy st u c w stats total k obj ts :
  report_teams controversy (st, u) = TeamsOk c w stats total u ->
  In (k, obj, ts) stats ->
  exists ts0,
    In (k, obj, ts0) st /\ t_count ts = t_count ts0 /\
    supporters ts = firstn 100 (sort_desc (supporters ts0)) /\
    (0 < total -> percentage ts = (F64.int_div (t_count ts0) total * F64.Z2float 100)%float).
Proof.
  unfold report_teams. cbv beta iota zeta. intros H. injection H as _ _ Hstats Ht.
  subst stats. unfold map_stats. intros Hin.
  apply in_map_iff in Hin. destruct Hin as ([[k1 o1] ts1] & Heq & Hin1).
  cbn in Heq. injection Heq as -> -> <-. rewrite Ht in Hin1.
  destruct (Z.ltb_spec 0 total).
  - apply in_map_iff in Hin1. destruct Hin1 as ([[k2 o2] ts2] & Heq & Hin2).
    cbn in Heq. injection Heq as -> -> <-. exists ts2. repeat split; auto.
  - exists ts1. repeat split; auto. lia.
Qed.

(** X4. In the result of [classify_teams] the accounts balance:
    [total_classified] is the sum of the counts of the teams; every tweet
    that is a dict with a [text] is either counted for one team or in
    [unclassified_count]; and the count of a team is the number of its
    qualifying items, also when only 100 supporters are reported. *)
Theorem teams_accounts_balance (cap : capability) (data controversy : value)
    (team_labels tweets : list value)
    (c w : value) (stats : odict team_stat) (total u : Z)
    (Hinput : check_input data = Ok (controversy, team_labels, tweets))
    (Hrun : classify_teams cap (Ok data) = Ok (TeamsOk c w stats total u)) :
  total = sum_team_counts stats /\
  total + u = Z.of_nat (List.length (filter has_text tweets)) /\
  forall k obj ts, In (k, obj, ts) stats ->
    t_count ts = Z.of_nat (List.length (qualifying cap team_labels tweets k)) /\
    (List.length (supporters ts) <= List.length (qualifying cap team_labels tweets k))%nat.
Proof.
  destruct (teams_run_inversion _ _ _ _ _ _ _ _ _ _ Hinput Hrun)
    as (st & Htally & _ & Htotal & Hrep).
  assert (Hsum : sum_team_counts stats = sum_team_counts st).
  { pose proof Hrep as Hrep'. unfold report_teams in Hrep'. cbv beta iota zeta in Hrep'.
    injection Hrep' as _ _ Hstats _. subst stats.
    rewrite sum_team_counts_map by reflexivity.
    destruct (0 <? sum_counts st); [apply sum_team_counts_map |]; reflexivity. }
  split; [rewrite Hsum, Htotal; apply sum_counts_fold |].
  split; [rewrite Htotal, sum_counts_fold; eapply tally_teams_account; exact Htally |].
  intros k obj ts Hin.
  destruct (reported_entry _ _ _ _ _ _ _ _ _ _ Hrep Hin) as (ts0 & Hin0 & Hcount & Hsup & _).
  pose proof (tally_teams_counted _ _ _ _ _ Htally _ _ _ Hin0) as Hc.
  pose proof (tally_teams_supporters _ _ _ _ _ _ _ _ Htally Hin0) as Hq.
  rewrite Hcount, Hc, Hq. split; [reflexivity |].
  rewrite Hsup, Hq, length_firstn, (Permutation_length (sort_desc_perm _)). lia.
Qed.

Lemma teams_accounts_balance_witness :
  3 = sum_team_counts mixed_stats /\
  3 + 3 = Z.of_nat (List.length (filter has_text mixed_tweets)) /\
  forall k obj ts, In (k, obj, ts) mixed_stats ->
    t_count ts
    = Z.of_nat (List.length (qualifying (table_cap mixed_table) [VStr "A"; VStr "B"]
                               mixed_tweets k)) /\
    (List.length (supporters ts)
     <= List.length (qualifying (table_cap mixed_table) [VStr "A"; VStr "B"]
                       mixed_tweets k))%nat.
Proof.
  refine (teams_accounts_balance (table_cap mixed_table) mixed_input (VStr "A or B?")
            [VStr "A"; VStr "B"] mixed_tweets (VStr "A or B?") (VStr "A") mixed_stats 3 3
            _ _); vm_compute; reflexivity.
Defined.

(** The winner scan keeps its state or moves to a team whose share
    reaches one half. *)
Lemma winner_fold (l : odict team_stat) : forall init,
  fold_left winner_step l init = init \/
  exists k ts,
    In (k, fst (fold_left winner_step l init), ts) l /\
    snd (fold_left winner_step l init) = percentage ts /\
    F64.le 0.5%float (percentage ts / F64.Z2float 100)%float.
Proof.
  induction l as [|[[k o] ts] l IH]; intros init; cbn [fold_left]; [auto |].
  destruct (IH (winner_step init (k, o, ts))) as [Hsame | (k' & ts' & Hin & Hp & Hle)].
  - rewrite Hsame. unfold winner_step.
    destruct (0.5 <=? percentage ts / F64.Z2float 100)%float eqn:E; cbn [andb]; [| auto].
    destruct (match fst init with VNone => true | _ => (snd init <? percentage ts)%float end);
      [| auto].
    right. exists k, ts. cbn. auto.
  - right. exists k', ts'. cbn. auto.
Qed.

(** X5. The [winning_team] reported by [classify_teams] is [Undecided], or
    a team of [team_stats] whose share of the classified tweets,
    [count / total_classified * 100], is at least 50 percent; without any
    classified tweet it is [Undecided]. *)
Theorem winning_team_has_half (cap : capability) (data controversy : value)
    (team_labels tweets : list value)
    (c w : value) (stats : odict team_stat) (total u : Z)
    (Hinput : check_input data = Ok (controversy, team_labels, tweets))
    (Hrun : classify_teams cap (Ok data) = Ok (TeamsOk c w stats total u)) :
  w = VStr "Undecided" \/
  (0 < total /\
   exists k ts,
     In (k, w, ts) stats /\
     percentage ts = (F64.int_div (t_count ts) total * F64.Z2float 100)%float /\
     F64.le 0.5%float (percentage ts / F64.Z2float 100)%float).
Proof.
  destruct (teams_run_inversion _ _ _ _ _ _ _ _ _ _ Hinput Hrun)
    as (st & Htally & _ & Htotal & Hrep).
  pose proof Hrep as Hrep'. unfold report_teams in Hrep'. cbv beta iota zeta in Hrep'.
  injection Hrep' as _ Hw Hstats _. rewrite <- Htotal in Hw, Hstats.
  destruct (Z.ltb_spec 0 total) as [Hpos | Hnpos].
  2: { left. rewrite <- Hw. reflexivity. }
  destruct (winner_fold (map_stats (with_statistics total) st) (VNone, 0%float))
    as [Hsame | (k & ts & Hin & Hp & Hle)].
  - left. rewrite <- Hw, Hsame. reflexivity.
  - destruct (truthy (fst (fold_left winner_step (map_stats (with_statistics total) st)
                             (VNone, 0%float)))) eqn:T.
    2: { left. rewrite <- Hw. reflexivity. }
    right. split; [exact Hpos |]. subst w.
    exists k, (clean_up ts). split; [| split].
    + subst stats. unfold map_stats at 1.
      apply (in_map (fun e => (fst e, clean_up (snd e))) _ _ Hin).
    + cbn. unfold map_stats in Hin. apply in_map_iff in Hin.
      destruct Hin as ([[k0 o0] ts0] & Heq & _). cbn in Heq. injection Heq as _ _ <-.
      reflexivity.
    + exact Hle.
Qed.

Lemma winning_team_has_half_witness :
  VStr "A" = VStr "Undecided" \/
  (0 < 3 /\
   exists k ts,
     In (k, VStr "A", ts) mixed_stats /\
     percentage ts = (F64.int_div (t_count ts) 3 * F64.Z2float 100)%float /\
     F64.le 0.5%float (percentage ts / F64.Z2float 100)%float).
Proof.
  refine (winning_team_has_half (table_cap mixed_table) mixed_input (VStr "A or B?")
            [VStr "A"; VStr "B"] mixed_tweets (VStr "A or B?") (VStr "A") mixed_stats 3 3
            _ _); vm_compute; reflexivity.
Defined.

(** X6. [classify_teams] answers a dict with a result, never with an
    exception: an input without one of the keys [controversy], [teams],
    [tweets], with fewer than two teams or with tweets that are no list
    gets the error result that says so. Input that could not be decoded
    gets the error result with the controversy [Unknown]. For a decoded
    value that is not a dict the handler itself raises, on
    [data.get]. *)
Theorem classify_teams_input_errors (cap : capability) :
  (forall e, classify_teams cap (Raise e) = Ok (TeamsError (str_exn e) (VStr "Unknown"))) /\
  (forall d, exists r, classify_teams cap (Ok (VDict d)) = Ok r) /\
  (forall d,
      dict_has d "controversy" && dict_has d "teams" && dict_has d "tweets" = false ->
      classify_teams cap (Ok (VDict d))
      = Ok (TeamsError "Invalid input format. Expected keys: controversy, teams, tweets"
                       (dict_get_default d "controversy" (VStr "")))) /\
  (forall d controversy teams,
      dict_get d "controversy" = Some controversy -> dict_get d "teams" = Some teams ->
      dict_has d "tweets" = true ->
      (forall l, teams = VList l -> (List.length l < 2)%nat) ->
      classify_teams cap (Ok (VDict d))
      = Ok (TeamsError "At least two team labels are required" controversy)) /\
  (forall d controversy l tweets,
      dict_get d "controversy" = Some controversy -> dict_get d "teams" = Some (VList l) ->
      dict_get d "tweets" = Some tweets ->
      (2 <= List.length l)%nat -> (forall tw, tweets <> VList tw) ->
      classify_teams cap (Ok (VDict d))
      = Ok (TeamsError "Tweets must be a list" controversy)) /\
  (forall v, (forall d, v <> VDict d) ->
      exists msg, classify_teams cap (Ok v) = Raise (AttributeError msg)).
Proof.
  split; [reflexivity |]. split; [| split; [| split; [| split]]].
  - intros d. unfold classify_teams.
    destruct (classify_teams_body cap (Ok (VDict d))) as [r|e]; [eauto |].
    cbn. eauto.
  - intros d H. unfold classify_teams, classify_teams_body. cbn [bind check_input].
    rewrite H. reflexivity.
  - intros d controversy teams Hc Ht Htw Hshort.
    unfold classify_teams, classify_teams_body. cbn [bind check_input].
    unfold dict_has at 1 2. rewrite Hc, Ht, Htw. cbn [andb py_getitem bind].
    rewrite Hc, Ht. cbn [bind].
    unfold dict_has in Htw. destruct (dict_get d "tweets") as [tweets|]; [| discriminate].
    cbn [bind].
    destruct teams as [| | | | |l|]; cbn; unfold dict_get_default; rewrite ?Hc;
      try reflexivity.
    specialize (Hshort l eq_refl).
    destruct (Z.ltb_spec (Z.of_nat (List.length l)) 2); [| lia].
    reflexivity.
  - intros d controversy l tweets Hc Ht Htw Hlen Hnl.
    unfold classify_teams, classify_teams_body. cbn [bind check_input].
    unfold dict_has. rewrite Hc, Ht, Htw. cbn [andb py_getitem bind].
    rewrite Hc, Ht, Htw. cbn [bind].
    destruct (Z.ltb_spec (Z.of_nat (List.length l)) 2); [lia |].
    destruct tweets as [| | | | |tw|]; cbn; try unfold dict_get_default; rewrite ?Hc;
      try reflexivity.
    exfalso. apply (Hnl tw). reflexivity.
  - intros v Hv. unfold classify_teams, classify_teams_body. cbn [bind check_input].
    destruct v; try (eexists; reflexivity). exfalso. apply (Hv d). reflexivity.
Qed.

Lemma check_input_controversy d controversy team_labels tweets :
  check_input (VDict d) = Ok (controversy, team_labels, tweets) ->
  dict_get_default d "controversy" (VStr "") = controversy.
Proof.
  cbn [check_input].
  destruct (dict_has d "controversy" && dict_has d "teams" && dict_has d "tweets");
    [| discriminate].
  cbn [py_getitem]. unfold dict_get_default.
  destruct (dict_get d "controversy") as [c|]; cbn [bind]; [| discriminate].
  destruct (dict_get d "teams") as [t|]; cbn [bind]; [| discriminate].
  destruct (dict_get d "tweets") as [tw|]; cbn [bind]; [| discriminate].
  destruct t; try discriminate. destruct (_ <? 2); [discriminate |].
  destruct tw; try discriminate. intros H. injection H as -> _ _. reflexivity.
Qed.

Lemma init_stats_raise team_labels : forall acc,
  (exists t, In t team_labels /\ key_of t = None) ->
  exists e, init_stats team_labels acc = Raise e.
Proof.
  induction team_labels as [|t team_labels IH]; intros acc (t' & Hin & Hk); [destruct Hin |].
  cbn [init_stats]. destruct (key_of t) as [k|] eqn:K; [| eauto].
  destruct Hin as [-> | Hin]; [congruence |]. apply IH. eauto.
Qed.

(** X24. Failures of [classify_teams] after the input has been accepted
    are answered, not raised: a model that cannot be loaded gives the error
    result with the loader's message and the controversy of the input, and
    so does a team label that cannot be a dict key, with the message of the
    [TypeError]. *)
Theorem classify_teams_failures (cap : capability) (d : list (value * value))
    (controversy : value) (team_labels tweets : list value)
    (Hinput : check_input (VDict d) = Ok (controversy, team_labels, tweets)) :
  (forall e, load_models cap = Some e ->
     classify_teams cap (Ok (VDict d)) = Ok (TeamsError (str_exn e) controversy)) /\
  (load_models cap = None ->
   (exists t, In t team_labels /\ key_of t = None) ->
   exists msg, classify_teams cap (Ok (VDict d)) = Ok (TeamsError msg controversy)).
Proof.
  pose proof (check_input_controversy _ _ _ _ Hinput) as Hc.
  unfold classify_teams, classify_teams_body. cbn [bind]. rewrite Hinput. cbn [bind].
  split.
  - intros e ->. cbn [bind py_get]. rewrite Hc. reflexivity.
  - intros -> Hbad. cbn [bind]. unfold tally_teams.
    destruct (init_stats_raise team_labels [] Hbad) as [e ->].
    cbn [bind py_get]. rewrite Hc. eauto.
Qed.

Lemma classify_teams_failures_witness :
  (forall e, load_models (table_cap mixed_table) = Some e ->
     classify_teams (table_cap mixed_table)
       (Ok (VDict [ (VStr "controversy", VStr "A or B?");
                    (VStr "teams", VList [VStr "A"; VStr "B"]);
                    (VStr "tweets", VList mixed_tweets) ]))
     = Ok (TeamsError (str_exn e) (VStr "A or B?"))) /\
  (load_models (table_cap mixed_table) = None ->
   (exists t, In t [VStr "A"; VStr "B"] /\ key_of t = None) ->
   exists msg,
     classify_teams (table_cap mixed_table)
       (Ok (VDict [ (VStr "controversy", VStr "A or B?");
                    (VStr "teams", VList [VStr "A"; VStr "B"]);
                    (VStr "tweets", VList mixed_tweets) ]))
     = Ok (TeamsError msg (VStr "A or B?"))).
Proof.
  refine (classify_teams_failures (table_cap mixed_table)
            [ (VStr "controversy", VStr "A or B?");
              (VStr "teams", VList [VStr "A"; VStr "B"]);
              (VStr "tweets", VList mixed_tweets) ]
            (VStr "A or B?") [VStr "A"; VStr "B"] mixed_tweets _).
  vm_compute. reflexivity.
Defined.

Lemma classify_loop_unrated cap team_labels tweets : forall st u st' u',
  unrated st ->
  classify_loop cap team_labels tweets (st, u) = Ok (st', u') -> unrated st'.
Proof.
  induction tweets as [|tw tweets IH]; intros st u st' u' Hc; cbn [classify_loop].
  - intros H. injection H as <- _. exact Hc.
  - destruct (classify_step cap team_labels (st, u) tw) as [[st1 u1]|] eqn:Hstep;
      cbn [bind]; [| discriminate].
    apply IH. pose proof (classify_step_spec _ _ _ _ _ _ _ Hstep) as Hs.
    destruct (supporter_of cap team_labels tw) as [[k1 s]|]; [| subst; exact Hc].
    destruct (od_mem st k1); subst st1; [| exact Hc].
    intros k obj ts Hin. destruct (In_update_team _ _ _ _ _ _ Hin) as [H | (ts0 & H & ->)].
    + eapply Hc. exact H.
    + cbn. eapply Hc. exact H.
Qed.

Lemma tally_teams_unrated cap team_labels tweets st u :
  tally_teams cap team_labels tweets = Ok (st, u) -> unrated st.
Proof.
  unfold tally_teams.
  destruct (init_stats team_labels []) as [st0|] eqn:Hinit; cbn [bind]; [| discriminate].
  apply classify_loop_unrated.
  destruct (init_stats_inv team_labels [] st0 (NoDup_nil _) (fun _ _ _ H => match H with end)
              Hinit) as [_ Hall].
  intros k obj ts Hin. rewrite (Hall _ _ _ Hin). split; reflexivity.
Qed.

Lemma counted_tail e (st : odict team_stat) : counted (e :: st) -> counted st.
Proof. intros Hc k obj ts Hin. apply (Hc k obj ts). right. exact Hin. Qed.

Lemma sum_team_counts_nonneg (st : odict team_stat) : counted st -> 0 <= sum_team_counts st.
Proof.
  unfold sum_team_counts. induction st as [|[[k0 o0] ts0] st IH]; intros Hc; cbn; [lia |].
  pose proof (Hc k0 o0 ts0 (or_introl eq_refl)) as H0.
  pose proof (IH (counted_tail _ _ Hc)). lia.
Qed.

Lemma sum_zero_counts (st : odict team_stat) :
  counted st -> sum_team_counts st = 0 ->
  forall k obj ts, In (k, obj, ts) st -> t_count ts = 0.
Proof.
  induction st as [|[[k0 o0] ts0] st IH]; intros Hc Hsum k obj ts; [intros [] |].
  pose proof (Hc k0 o0 ts0 (or_introl eq_refl)) as H0.
  pose proof (sum_team_counts_nonneg st (counted_tail _ _ Hc)) as Hrest.
  unfold sum_team_counts in Hsum, Hrest. cbn in Hsum.
  intros [Heq | Hin].
  - injection Heq as <- <- <-. lia.
  - apply (IH (counted_tail _ _ Hc)) with (k := k) (obj := obj); [| exact Hin].
    unfold sum_team_counts. lia.
Qed.

(** X25. When no tweet is classified, [classify_teams] reports
    [Undecided], counts every tweet that is a dict with a [text] as
    unclassified, and leaves every team as it was created: count 0,
    percentage 0.0, average confidence 0.0 and no supporter; no division
    takes place. *)
Theorem nothing_classified (cap : capability) (data controversy : value)
    (team_labels tweets : list value)
    (c w : value) (stats : odict team_stat) (u : Z)
    (Hinput : check_input data = Ok (controversy, team_labels, tweets))
    (Hrun : classify_teams cap (Ok data) = Ok (TeamsOk c w stats 0 u)) :
  w = VStr "Undecided" /\
  u = Z.of_nat (List.length (filter has_text tweets)) /\
  forall k obj ts, In (k, obj, ts) stats ->
    t_count ts = 0 /\ percentage ts = 0%float /\ t_avg_confidence ts = 0%float /\
    supporters ts = [].
Proof.
  destruct (teams_run_inversion _ _ _ _ _ _ _ _ _ _ Hinput Hrun)
    as (st & Htally & _ & Htotal & Hrep).
  pose proof (tally_teams_account _ _ _ _ _ Htally) as Hacc.
  rewrite <- sum_counts_fold, <- Htotal in Hacc.
  pose proof Hrep as Hrep'. unfold report_teams in Hrep'. cbv beta iota zeta in Hrep'.
  rewrite <- Htotal in Hrep'. cbn [Z.ltb Z.compare truthy] in Hrep'.
  assert (Hw : VStr "Undecided" = w) by congruence.
  assert (Hstats : map_stats clean_up st = stats) by congruence.
  split; [congruence |]. split; [lia |].
  intros k obj ts Hin. subst stats. unfold map_stats in Hin. apply in_map_iff in Hin.
  destruct Hin as ([[k0 o0] ts0] & Heq & Hin0). cbn in Heq. injection Heq as -> -> <-.
  pose proof (tally_teams_counted _ _ _ _ _ Htally) as Hc.
  assert (H0 : t_count ts0 = 0).
  { apply (sum_zero_counts st Hc) with (k := k) (obj := obj); [| exact Hin0].
    rewrite <- sum_counts_fold. congruence. }
  destruct (tally_teams_unrated _ _ _ _ _ Htally _ _ _ Hin0) as [Hp Ha].
  cbn. repeat split; try assumption.
  pose proof (Hc _ _ _ Hin0) as Hlen. rewrite H0 in Hlen.
  destruct (supporters ts0); [reflexivity | cbn in Hlen; lia].
Qed.

Lemma nothing_classified_witness :
  VStr "Undecided" = VStr "Undecided" /\
  2 = Z.of_nat (List.length (filter has_text [tweet "weak"; VInt 3; tweet "unknown"])) /\
  forall k obj ts, In (k, obj, ts) idle_stats ->
    t_count ts = 0 /\ percentage ts = 0%float /\ t_avg_confidence ts = 0%float /\
    supporters ts = [].
Proof.
  refine (nothing_classified (table_cap mixed_table) idle_input (VStr "A or B?")
            [VStr "A"; VStr "B"] [tweet "weak"; VInt 3; tweet "unknown"]
            (VStr "A or B?") (VStr "Undecided") idle_stats 2 _ _); vm_compute; reflexivity.
Defined.

End TeamsFacts.

(** ** market_resolver.py: the calls, the failures and the shapes *)

Module ResolverFacts.
Import Py Ext TeamClassifier MarketResolver Views MoreViews Samples MoreSamples OdictFacts.
Import Dispatch Totality Tally WinnerScan SentimentRun.
Local Open Scope list_scope.

(** The loop of [_resolve_by_sentiment] is the tally of the judgments
    beside the list of the calls. *)
Lemma process_tweets_tally cap outcomes tweets : forall oc total log,
  process_tweets cap outcomes tweets (oc, total, log)
  = (fold_left (tally_step cap outcomes) tweets (oc, total),
     log ++ map EvClassify (reply_texts tweets)).
Proof.
  unfold process_tweets.
  induction tweets as [|tw tweets IH]; intros oc total log; cbn [fold_left].
  - cbn. rewrite app_nil_r. reflexivity.
  - unfold reply_texts. cbn [flat_map]. fold (reply_texts tweets).
    unfold process_tweet at 2, tally_step at 2, tweet_judgment.
    destruct tw as [| | | | | |dd]; try (rewrite IH; reflexivity).
    destruct (dict_get dd "text") as [text|]; [| rewrite IH; reflexivity].
    destruct (count_judgment (oc, total) (classify_tweet cap text outcomes)) as [oc1 total1].
    rewrite IH, map_app, <- app_assoc. reflexivity.
Qed.

Lemma accepted_reply_mem cap outcomes (oc oc' : counts) tw :
  (forall k, od_mem oc' k = od_mem oc k) ->
  accepted_reply cap outcomes oc' tw = accepted_reply cap outcomes oc tw.
Proof.
  intros H. unfold accepted_reply. destruct (tweet_judgment cap outcomes tw) as [j|];
    [| reflexivity].
  destruct (key_of (team j)); [rewrite H |]; reflexivity.
Qed.

Lemma tally_step_accepted cap outcomes oc total tw :
  exists oc',
    tally_step cap outcomes (oc, total) tw
    = (oc', total + (if accepted_reply cap outcomes oc tw then 1 else 0)) /\
    (forall k, od_mem oc' k = od_mem oc k).
Proof.
  unfold tally_step, accepted_reply.
  destruct (tweet_judgment cap outcomes tw) as [j|].
  2: { exists oc. split; [f_equal; lia | reflexivity]. }
  unfold count_judgment.
  destruct (resolver_min_confidence <=? confidence j)%float; cbn [andb].
  2: { exists oc. split; [f_equal; lia | reflexivity]. }
  destruct (key_of (team j)) as [k|].
  2: { exists oc. split; [f_equal; lia | reflexivity]. }
  destruct (od_mem oc k).
  - exists (od_update oc k (bump (confidence j))). split; [reflexivity |].
    intros k'. apply od_mem_update.
  - exists oc. split; [f_equal; lia | reflexivity].
Qed.

Lemma tally_accepted cap outcomes tweets : forall oc total,
  exists oc',
    fold_left (tally_step cap outcomes) tweets (oc, total)
    = (oc', total + Z.of_nat (List.length (filter (accepted_reply cap outcomes oc) tweets))) /\
    (forall k, od_mem oc' k = od_mem oc k).
Proof.
  induction tweets as [|tw tweets IH]; intros oc total; cbn [fold_left filter].
  - exists oc. split; [cbn; f_equal; lia | reflexivity].
  - destruct (tally_step_accepted cap outcomes oc total tw) as (oc1 & -> & Hmem).
    destruct (IH oc1 (total + (if accepted_reply cap outcomes oc tw then 1 else 0)))
      as (oc' & -> & Hmem').
    exists oc'. split.
    + rewrite (filter_ext _ _ (fun t => accepted_reply_mem cap outcomes oc oc1 t Hmem)).
      destruct (accepted_reply cap outcomes oc tw); cbn [List.length]; f_equal; lia.
    + intros k. rewrite Hmem'. apply Hmem.
Qed.

(** A reply that fails leaves the tally as it is. *)
Lemma tally_step_fails cap outcomes st tw :
  fails cap outcomes tw -> tally_step cap outcomes st tw = st.
Proof.
  unfold fails, tally_step, tweet_judgment. destruct tw as [| | | | | |dd]; try reflexivity.
  destruct (dict_get dd "text") as [text|]; [| reflexivity].
  intros [e He]. unfold classify_tweet. rewrite He. destruct st. reflexivity.
Qed.

Lemma init_counts_raise outcomes : forall acc e,
  init_counts outcomes acc = Raise e ->
  e = TypeError "unhashable type" /\ exists o, In o outcomes /\ key_of o = None.
Proof.
  induction outcomes as [|o outcomes IH]; intros acc e; cbn [init_counts]; [discriminate |].
  destruct (key_of o) as [k|] eqn:K.
  - intros H. destruct (IH _ _ H) as [-> (o' & Hin & Hk)]. split; [reflexivity |].
    exists o'. split; [right; exact Hin | exact Hk].
  - intros H. injection H as <-. split; [reflexivity |]. exists o. split; [left |]; auto.
Qed.

Lemma init_counts_ok outcomes : forall acc oc,
  init_counts outcomes acc = Ok oc -> forall o, In o outcomes -> key_of o <> None.
Proof.
  induction outcomes as [|o outcomes IH]; intros acc oc; cbn [init_counts];
    [intros _ o [] |].
  destruct (key_of o) as [k|] eqn:K; [| discriminate].
  intros H o' [<- | Hin]; [congruence | exact (IH _ _ H o' Hin)].
Qed.

Lemma od_set_mem {A : Type} (d : odict A) k obj a k' :
  od_mem (od_set d k obj a) k' = od_mem d k' || key_eqb k k'.
Proof.
  unfold od_mem. induction d as [|[[k0 o0] a0] d IH]; cbn.
  - destruct (key_eqb k k'); reflexivity.
  - destruct (key_eqb k0 k) eqn:E; cbn.
    + destruct (key_eqb k0 k') eqn:E'; [reflexivity |].
      apply key_eqb_eq in E. subst k0. rewrite E'.
      destruct (od_get d k'); reflexivity.
    + destruct (key_eqb k0 k'); [reflexivity | exact IH].
Qed.

(** The keys of [outcome_counts] are those of the outcomes. *)
Lemma init_counts_mem outcomes : forall acc oc k,
  init_counts outcomes acc = Ok oc ->
  od_mem oc k = od_mem acc k || existsb (fun o => match key_of o with
                                                  | Some k' => key_eqb k' k
                                                  | None => false
                                                  end) outcomes.
Proof.
  induction outcomes as [|o outcomes IH]; intros acc oc k; cbn [init_counts existsb].
  - intros H. injection H as <-. rewrite orb_false_r. reflexivity.
  - destruct (key_of o) as [k0|]; [| discriminate].
    intros H. rewrite (IH _ _ k H), od_set_mem, orb_assoc. reflexivity.
Qed.

(** The objects kept as keys are outcomes of the market. *)
Lemma od_set_objects {A : Type} (d : odict A) k obj a k' o' a' :
  In (k', o', a') (od_set d k obj a) ->
  o' = obj \/ exists a0, In (k', o', a0) d.
Proof.
  induction d as [|[[k0 o0] a0] d IH]; cbn.
  - intros [H | []]. injection H as <- <- <-. auto.
  - destruct (key_eqb k0 k); cbn.
    + intros [H | H]; [injection H as <- <- <- |]; right; eauto.
    + intros [H | H]; [right; eauto |].
      destruct (IH H) as [-> | [a1 H1]]; [auto | right; eauto].
Qed.

Lemma init_counts_objects outcomes : forall acc oc k o s,
  init_counts outcomes acc = Ok oc -> In (k, o, s) oc ->
  In o outcomes \/ exists s0, In (k, o, s0) acc.
Proof.
  induction outcomes as [|o1 outcomes IH]; intros acc oc k o s; cbn [init_counts].
  - intros H Hin. injection H as <-. right. eauto.
  - destruct (key_of o1) as [k1|]; [| discriminate].
    intros H Hin. destruct (IH _ _ _ _ _ H Hin) as [Ho | [s0 Hs0]]; [left; right; exact Ho |].
    destruct (od_set_objects _ _ _ _ _ _ _ Hs0) as [-> | [a0 Ha0]]; [left; left; reflexivity |].
    right. eauto.
Qed.

(** The three shapes exclude one another. *)
Lemma shapes_exclusive (r : value) :
  (is_decided r = true -> is_pending r = false /\ is_error r = false) /\
  (is_pending r = true -> is_error r = false).
Proof.
  destruct r as [| | | | | |rd]; cbn; try (split; [discriminate | discriminate]).
  destruct (dict_get rd "status") as [[| | | |st| |]|]; cbn;
    try (split; [discriminate | discriminate]).
  - split; [discriminate |].
    destruct (dict_get rd "winning_outcome") as [[]|]; try discriminate.
    destruct (dict_get rd "winning_index") as [[]|]; try discriminate.
    destruct (dict_get rd "confidence") as [[]|]; try discriminate.
    destruct (dict_get rd "message") as [[]|]; try discriminate.
    destruct (dict_get rd "timestamp") as [[]|]; try discriminate.
    intros H. apply andb_prop in H. destruct H as [H _].
    apply andb_prop in H. destruct H as [H _]. apply String.eqb_eq in H. subst st.
    destruct (dict_get rd "error") as [[]|]; reflexivity.
  - split; [| discriminate]. intros _. split; [| reflexivity].
    destruct (dict_get rd "winning_outcome") as [[]|]; reflexivity.
Qed.

Section Run.
Variables (cap : capability) (d : list (value * value)) (outcomes tweets : list value).
Hypothesis Hvalid : _validate_market_data (VDict d) = Ok tt.
Hypothesis Hmethod : resolution_method_of (VDict d) = Ok "sentiment".
Hypothesis Houtcomes : dict_get d "outcomes" = Some (VList outcomes).
Hypothesis Htweets : py_iter (dict_get_default d "reply_tweets" (VList [])) = Ok tweets.

(** X7. A sentiment resolution loads the models once, before anything
    else, and then hands the text of every reply that is a dict with a
    [text] to the classifier exactly once, in the order of the replies;
    when the models cannot be loaded or an outcome cannot be a dict key, no
    reply is classified. *)
Theorem classifier_calls :
  snd (resolve_market cap (VDict d))
  = EvLoadModels ::
    match load_models cap, init_counts outcomes [] with
    | None, Ok _ => map EvClassify (reply_texts tweets)
    | _, _ => []
    end.
Proof.
  rewrite (resolve_market_sentiment cap d outcomes tweets Hvalid Hmethod Houtcomes Htweets).
  destruct (load_models cap); [reflexivity |].
  destruct (init_counts outcomes []) as [oc0|]; [| reflexivity].
  rewrite process_tweets_tally.
  destruct (fold_left (tally_step cap outcomes) tweets (oc0, 0)). reflexivity.
Qed.

(** X11. With models that load and hashable outcomes, a sentiment
    resolution is decided exactly when at least one reply is accepted: with
    none the answer is the error record [No valid tweets could be analyzed
    for sentiment]; otherwise the record is decided and its
    [total_analyzed] is the number of accepted replies. *)
Theorem decided_iff_some_reply_accepted (oc0 : counts)
    (Hload : load_models cap = None)
    (Hinit : init_counts outcomes [] = Ok oc0) :
  (filter (accepted_reply cap outcomes oc0) tweets = [] ->
   fst (resolve_market cap (VDict d))
   = Ok (error_record cap d "No valid tweets could be analyzed for sentiment")) /\
  (filter (accepted_reply cap outcomes oc0) tweets <> [] ->
   exists r,
     fst (resolve_market cap (VDict d)) = Ok r /\ is_decided r = true /\
     field r "total_analyzed"
     = Some (VInt (Z.of_nat (List.length (filter (accepted_reply cap outcomes oc0) tweets))))).
Proof.
  rewrite (resolve_market_sentiment cap d outcomes tweets Hvalid Hmethod Houtcomes Htweets).
  rewrite Hload, Hinit.
  destruct (process_tweets cap outcomes tweets (oc0, 0, [EvLoadModels]))
    as [[oc total] lg] eqn:Hproc.
  pose proof Hproc as Hproc'. rewrite process_tweets_tally in Hproc'.
  destruct (tally_accepted cap outcomes tweets oc0 0) as (oc' & Hfold & _).
  rewrite Hfold in Hproc'. injection Hproc' as <- Htotal _. cbn [Z.add] in Htotal.
  split.
  - intros Hnone. rewrite Hnone in Htotal. cbn in Htotal. subst total. reflexivity.
  - intros Hsome.
    assert (Hnz : total <> 0).
    { subst total. destruct (filter (accepted_reply cap outcomes oc0) tweets);
        [congruence | cbn; lia]. }
    destruct (finish_sentiment_decided cap d outcomes tweets Hvalid oc0 oc' total lg
                Hinit Hproc Hnz)
      as (sc & wi & mid & q & _ & _ & _ & _ & _ & _ & _ & _ & _ & _ & _ & Hrec).
    rewrite Hrec. eexists. split; [reflexivity |]. split; [reflexivity |].
    cbn. rewrite Htotal. reflexivity.
Qed.

(** X12. When the models cannot be loaded, a sentiment resolution answers
    with the error record that carries the loader's message; when they load
    and an outcome cannot be a dict key, with the error record of the
    [TypeError] this raises. In both cases no reply has been classified. *)
Theorem failures_before_the_loop :
  (forall e, load_models cap = Some e ->
     resolve_market cap (VDict d) = (Ok (error_record cap d (str_exn e)), [EvLoadModels])) /\
  (load_models cap = None ->
   (exists o, In o outcomes /\ key_of o = None) ->
   exists msg,
     resolve_market cap (VDict d) = (Ok (error_record cap d msg), [EvLoadModels])).
Proof.
  rewrite (resolve_market_sentiment cap d outcomes tweets Hvalid Hmethod Houtcomes Htweets).
  split.
  - intros e ->. reflexivity.
  - intros -> (o & Hin & Hk).
    destruct (init_counts outcomes []) as [oc0|e] eqn:Hinit.
    + exfalso. exact (init_counts_ok _ _ _ Hinit o Hin Hk).
    + exists (str_exn e). reflexivity.
Qed.

(** X13. The [sentiment_breakdown] of a decided record has one entry for
    each distinct outcome and no other: its keys are outcomes of the
    market, no two of them are equal as dict keys, and every outcome of the
    market is equal to one of them. *)
Theorem breakdown_covers_outcomes (r : value) (log : list event)
    (Hrun : resolve_market cap (VDict d) = (Ok r, log))
    (Hdecided : is_decided r = true) :
  exists bd ks,
    field r "sentiment_breakdown" = Some (VDict bd) /\
    Forall2 (fun p k => key_of (fst p) = Some k) bd ks /\
    NoDup ks /\
    (forall p, In p bd -> In (fst p) outcomes) /\
    (forall o, In o outcomes -> exists k, key_of o = Some k /\ In k ks).
Proof.
  destruct (decided_inversion cap d outcomes tweets Hvalid Hmethod Houtcomes Htweets
              r log Hrun Hdecided) as (oc0 & oc & total & Hload & Hinit & Hproc & Hfin).
  assert (Hnz : total <> 0).
  { intros ->. unfold finish_sentiment in Hfin. cbn in Hfin. discriminate. }
  destruct (finish_sentiment_decided cap d outcomes tweets Hvalid oc0 oc total log
              Hinit Hproc Hnz)
    as (sc & wi & mid & q & _ & _ & Hbd & Hwf & _ & _ & _ & Hnames & _ & _ & _ & Hrec).
  rewrite Hrec in Hfin. injection Hfin as <-.
  exists (map (fun e => (snd (fst e), breakdown_entry (snd e) total)) oc), (od_keys oc).
  split; [| split; [| split; [exact (wf_nodup oc Hwf) | split]]].
  - cbn. unfold breakdown_value. rewrite Hbd, map_map. reflexivity.
  - pose proof (wf_objects oc Hwf) as Hobj. clear - Hobj. unfold od_keys.
    induction oc as [|[[k o] s] oc IH]; cbn; constructor.
    + cbn. apply (Hobj k o s). left. reflexivity.
    + apply IH. intros k' o' s' H. apply (Hobj k' o' s'). right. exact H.
  - intros p Hp. apply in_map_iff in Hp. destruct Hp as ([[k o] s] & <- & Hin). cbn.
    assert (Hin0 : In (k, o) (map fst oc0)).
    { rewrite <- Hnames. apply (in_map fst oc _ Hin). }
    apply in_map_iff in Hin0. destruct Hin0 as ([[k' o'] s'] & Heq & Hin0).
    cbn in Heq. injection Heq as -> ->.
    destruct (init_counts_objects _ _ _ _ _ _ Hinit Hin0) as [H | [s0 []]]. exact H.
  - intros o Hin. destruct (key_of o) as [k|] eqn:K.
    2: { exfalso. exact (init_counts_ok _ _ _ Hinit o Hin K). }
    exists k. split; [reflexivity |].
    assert (Hk : od_mem oc0 k = true).
    { rewrite (init_counts_mem _ _ _ k Hinit). cbn. apply existsb_exists.
      exists o. rewrite K. split; [exact Hin | apply key_eqb_refl]. }
    apply od_mem_get in Hk. apply (od_get_keys oc0 k) in Hk.
    unfold od_keys in *. rewrite <- (map_map fst fst), Hnames, (map_map fst fst). exact Hk.
Qed.

End Run.

Lemma classifier_calls_witness :
  snd (resolve_market (table_cap tie_table) (VDict tie_market))
  = EvLoadModels ::
    match load_models (table_cap tie_table), init_counts [VStr "A"; VStr "B"] [] with
    | None, Ok _ => map EvClassify (reply_texts [tweet "a7"; tweet "b9"])
    | _, _ => []
    end.
Proof.
  refine (classifier_calls (table_cap tie_table) tie_market [VStr "A"; VStr "B"]
            [tweet "a7"; tweet "b9"] _ _ _ _); vm_compute; reflexivity.
Defined.

Lemma decided_iff_some_reply_accepted_witness :
  (filter (accepted_reply (table_cap tie_table) [VStr "A"; VStr "B"] a_b_counts)
     [tweet "a7"; tweet "b9"] = [] ->
   fst (resolve_market (table_cap tie_table) (VDict tie_market))
   = Ok (error_record (table_cap tie_table) tie_market
           "No valid tweets could be analyzed for sentiment")) /\
  (filter (accepted_reply (table_cap tie_table) [VStr "A"; VStr "B"] a_b_counts)
     [tweet "a7"; tweet "b9"] <> [] ->
   exists r,
     fst (resolve_market (table_cap tie_table) (VDict tie_market)) = Ok r /\
     is_decided r = true /\
     field r "total_analyzed"
     = Some (VInt (Z.of_nat (List.length
                               (filter (accepted_reply (table_cap tie_table)
                                          [VStr "A"; VStr "B"] a_b_counts)
                                  [tweet "a7"; tweet "b9"]))))).
Proof.
  refine (decided_iff_some_reply_accepted (table_cap tie_table) tie_market
            [VStr "A"; VStr "B"] [tweet "a7"; tweet "b9"] _ _ _ _ a_b_counts _ _);
    vm_compute; reflexivity.
Defined.

Lemma failures_before_the_loop_witness :
  (forall e, load_models (table_cap tie_table) = Some e ->
     resolve_market (table_cap tie_table) (VDict tie_market)
     = (Ok (error_record (table_cap tie_table) tie_market (str_exn e)), [EvLoadModels])) /\
  (load_models (table_cap tie_table) = None ->
   (exists o, In o [VStr "A"; VStr "B"] /\ key_of o = None) ->
   exists msg,
     resolve_market (table_cap tie_table) (VDict tie_market)
     = (Ok (error_record (table_cap tie_table) tie_market msg), [EvLoadModels])).
Proof.
  refine (failures_before_the_loop (table_cap tie_table) tie_market [VStr "A"; VStr "B"]
            [tweet "a7"; tweet "b9"] _ _ _ _); vm_compute; reflexivity.
Defined.

Lemma breakdown_covers_outcomes_witness :
  exists bd ks,
    field (result_of (resolve_market (table_cap tie_table) (VDict tie_market)))
      "sentiment_breakdown" = Some (VDict bd) /\
    Forall2 (fun p k => key_of (fst p) = Some k) bd ks /\
    NoDup ks /\
    (forall p, In p bd -> In (fst p) [VStr "A"; VStr "B"]) /\
    (forall o, In o [VStr "A"; VStr "B"] -> exists k, key_of o = Some k /\ In k ks).
Proof.
  refine (breakdown_covers_outcomes (table_cap tie_table) tie_market [VStr "A"; VStr "B"]
            [tweet "a7"; tweet "b9"] _ _ _ _
            (result_of (resolve_market (table_cap tie_table) (VDict tie_market)))
            (snd (resolve_market (table_cap tie_table) (VDict tie_market)))
            _ _); vm_compute; reflexivity.
Defined.

(** The fields a sentiment resolution reads do not depend on what
    [reply_tweets] is bound to. *)
Lemma finish_sentiment_with_replies cap x d outcomes oc total :
  finish_sentiment cap (VDict (with_replies x d)) outcomes oc total
  = finish_sentiment cap (VDict d) outcomes oc total.
Proof. reflexivity. Qed.

(** X8. One reply that cannot be classified does not change the answer: a
    reply that is no dict or has no [text], or for whose text the
    classifier's body raises, may be removed from [reply_tweets] and the
    resolution returns the same record. *)
Theorem failing_reply_is_skipped (cap : capability) (d : list (value * value))
    (outcomes l1 l2 : list value) (bad : value)
    (Hvalid : _validate_market_data (VDict d) = Ok tt)
    (Hmethod : resolution_method_of (VDict d) = Ok "sentiment")
    (Houtcomes : dict_get d "outcomes" = Some (VList outcomes))
    (Hbad : fails cap outcomes bad) :
  fst (resolve_market cap (VDict (with_replies (VList (l1 ++ bad :: l2)) d)))
  = fst (resolve_market cap (VDict (with_replies (VList (l1 ++ l2)) d))).
Proof.
  rewrite (resolve_market_sentiment cap (with_replies (VList (l1 ++ bad :: l2)) d) outcomes
             (l1 ++ bad :: l2) Hvalid Hmethod Houtcomes eq_refl).
  rewrite (resolve_market_sentiment cap (with_replies (VList (l1 ++ l2)) d) outcomes
             (l1 ++ l2) Hvalid Hmethod Houtcomes eq_refl).
  destruct (load_models cap); [reflexivity |].
  destruct (init_counts outcomes []) as [oc0|]; [| reflexivity].
  rewrite !process_tweets_tally, !fold_left_app. cbn [fold_left].
  rewrite (tally_step_fails cap outcomes _ bad Hbad).
  destruct (fold_left (tally_step cap outcomes) l2
              (fold_left (tally_step cap outcomes) l1 (oc0, 0))) as [oc total].
  reflexivity.
Qed.

Lemma failing_reply_is_skipped_witness :
  fst (resolve_market (table_cap tie_table)
         (VDict (with_replies (VList ([tweet "a7"] ++ tweet "unknown" :: [tweet "b9"]))
                   order_market)))
  = fst (resolve_market (table_cap tie_table)
           (VDict (with_replies (VList ([tweet "a7"] ++ [tweet "b9"])) order_market))).
Proof.
  refine (failing_reply_is_skipped (table_cap tie_table) order_market [VStr "A"; VStr "B"]
            [tweet "a7"] [tweet "b9"] (tweet "unknown") _ _ _ _).
  - vm_compute. reflexivity.
  - vm_compute. reflexivity.
  - vm_compute. reflexivity.
  - exists (ExternalError "no judgment"). vm_compute. reflexivity.
Defined.

Lemma tally_no_text cap outcomes tweets : forall st,
  reply_texts tweets = [] -> fold_left (tally_step cap outcomes) tweets st = st.
Proof.
  induction tweets as [|tw tweets IH]; intros st; [reflexivity |].
  unfold reply_texts. cbn [flat_map fold_left]. fold (reply_texts tweets).
  intros H. apply app_eq_nil in H. destruct H as [Htw Hrest].
  rewrite <- (IH st Hrest) at 2. f_equal.
  unfold tally_step, tweet_judgment. destruct tw as [| | | | | |dd]; try reflexivity.
  destruct (dict_get dd "text"); [discriminate | reflexivity].
Qed.

(** X23. A sentiment resolution whose [reply_tweets] cannot be iterated,
    or holds no dict with a [text], ends in an error record, and the
    classifier has not been called: a number or [null] there is an error of
    the loop, a string is iterated character by character and leaves no
    valid tweet. *)
Theorem no_usable_reply (cap : capability) (d : list (value * value))
    (Hvalid : _validate_market_data (VDict d) = Ok tt)
    (Hmethod : resolution_method_of (VDict d) = Ok "sentiment")
    (Hnone : (exists e, py_iter (dict_get_default d "reply_tweets" (VList [])) = Raise e) \/
             (exists tweets,
                py_iter (dict_get_default d "reply_tweets" (VList [])) = Ok tweets /\
                reply_texts tweets = [])) :
  exists msg, resolve_market cap (VDict d) = (Ok (error_record cap d msg), [EvLoadModels]).
Proof.
  destruct (validate_ok d Hvalid) as (_ & _ & _ & outcomes & Houtcomes & _).
  destruct Hnone as [[e He] | (tweets & Htweets & Hno)].
  - assert (Hbody : exists e', resolve_market_body cap (VDict d) = (Raise e', [EvLoadModels])).
    { unfold resolve_market_body. rewrite Hvalid, Hmethod. cbn [String.eqb Ascii.eqb Bool.eqb].
      unfold _resolve_by_sentiment, initialize_models.
      destruct (load_models cap); [eauto |].
      cbn [py_getitem]. rewrite Houtcomes.
      destruct (init_counts outcomes []); [| eauto].
      cbn [py_get bind]. rewrite He. eauto. }
    destruct Hbody as [e' Hbody]. exists (str_exn e').
    apply resolve_market_raise. exact Hbody.
  - rewrite (resolve_market_sentiment cap d outcomes tweets Hvalid Hmethod Houtcomes Htweets).
    destruct (load_models cap); [eauto |].
    destruct (init_counts outcomes []) as [oc0|]; [| eauto].
    rewrite process_tweets_tally, (tally_no_text cap outcomes tweets _ Hno), Hno.
    eexists. reflexivity.
Qed.

Lemma no_usable_reply_witness :
  exists msg,
    resolve_market (table_cap tie_table) (VDict (with_replies (VStr "soon") order_market))
    = (Ok (error_record (table_cap tie_table) (with_replies (VStr "soon") order_market) msg),
       [EvLoadModels]).
Proof.
  refine (no_usable_reply (table_cap tie_table) (with_replies (VStr "soon") order_market)
            _ _ _).
  - vm_compute. reflexivity.
  - vm_compute. reflexivity.
  - right. exists (chars "soon"). split; vm_compute; reflexivity.
Defined.

(** X14. The module-level [resolve_market] answers every input, decoded or
    not, with a record of exactly one of the three shapes: decided, pending
    or error. Undecodable input gives the bare error record with the
    message of the exception. *)
Theorem resolve_market_main_shapes (cap : capability) :
  (forall parsed,
     (is_decided (resolve_market_main cap parsed) = true /\
      is_pending (resolve_market_main cap parsed) = false /\
      is_error (resolve_market_main cap parsed) = false) \/
     (is_decided (resolve_market_main cap parsed) = false /\
      is_pending (resolve_market_main cap parsed) = true /\
      is_error (resolve_market_main cap parsed) = false) \/
     (is_decided (resolve_market_main cap parsed) = false /\
      is_pending (resolve_market_main cap parsed) = false /\
      is_error (resolve_market_main cap parsed) = true)) /\
  (forall e, resolve_market_main cap (Raise e)
             = VDict [ (VStr "error", VStr (str_exn e));
                       (VStr "status", VStr "error");
                       (VStr "timestamp", VStr (now cap)) ]).
Proof.
  split; [| reflexivity].
  assert (Hbare : forall e parsed,
            resolve_market_main cap parsed
            = VDict [ (VStr "error", VStr (str_exn e));
                      (VStr "status", VStr "error");
                      (VStr "timestamp", VStr (now cap)) ] ->
            is_decided (resolve_market_main cap parsed) = false /\
            is_pending (resolve_market_main cap parsed) = false /\
            is_error (resolve_market_main cap parsed) = true).
  { intros e parsed ->. repeat split. }
  intros [v|e]; [| right; right; apply (Hbare e); reflexivity].
  unfold resolve_market_main in *. cbn [bind] in *.
  destruct (resolve_market_body cap v) as [[r|e] log] eqn:E.
  - rewrite (resolve_market_ok _ _ _ _ E). cbn [fst].
    destruct (shapes_exclusive r) as [Hd Hp].
    destruct (resolve_market_body_shape _ _ _ _ E) as [H | H].
    + left. destruct (Hd H). auto.
    + right. left. rewrite (Hp H). destruct (is_decided r) eqn:D; [| auto].
      destruct (Hd eq_refl). congruence.
  - right. right. unfold resolve_market. rewrite E.
    destruct v; repeat split.
Qed.

(** X15. Validation accepts exactly the dicts that hold the four required
    fields and whose [outcomes] is a list of at least two items; nothing
    else about the market is checked. *)
Theorem validation_accepts_exactly (d : list (value * value)) :
  _validate_market_data (VDict d) = Ok tt <->
  (dict_has d "market_id" = true /\ dict_has d "question" = true /\
   dict_has d "resolution_method" = true /\
   exists l, dict_get d "outcomes" = Some (VList l) /\ (2 <= List.length l)%nat).
Proof.
  split.
  - apply validate_ok.
  - intros (H1 & H2 & H3 & l & H4 & H5). exact (validate_complete d l H1 H2 H3 H4 H5).
Qed.

End ResolverFacts.

(** ** sentiment_hf.py: what the aggregate can be *)


Module SentimentHFFacts.
Import Py SentimentHF SentimentViews Samples MoreSamples StringFacts.
Local Open Scope list_scope.

Lemma before_last_space_length s : forall p,
  before_last_space s = Some p -> (String.length p < String.length s)%nat.
Proof.
  induction s as [|c t IH]; cbn; [discriminate |]. intros p.
  destruct (before_last_space t) as [q|].
  - intros H. injection H as <-. specialize (IH q eq_refl). cbn. lia.
  - destruct (Ascii.eqb c " "); [| discriminate]. intros H. injection H as <-. cbn. lia.
Qed.

Lemma rsplit_head_length s : (String.length (rsplit_head s) <= String.length s)%nat.
Proof.
  unfold rsplit_head. destruct (before_last_space s) as [p|] eqn:E; [| lia].
  pose proof (before_last_space_length s p E). lia.
Qed.

Lemma length_append_string (a b : string) :
  String.length (a ++ b)%string = (String.length a + String.length b)%nat.
Proof. induction a as [|c a IH]; cbn; [reflexivity | rewrite IH; reflexivity]. Qed.

(** X18. [SentimentAnalyzer.preprocess_text] returns at most 515
    characters, with no white space at either end; a text of at most 512
    characters is only stripped. *)
Theorem analyzer_text_bounded (text : string) :
  (String.length (SentimentHF.preprocess_text text) <= 515)%nat /\
  lstrip (SentimentHF.preprocess_text text) = SentimentHF.preprocess_text text /\
  rstrip (SentimentHF.preprocess_text text) = SentimentHF.preprocess_text text /\
  ((String.length text <= 512)%nat -> SentimentHF.preprocess_text text = strip text).
Proof.
  unfold SentimentHF.preprocess_text.
  destruct (Nat.ltb_spec 512 (String.length text)) as [Hlong | Hshort].
  - split; [| split; [| split]].
    + pose proof (strip_length (rsplit_head (take 512 text) ++ "...")%string) as H1.
      rewrite length_append_string in H1.
      pose proof (rsplit_head_length (take 512 text)) as H2.
      pose proof (take_length 512 text) as H3. cbn [String.length] in H1. lia.
    + unfold strip. apply lstrip_rstrip, lstrip_idem.
    + unfold strip. apply rstrip_idem.
    + lia.
  - split; [| split; [| split]].
    + pose proof (strip_length text). lia.
    + unfold strip. apply lstrip_rstrip, lstrip_idem.
    + unfold strip. apply rstrip_idem.
    + reflexivity.
Qed.

(** The loop of [predict_sentiment] adds one detailed result for each
    prediction that is not empty. *)
Lemma predict_loop_length processed preds : forall ds tp tc,
  List.length (fst (fst (fold_left (predict_step processed) preds (ds, tp, tc))))
  = (List.length ds + List.length (filter has_prediction preds))%nat.
Proof.
  induction preds as [|pred preds IH]; intros ds tp tc; cbn [fold_left filter].
  - cbn. lia.
  - destruct pred as [|[label c] rest]; cbn [predict_step has_prediction].
    + apply IH.
    + rewrite IH, length_app. cbn. lia.
Qed.

Lemma outcome_of_cases x :
  outcome_of x = "POSITIVE" \/ outcome_of x = "NEGATIVE" \/ outcome_of x = "NEUTRAL".
Proof.
  unfold outcome_of. destruct (positive_bound <? x)%float; [auto |].
  destruct (x <? negative_bound)%float; auto.
Qed.

(** X19. Once the model is loaded, [predict_sentiment] returns the
    fallback record [neutral], with confidence and polarity 0.0, when the
    pipeline raises or gives no prediction that is not empty; otherwise it
    returns the aggregate record, whose [sample_size] is the number of
    predictions that are not empty and whose [outcome] is one of
    [POSITIVE], [NEGATIVE], [NEUTRAL]. *)
Theorem predict_sentiment_results (cap : analyzer_capability) (text : string) :
  (forall e, sentiment_pipeline cap (SentimentHF.preprocess_text text) = Raise e ->
     predict_sentiment cap text = neutral_fallback) /\
  (forall preds, sentiment_pipeline cap (SentimentHF.preprocess_text text) = Ok preds ->
     (filter has_prediction preds = [] -> predict_sentiment cap text = neutral_fallback) /\
     (filter has_prediction preds <> [] ->
      exists outcome avg_polarity avg_confidence detailed,
        predict_sentiment cap text
        = VDict [ (VStr "outcome", VStr outcome);
                  (VStr "avg_polarity", VFloat avg_polarity);
                  (VStr "avg_confidence", VFloat avg_confidence);
                  (VStr "sample_size",
                   VInt (Z.of_nat (List.length (filter has_prediction preds))));
                  (VStr "detailed_sentiments", VList detailed) ] /\
        List.length detailed = List.length (filter has_prediction preds) /\
        (outcome = "POSITIVE" \/ outcome = "NEGATIVE" \/ outcome = "NEUTRAL"))).
Proof.
  unfold predict_sentiment, predict_sentiment_body. split.
  - intros e ->. reflexivity.
  - intros preds ->. cbn [bind].
    pose proof (predict_loop_length (SentimentHF.preprocess_text text) preds [] 0%float 0%float)
      as Hlen.
    destruct (fold_left (predict_step (SentimentHF.preprocess_text text)) preds
                ([], 0%float, 0%float)) as [[ds tp] tc].
    cbn [fst List.length Nat.add] in Hlen. rewrite Hlen. split.
    + intros ->. reflexivity.
    + intros Hne.
      destruct (Z.eqb_spec (Z.of_nat (List.length (filter has_prediction preds))) 0) as [E | _].
      { destruct (filter has_prediction preds); [congruence | cbn in E; lia]. }
      eexists _, _, _, ds. split; [reflexivity |]. split; [exact Hlen |].
      apply outcome_of_cases.
Qed.

(** The result of [predict_sentiment] is the fallback record or an
    aggregate, which has no [polarity]. *)
Lemma predict_sentiment_summands cap text :
  (predict_sentiment cap text = neutral_fallback /\
   forall r, predict_sentiment_body cap text <> Ok r) \/
  ((exists r, predict_sentiment_body cap text = Ok r) /\
   summand (predict_sentiment cap text) "polarity" = Raise (KeyError "'polarity'")).
Proof.
  unfold predict_sentiment.
  destruct (predict_sentiment_body cap text) as [r|e] eqn:E.
  - right. split; [eauto |]. unfold predict_sentiment_body in E.
    destruct (sentiment_pipeline cap (SentimentHF.preprocess_text text)); cbn [bind] in E;
      [| discriminate].
    destruct (fold_left _ _ _) as [[ds tp] tc].
    destruct (Z.of_nat (List.length ds) =? 0); [discriminate |].
    injection E as <-. reflexivity.
  - left. split; [reflexivity | discriminate].
Qed.

Lemma all_fallback_start : all_fallback ([], 0%float, 0%float).
Proof. repeat split. constructor. Qed.

Lemma analyze_step_fallback cap st tw st' :
  all_fallback st -> analyze_step cap st tw = Ok st' ->
  all_fallback st' /\ ~ predicted cap tw.
Proof.
  destruct st as [[results tp] tc]. intros (Hall & Htp & Htc). cbn in Hall, Htp, Htc.
  subst tp tc. unfold analyze_step, predicted.
  destruct tw as [| | | | | |d]; try (intros H; injection H as <-; split; [repeat split | ]; auto).
  destruct (dict_get d "text") as [[| | | |text| |]|];
    try discriminate; try (intros H; injection H as <-; split; [repeat split |]; auto).
  destruct (String.eqb_spec (strip text) "") as [E | E].
  { intros H. injection H as <-. split; [repeat split; auto |]. intros [Hne _]. auto. }
  destruct (predict_sentiment_summands cap text) as [[Hfb Hno] | [_ Hraise]].
  - rewrite Hfb. cbn [summand neutral_fallback dict_get String.eqb Ascii.eqb Bool.eqb bind].
    cbn. intros H. injection H as <-. split.
    + repeat split; cbn [fst snd]; try reflexivity.
      apply Forall_app. split; [exact Hall |]. constructor; [| constructor].
      exists (dict_get_default d "id" (VStr "unknown")), text. reflexivity.
    + intros [_ [r Hr]]. exact (Hno r Hr).
  - rewrite Hraise. cbn [bind]. discriminate.
Qed.

Lemma analyze_loop_fallback cap tweets : forall st st',
  all_fallback st -> analyze_loop cap tweets st = Ok st' ->
  all_fallback st' /\ forall tw, In tw tweets -> ~ predicted cap tw.
Proof.
  induction tweets as [|tw tweets IH]; intros st st' Hst; cbn [analyze_loop].
  - intros H. injection H as <-. split; [exact Hst | intros tw []].
  - destruct (analyze_step cap st tw) as [st1|] eqn:Hstep; cbn [bind]; [| discriminate].
    intros Hloop. destruct (analyze_step_fallback _ _ _ _ Hst Hstep) as [Hst1 Hnp].
    destruct (IH _ _ Hst1 Hloop) as [Hst' Hrest]. split; [exact Hst' |].
    intros tw' [<- | Hin]; [exact Hnp | exact (Hrest tw' Hin)].
Qed.

(** Zero divided by anything is a zero or no number: it lies in the neutral
    band. *)
Lemma outcome_of_zero_quotient (x : float) : outcome_of (0 / x)%float = "NEUTRAL".
Proof.
  unfold outcome_of. rewrite !ltb_spec, !div_spec.
  destruct (Prim2SF x) as [[]|[]| |[] m e]; reflexivity.
Qed.

(** X16. [analyze_sentiment_hf] never reports [POSITIVE] or [NEGATIVE]:
    its result is the error record, or a record with the outcome
    [NEUTRAL] all of whose detailed results come from the fallback record
    of [predict_sentiment]. *)
Theorem analyze_sentiment_hf_never_takes_sides (cap : analyzer_capability)
    (parsed : res value) :
  exists d,
    analyze_sentiment_hf cap parsed = VDict d /\
    (dict_get d "outcome" = Some (VStr "ERROR") \/
     (dict_get d "outcome" = Some (VStr "NEUTRAL") /\
      exists results,
        dict_get d "detailed_sentiments" = Some (VList results) /\
        Forall fallback_entry results)).
Proof.
  unfold analyze_sentiment_hf.
  destruct (analyze_sentiment_hf_body cap parsed) as [r|e] eqn:E.
  2: { eexists. split; [reflexivity |]. left. reflexivity. }
  unfold analyze_sentiment_hf_body in E.
  destruct parsed as [decoded|]; cbn [bind] in E; [| discriminate].
  destruct decoded as [| | | | |tweets|]; try discriminate.
  destruct (load_analyzer cap); cbn [bind] in E; [discriminate |].
  destruct (analyze_loop cap tweets ([], 0%float, 0%float)) as [[[results tp] tc]|] eqn:Hloop;
    cbn [bind] in E; [| discriminate].
  destruct (analyze_loop_fallback cap tweets _ _ all_fallback_start Hloop)
    as [(Hall & Htp & Htc) _].
  cbn in Hall, Htp, Htc. subst tp tc.
  destruct (Z.of_nat (List.length results) =? 0); [discriminate |].
  injection E as <-. eexists. split; [reflexivity |]. right.
  split; [cbn; rewrite outcome_of_zero_quotient; reflexivity |].
  exists results. split; [reflexivity | exact Hall].
Qed.

(** X17. One prediction that succeeds is fatal to [analyze_sentiment_hf]:
    when the input holds a tweet with a text that is not blank and for
    which the [try] block of [predict_sentiment] returns its aggregate,
    the whole run answers with the error record. *)
Theorem successful_prediction_is_an_error (cap : analyzer_capability)
    (tweets : list value) (tw : value)
    (Hin : In tw tweets) (Hpredicted : predicted cap tw) :
  exists msg,
    analyze_sentiment_hf cap (Ok (VList tweets))
    = VDict [ (VStr "error", VStr msg);
              (VStr "outcome", VStr "ERROR");
              (VStr "avg_polarity", VFloat 0%float);
              (VStr "avg_confidence", VFloat 0%float);
              (VStr "sample_size", VInt 0);
              (VStr "detailed_sentiments", VList []) ].
Proof.
  unfold analyze_sentiment_hf.
  destruct (analyze_sentiment_hf_body cap (Ok (VList tweets))) as [r|e] eqn:E;
    [| eexists; reflexivity].
  exfalso. unfold analyze_sentiment_hf_body in E. cbn [bind] in E.
  destruct (load_analyzer cap); cbn [bind] in E; [discriminate |].
  destruct (analyze_loop cap tweets ([], 0%float, 0%float)) as [st|] eqn:Hloop;
    cbn [bind] in E; [| discriminate].
  destruct (analyze_loop_fallback cap tweets _ _ all_fallback_start Hloop) as [_ Hnone].
  exact (Hnone tw Hin Hpredicted).
Qed.

Lemma successful_prediction_is_an_error_witness :
  exists msg,
    analyze_sentiment_hf bullish_analyzer (Ok (VList [VInt 7; moon_tweet]))
    = VDict [ (VStr "error", VStr msg);
              (VStr "outcome", VStr "ERROR");
              (VStr "avg_polarity", VFloat 0%float);
              (VStr "avg_confidence", VFloat 0%float);
              (VStr "sample_size", VInt 0);
              (VStr "detailed_sentiments", VList []) ].
Proof.
  refine (successful_prediction_is_an_error bullish_analyzer [VInt 7; moon_tweet]
            moon_tweet _ _).
  - right. left. reflexivity.
  - vm_compute. split; [discriminate | eexists; reflexivity].
Defined.

End SentimentHFFacts.


(** ** analyzer.py: the aggregate of TextBlob sentiments *)

Module AnalyzerFacts.
Import Py Analyzer AnalyzerViews Views Samples MoreSamples.
Local Open Scope list_scope.

Lemma process_step_spec cap sentiments tp ts tw st' :
  process_step cap (sentiments, tp, ts) tw = Ok st' ->
  exists entry, entry_for cap tw entry /\ fst (fst st') = sentiments ++ [entry].
Proof.
  unfold process_step, entry_for. destruct tw as [| | | | | |d]; try discriminate.
  cbn [py_get bind].
  destruct (analyze_sentiment cap (dict_get_default d "text" (VStr ""))) as [[p s]|] eqn:E;
    cbn [bind]; [| discriminate].
  intros H. injection H as <-. eexists. split; [| reflexivity].
  exists d, p, s. auto.
Qed.

Lemma process_step_total cap st tw :
  analysable cap tw -> exists st', process_step cap st tw = Ok st'.
Proof.
  destruct st as [[sentiments tp] ts]. unfold analysable, process_step.
  destruct tw as [| | | | | |d]; try contradiction. intros [[p s] E].
  cbn [py_get bind]. rewrite E. cbn [bind]. eauto.
Qed.

Lemma process_loop_spec cap tweets : forall sentiments tp ts st',
  process_loop cap tweets (sentiments, tp, ts) = Ok st' ->
  exists entries, Forall2 (entry_for cap) tweets entries /\
                  fst (fst st') = sentiments ++ entries.
Proof.
  induction tweets as [|tw tweets IH]; intros sentiments tp ts st'; cbn [process_loop].
  - intros H. injection H as <-. exists []. split; [constructor | cbn; rewrite app_nil_r; auto].
  - destruct (process_step cap (sentiments, tp, ts) tw) as [[[s1 tp1] ts1]|] eqn:Hstep;
      cbn [bind]; [| discriminate].
    intros Hloop. destruct (process_step_spec _ _ _ _ _ _ Hstep) as (entry & He & Hs1).
    destruct (IH _ _ _ _ Hloop) as (entries & Hes & Hst').
    exists (entry :: entries). split; [constructor; assumption |].
    cbn [fst] in Hs1. rewrite Hst', Hs1, <- app_assoc. reflexivity.
Qed.

Lemma process_loop_total cap tweets : forall st,
  Forall (analysable cap) tweets -> exists st', process_loop cap tweets st = Ok st'.
Proof.
  induction tweets as [|tw tweets IH]; intros st H; cbn [process_loop]; [eauto |].
  inversion H as [|? ? Htw Hrest]; subst.
  destruct (process_step_total cap st tw Htw) as [st1 ->]. cbn [bind]. apply IH. exact Hrest.
Qed.

Lemma entry_for_analysable cap tw entry : entry_for cap tw entry -> analysable cap tw.
Proof. intros (d & p & s & -> & E & _). cbn. eauto. Qed.

Lemma analyzer_outcome_cases x :
  Analyzer.outcome_of x = "POSITIVE" \/ Analyzer.outcome_of x = "NEGATIVE" \/
  Analyzer.outcome_of x = "NEUTRAL".
Proof.
  unfold Analyzer.outcome_of. destruct (_ <? x)%float; [auto |].
  destruct (x <? _)%float; auto.
Qed.

(** X20. A result of [process_tweets] accounts for every tweet:
    [sample_size] is the number of tweets, [sentiments] holds one entry
    for each tweet, in order, with the [id] of the tweet and the polarity
    and subjectivity found for its text, and the [outcome] is one of
    [POSITIVE], [NEGATIVE], [NEUTRAL]. *)
Theorem process_tweets_accounts (cap : sentiment_capability) (tweets : list value)
    (r : value) (Hrun : process_tweets cap tweets = Ok r) :
  field r "sample_size" = Some (VInt (Z.of_nat (List.length tweets))) /\
  (exists sentiments,
     field r "sentiments" = Some (VList sentiments) /\
     Forall2 (entry_for cap) tweets sentiments) /\
  (field r "outcome" = Some (VStr "POSITIVE") \/
   field r "outcome" = Some (VStr "NEGATIVE") \/
   field r "outcome" = Some (VStr "NEUTRAL")).
Proof.
  unfold process_tweets in Hrun. destruct tweets as [|tw tweets].
  { injection Hrun as <-. split; [reflexivity |]. split; [| auto].
    exists []. split; [reflexivity | constructor]. }
  destruct (process_loop cap (tw :: tweets) ([], 0%float, 0%float)) as [[[s tp] ts]|] eqn:Hloop;
    cbn [bind] in Hrun; [| discriminate].
  injection Hrun as <-.
  destruct (process_loop_spec _ _ _ _ _ _ Hloop) as (entries & Hes & Hs).
  cbn in Hs. subst s. split; [reflexivity |]. split; [exists entries; auto |].
  cbn [field dict_get String.eqb Ascii.eqb Bool.eqb].
  match goal with
  | |- context [Analyzer.outcome_of ?x] =>
      destruct (analyzer_outcome_cases x) as [-> | [-> | ->]]; auto
  end.
Qed.

Lemma process_tweets_accounts_witness :
  field two_tweets_result "sample_size" = Some (VInt (Z.of_nat (List.length two_tweets))) /\
  (exists sentiments,
     field two_tweets_result "sentiments" = Some (VList sentiments) /\
     Forall2 (entry_for mild_blob) two_tweets sentiments) /\
  (field two_tweets_result "outcome" = Some (VStr "POSITIVE") \/
   field two_tweets_result "outcome" = Some (VStr "NEGATIVE") \/
   field two_tweets_result "outcome" = Some (VStr "NEUTRAL")).
Proof.
  refine (process_tweets_accounts mild_blob two_tweets two_tweets_result _).
  vm_compute. reflexivity.
Defined.

(** X21. [process_tweets] returns a result exactly when every tweet is a
    dict whose text [analyze_sentiment] accepts: one tweet that is no dict,
    or one failure of the analysis, makes the whole call raise. *)
Theorem process_tweets_succeeds_iff (cap : sentiment_capability) (tweets : list value) :
  (exists r, process_tweets cap tweets = Ok r) <-> Forall (analysable cap) tweets.
Proof.
  split.
  - intros [r Hrun]. unfold process_tweets in Hrun. destruct tweets as [|tw tweets];
      [constructor |].
    destruct (process_loop cap (tw :: tweets) ([], 0%float, 0%float)) as [[[s tp] ts]|] eqn:Hloop;
      cbn [bind] in Hrun; [| discriminate].
    destruct (process_loop_spec _ _ _ _ _ _ Hloop) as (entries & Hes & _).
    clear - Hes. induction Hes as [|x y l l' Hxy _ IH]; constructor; [| exact IH].
    exact (entry_for_analysable _ _ _ Hxy).
  - intros H. unfold process_tweets. destruct tweets as [|tw tweets]; [eauto |].
    destruct (process_loop_total cap (tw :: tweets) ([], 0%float, 0%float) H)
      as [[[s tp] ts] ->].
    cbn [bind]. eauto.
Qed.

(** X22. [main] analyses a decoded value that is not a list as the one
    tweet of a list; a value that is neither a list nor a dict thus fails
    with an error, the empty list is answered with the record for no
    tweets, and blank or undecodable input fails with its own message. *)
Theorem main_wraps_single_values (cap : sentiment_capability) :
  (forall v, (forall l, v <> VList l) -> main cap (Decoded v) = main cap (Decoded (VList [v]))) /\
  (forall v, (forall l, v <> VList l) -> (forall d, v <> VDict d) ->
     exists msg, main cap (Decoded v) = Failed ("Error processing tweets: " ++ msg)) /\
  main cap (Decoded (VList [])) = Printed empty_result /\
  main cap Blank = Failed "No input data provided" /\
  (forall msg, main cap (Invalid msg) = Failed ("Invalid JSON input: " ++ msg)).
Proof.
  split; [| split; [| repeat split]].
  - intros v Hv. destruct v; try reflexivity. exfalso. apply (Hv l). reflexivity.
  - intros v Hl Hd. destruct v; try (eexists; reflexivity).
    + exfalso. apply (Hl l). reflexivity.
    + exfalso. apply (Hd d). reflexivity.
Qed.

End AnalyzerFacts.

(** ** Runs of the laws of the decided record *)

Module MoreRuns.
Import Py Ext TeamClassifier MarketResolver Views MoreViews Samples MoreSamples OdictFacts.
Import Laws.
Local Open Scope list_scope.

Lemma decided_confidence_and_index_witness :
  exists oc0 oc total w k i,
    init_counts [VStr "A"; VStr "B"] [] = Ok oc0 /\
    process_tweets (table_cap tie_table) [VStr "A"; VStr "B"] [tweet "a7"; tweet "b9"]
      (oc0, 0, [EvLoadModels])
    = (oc, total, snd (resolve_market (table_cap tie_table) (VDict tie_market))) /\
    field (result_of (resolve_market (table_cap tie_table) (VDict tie_market))) "confidence"
    = Some (VFloat (F64.py_round (F64.int_div (largest_count oc) total) 4)) /\
    field (result_of (resolve_market (table_cap tie_table) (VDict tie_market)))
      "winning_outcome" = Some w /\
    key_of w = Some k /\
    field (result_of (resolve_market (table_cap tie_table) (VDict tie_market)))
      "winning_index" = Some (VInt i) /\
    (truthy w = true -> first_position [VStr "A"; VStr "B"] k i) /\
    (truthy w = false -> i = -1).
Proof.
  refine (decided_confidence_and_index (table_cap tie_table) tie_market [VStr "A"; VStr "B"]
            [tweet "a7"; tweet "b9"] _ _ _ _
            (result_of (resolve_market (table_cap tie_table) (VDict tie_market)))
            (snd (resolve_market (table_cap tie_table) (VDict tie_market)))
            _ _); vm_compute; reflexivity.
Defined.

Lemma sentiment_is_never_pending_witness :
  is_pending (result_of (resolve_market (table_cap low_table)
                           (market_of "market_123" yes_no "sentiment" five_replies)))
  = false.
Proof.
  refine (sentiment_is_never_pending (table_cap low_table)
            [ (VStr "market_id", VStr "market_123");
              (VStr "question", VStr "Will Bitcoin hit $100k by end of 2025?");
              (VStr "outcomes", VList yes_no);
              (VStr "resolution_method", VStr "sentiment");
              (VStr "reply_tweets", VList five_replies) ]
            yes_no five_replies _ _ _ _
            (result_of (resolve_market (table_cap low_table)
                          (market_of "market_123" yes_no "sentiment" five_replies)))
            (snd (resolve_market (table_cap low_table)
                    (market_of "market_123" yes_no "sentiment" five_replies)))
            _); vm_compute; reflexivity.
Defined.

End MoreRuns.

(** ** team_classifier.py: the teams and the order of the supporters *)

Module TeamsOrder.
Import Py Ext TeamClassifier ClassifyTeams Views MoreViews Samples MoreSamples OdictFacts.
Import F64 F64Order SupporterCap TeamsFacts ResolverFacts.
Local Open Scope list_scope.

(** Two confidences equal to a third are not in strict order. *)
Lemma same_confidence_not_lt (x y c : float) :
  (x =? c)%float = true -> (y =? c)%float = true -> (x <? y)%float = false.
Proof.
  rewrite !eqb_spec, ltb_spec. unfold SFeqb, SFltb. rewrite !rank_compare.
  destruct (rank (Prim2SF x)) as [[[x1 x2] x3]|]; [| discriminate].
  destruct (rank (Prim2SF c)) as [[[c1 c2] c3]|]; [| discriminate].
  destruct (rank (Prim2SF y)) as [[[y1 y2] y3]|]; [| discriminate].
  cbn [fst snd].
  repeat match goal with
         | |- context [Z.ltb ?a ?b] => destruct (Z.ltb_spec a b)
         end; try discriminate; try reflexivity; try lia.
Qed.

Lemma insert_desc_stable (c : float) (x : supporter) (l : list supporter) :
  filter (fun s => (s_confidence s =? c)%float) (insert_desc x l)
  = filter (fun s => (s_confidence s =? c)%float) (x :: l).
Proof.
  induction l as [|y t IH]; [reflexivity |]. cbn [insert_desc].
  destruct (s_confidence x <? s_confidence y)%float eqn:E; [| reflexivity].
  cbn [filter] in *. rewrite IH.
  destruct (s_confidence x =? c)%float eqn:Ex; [| reflexivity].
  destruct (s_confidence y =? c)%float eqn:Ey; [| reflexivity].
  rewrite (same_confidence_not_lt _ _ _ Ex Ey) in E. discriminate.
Qed.

Lemma sort_desc_stable (c : float) (l : list supporter) :
  filter (fun s => (s_confidence s =? c)%float) (sort_desc l)
  = filter (fun s => (s_confidence s =? c)%float) l.
Proof.
  induction l as [|x l IH]; [reflexivity |].
  unfold sort_desc. cbn [fold_right]. fold (sort_desc l).
  rewrite insert_desc_stable. cbn [filter]. rewrite IH. reflexivity.
Qed.

(** X26. The sort of the supporters is stable: the reported supporters of
    a team are the first 100 of a list in which the qualifying tweets of
    one and the same confidence stand in their order of arrival. *)
Theorem supporters_keep_arrival_order (cap : capability) (data controversy : value)
    (team_labels tweets : list value)
    (c w : value) (stats : odict team_stat) (total u : Z)
    (k : key) (obj : value) (ts : team_stat)
    (Hinput : check_input data = Ok (controversy, team_labels, tweets))
    (Hrun : classify_teams cap (Ok data) = Ok (TeamsOk c w stats total u))
    (Hin : In (k, obj, ts) stats) :
  exists sorted,
    supporters ts = firstn 100 sorted /\
    Permutation sorted (qualifying cap team_labels tweets k) /\
    forall x,
      filter (fun s => (s_confidence s =? x)%float) sorted
      = filter (fun s => (s_confidence s =? x)%float) (qualifying cap team_labels tweets k).
Proof.
  destruct (teams_run_inversion _ _ _ _ _ _ _ _ _ _ Hinput Hrun)
    as (st & Htally & _ & _ & Hrep).
  destruct (reported_entry _ _ _ _ _ _ _ _ _ _ Hrep Hin) as (ts0 & Hin0 & _ & Hsup & _).
  pose proof (tally_teams_supporters _ _ _ _ _ _ _ _ Htally Hin0) as Hq.
  exists (sort_desc (supporters ts0)). rewrite <- Hq.
  split; [exact Hsup |]. split; [apply sort_desc_perm |].
  intros x. apply sort_desc_stable.
Qed.

Lemma supporters_keep_arrival_order_witness :
  exists sorted,
    supporters crowd_a = firstn 100 sorted /\
    Permutation sorted
      (qualifying (table_cap crowd_table) [VStr "A"; VStr "B"] crowd_tweets (KStr "A")) /\
    forall x,
      filter (fun s => (s_confidence s =? x)%float) sorted
      = filter (fun s => (s_confidence s =? x)%float)
          (qualifying (table_cap crowd_table) [VStr "A"; VStr "B"] crowd_tweets (KStr "A")).
Proof.
  refine (supporters_keep_arrival_order (table_cap crowd_table) crowd_input (VStr "A or B?")
            [VStr "A"; VStr "B"] crowd_tweets (VStr "A or B?") (VStr "A") crowd_stats 110 0
            (KStr "A") (VStr "A") crowd_a _ _ _).
  - vm_compute. reflexivity.
  - vm_compute. reflexivity.
  - vm_compute. left. reflexivity.
Defined.

(** The loop changes no key and no key object of [team_stats]. *)
Lemma classify_loop_names cap team_labels tweets : forall st u st' u',
  classify_loop cap team_labels tweets (st, u) = Ok (st', u') -> map fst st' = map fst st.
Proof.
  induction tweets as [|tw tweets IH]; intros st u st' u'; cbn [classify_loop].
  - intros H. injection H as <- _. reflexivity.
  - destruct (classify_step cap team_labels (st, u) tw) as [[st1 u1]|] eqn:Hstep;
      cbn [bind]; [| discriminate].
    intros Hloop. rewrite (IH _ _ _ _ Hloop).
    pose proof (classify_step_spec _ _ _ _ _ _ _ Hstep) as Hs.
    destruct (supporter_of cap team_labels tw) as [[k1 s]|]; [| subst; reflexivity].
    destruct (od_mem st k1); subst st1; [apply od_update_names | reflexivity].
Qed.

Lemma od_set_key_objects {A : Type} (d : odict A) k obj a :
  key_of obj = Some k ->
  (forall k' o' a', In (k', o', a') d -> key_of o' = Some k') ->
  forall k' o' a', In (k', o', a') (od_set d k obj a) -> key_of o' = Some k'.
Proof.
  intros Hk. induction d as [|[[k0 o0] a0] d IH]; cbn; intros Hall k' o' a'.
  - intros [H | []]. injection H as <- <- _. exact Hk.
  - destruct (key_eqb k0 k); cbn.
    + intros [H | H]; [injection H as <- <- _; eapply Hall; left; reflexivity |].
      eapply Hall. right. exact H.
    + intros [H | H]; [injection H as <- <- _; eapply Hall; left; reflexivity |].
      eapply IH; [| exact H]. intros k1 o1 a1 H1. eapply Hall. right. exact H1.
Qed.

Lemma init_stats_entries team_labels : forall acc st,
  (forall k o ts, In (k, o, ts) acc -> key_of o = Some k) ->
  init_stats team_labels acc = Ok st ->
  (forall k o ts, In (k, o, ts) st ->
     key_of o = Some k /\ (In o team_labels \/ exists ts0, In (k, o, ts0) acc)) /\
  (forall k, od_mem st k
             = od_mem acc k || existsb (fun t => match key_of t with
                                                 | Some k' => key_eqb k' k
                                                 | None => false
                                                 end) team_labels).
Proof.
  induction team_labels as [|t team_labels IH]; intros acc st Hacc; cbn [init_stats existsb].
  - intros H. injection H as <-. split.
    + intros k o ts Hin. split; [eapply Hacc; exact Hin | right; eauto].
    + intros k. rewrite orb_false_r. reflexivity.
  - destruct (key_of t) as [k0|] eqn:K; [| discriminate]. intros H.
    destruct (IH _ _ (od_set_key_objects acc k0 t team_stat0 K Hacc) H) as [Hent Hmem].
    split.
    + intros k o ts Hin. destruct (Hent k o ts Hin) as [Hk [Ho | [ts0 Hts0]]].
      * split; [exact Hk | left; right; exact Ho].
      * split; [exact Hk |].
        destruct (od_set_objects _ _ _ _ _ _ _ Hts0) as [-> | [a0 Ha0]];
          [left; left; reflexivity | right; eauto].
    + intros k. rewrite Hmem, od_set_mem, orb_assoc. reflexivity.
Qed.

(** X27. The [team_stats] of a result has exactly one entry for each
    distinct team label, also for a team without any tweet: its keys are
    team labels of the input, no two of them are equal as dict keys, and
    every team label is equal to one of them. *)
Theorem team_stats_cover_labels (cap : capability) (data controversy : value)
    (team_labels tweets : list value)
    (c w : value) (stats : odict team_stat) (total u : Z)
    (Hinput : check_input data = Ok (controversy, team_labels, tweets))
    (Hrun : classify_teams cap (Ok data) = Ok (TeamsOk c w stats total u)) :
  NoDup (od_keys stats) /\
  (forall k obj ts, In (k, obj, ts) stats -> key_of obj = Some k /\ In obj team_labels) /\
  (forall t, In t team_labels -> exists k, key_of t = Some k /\ In k (od_keys stats)).
Proof.
  destruct (teams_run_inversion _ _ _ _ _ _ _ _ _ _ Hinput Hrun)
    as (st & Htally & _ & _ & Hrep).
  assert (Hnames : map fst stats = map fst st).
  { pose proof Hrep as Hrep'. unfold report_teams in Hrep'. cbv beta iota zeta in Hrep'.
    assert (Hstats : map_stats clean_up
                       (if 0 <? sum_counts st
                        then map_stats (with_statistics (sum_counts st)) st else st) = stats)
      by congruence.
    subst stats. unfold map_stats. rewrite map_map. cbn [fst].
    destruct (0 <? sum_counts st); [rewrite map_map |]; reflexivity. }
  unfold tally_teams in Htally.
  destruct (init_stats team_labels []) as [st0|] eqn:Hinit; cbn [bind] in Htally;
    [| discriminate].
  pose proof (classify_loop_names _ _ _ _ _ _ _ Htally) as Hloop.
  rewrite Hloop in Hnames.
  destruct (init_stats_inv team_labels [] st0 (NoDup_nil _) (fun _ _ _ H => match H with end)
              Hinit) as [Hnodup _].
  destruct (init_stats_entries team_labels [] st0 (fun _ _ _ H => match H with end) Hinit)
    as [Hent Hmem].
  assert (Hkeys : od_keys stats = od_keys st0).
  { unfold od_keys. rewrite <- !(map_map fst fst), Hnames. reflexivity. }
  split; [rewrite Hkeys; exact Hnodup |]. split.
  - intros k obj ts Hin.
    assert (Hin0 : In (k, obj) (map fst st0)).
    { rewrite <- Hnames. apply (in_map fst stats _ Hin). }
    apply in_map_iff in Hin0. destruct Hin0 as ([[k' o'] ts'] & Heq & Hin0).
    cbn in Heq. injection Heq as -> ->.
    destruct (Hent _ _ _ Hin0) as [Hk [Ho | [ts0 []]]]. auto.
  - intros t Hin. destruct (key_of t) as [k|] eqn:K.
    + exists k. split; [reflexivity |]. rewrite Hkeys.
      apply (od_get_keys st0 k), od_mem_get. rewrite Hmem. cbn.
      apply existsb_exists. exists t. rewrite K. split; [exact Hin | apply key_eqb_refl].
    + exfalso. destruct (init_stats_raise team_labels [] (ex_intro _ t (conj Hin K)))
        as [e He]. congruence.
Qed.

Lemma team_stats_cover_labels_witness :
  NoDup (od_keys mixed_stats) /\
  (forall k obj ts, In (k, obj, ts) mixed_stats ->
     key_of obj = Some k /\ In obj [VStr "A"; VStr "B"]) /\
  (forall t, In t [VStr "A"; VStr "B"] ->
     exists k, key_of t = Some k /\ In k (od_keys mixed_stats)).
Proof.
  refine (team_stats_cover_labels (table_cap mixed_table) mixed_input (VStr "A or B?")
            [VStr "A"; VStr "B"] mixed_tweets (VStr "A or B?") (VStr "A") mixed_stats 3 3
            _ _); vm_compute; reflexivity.
Defined.

End TeamsOrder.

(** ** market_resolver.py: the threshold in the loop over the replies *)

Module LoopLaw.
Import Py Ext TeamClassifier MarketResolver Views MoreViews LawViews.
Import Samples MoreSamples LawSamples OdictFacts.
Import F64Order ThresholdLaw Tally ResolverFacts.
Local Open Scope list_scope.

(** The state after one more reply. *)
Lemma process_tweets_snoc cap outcomes pre tw st :
  fst (process_tweets cap outcomes (pre ++ [tw]) st)
  = tally_step cap outcomes (fst (process_tweets cap outcomes pre st)) tw.
Proof.
  destruct st as [[oc total] log]. rewrite !process_tweets_tally, fold_left_app. reflexivity.
Qed.

(** Only [None] has the key of [None]. *)
Lemma key_of_none (o : value) : key_of o = Some KNone -> o = VNone.
Proof.
  destruct o as [| b | z | f | s | l | dd]; cbn; try discriminate; [reflexivity |].
  unfold float_key. destruct (Prim2SF f) as [s | s | | s m e]; try discriminate.
  destruct (0 <=? e); [discriminate |].
  destruct (Zpos m mod 2 ^ (- e) =? 0); discriminate.
Qed.

(** The keys the loop finds in [outcome_counts] are those of the
    outcomes. *)
Lemma loop_keys cap outcomes pre oc0 oc total log k :
  init_counts outcomes [] = Ok oc0 ->
  process_tweets cap outcomes pre (oc0, 0, [EvLoadModels]) = (oc, total, log) ->
  od_mem oc k = existsb (fun o => match key_of o with
                                  | Some k' => key_eqb k' k
                                  | None => false
                                  end) outcomes.
Proof.
  intros Hinit Hpre. rewrite process_tweets_tally in Hpre.
  destruct (tally_accepted cap outcomes pre oc0 0) as (oc' & Hfold & Hmem).
  rewrite Hfold in Hpre. injection Hpre as <- _ _.
  rewrite Hmem, (init_counts_mem _ _ _ k Hinit). reflexivity.
Qed.

(** C4, as the code has it. In the loop of [_resolve_by_sentiment], after
    any replies [pre], the next reply with judgment [j] changes no count,
    no confidence sum and not [total_analyzed] when the confidence of [j]
    is strictly below 0.6, when its label is not in the outcome set, and
    when its label is [None] and [None] is not one of the outcomes. When
    the confidence is at least 0.6 and the label is in the outcome set,
    the reply adds 1 to the count of that outcome, adds its confidence to
    the confidence sum of that outcome, adds 1 to [total_analyzed] and
    touches no other outcome. A label is in the outcome set when it is
    equal, as a dict key, to one of the outcomes. *)
Theorem threshold_law (cap : capability) (outcomes pre : list value) (tw : value)
    (j : judgment) (oc0 oc : counts) (total : Z) (log : list event)
    (Hinit : init_counts outcomes [] = Ok oc0)
    (Hpre : process_tweets cap outcomes pre (oc0, 0, [EvLoadModels]) = (oc, total, log))
    (Hj : tweet_judgment cap outcomes tw = Some j) :
  (((team j = VNone /\ ~ In VNone outcomes) \/
    F64.lt (confidence j) resolver_min_confidence \/
    (forall o, In o outcomes -> key_of o <> key_of (team j))) ->
   fst (process_tweets cap outcomes (pre ++ [tw]) (oc0, 0, [EvLoadModels])) = (oc, total))
  /\
  (forall o k,
      F64.le resolver_min_confidence (confidence j) ->
      In o outcomes -> key_of o = Some k -> key_of (team j) = Some k ->
      exists s oc',
        od_get oc k = Some s /\
        fst (process_tweets cap outcomes (pre ++ [tw]) (oc0, 0, [EvLoadModels]))
        = (oc', total + 1) /\
        od_get oc' k = Some {| count := count s + 1;
                               confidence_sum := (confidence_sum s + confidence j)%float |} /\
        (forall k', k' <> k -> od_get oc' k' = od_get oc k') /\
        map fst oc' = map fst oc).
Proof.
  rewrite process_tweets_snoc, Hpre. cbn [fst]. unfold tally_step. rewrite Hj.
  assert (Hout : (forall o, In o outcomes -> key_of o <> key_of (team j)) ->
                 forall k, key_of (team j) = Some k -> od_mem oc k = false).
  { intros Hno k Hk. rewrite (loop_keys _ _ _ _ _ _ _ k Hinit Hpre).
    destruct (existsb _ outcomes) eqn:E; [| reflexivity].
    apply existsb_exists in E. destruct E as (o & Hin & Ho).
    destruct (key_of o) as [k'|] eqn:K; [| discriminate].
    apply key_eqb_eq in Ho. subst k'. exfalso. apply (Hno o Hin). congruence. }
  split.
  - intros [[Hn Hnot] | [Hlt | Hno]].
    + apply count_judgment_outside. apply Hout. intros o Hin Ho.
      rewrite Hn in Ho. cbn in Ho. apply key_of_none in Ho. subst o. contradiction.
    + apply count_judgment_below. apply f64_lt_not_le. exact Hlt.
    + apply count_judgment_outside. apply Hout. exact Hno.
  - intros o k Hc Hin Ho Hk.
    assert (Hm : od_mem oc k = true).
    { rewrite (loop_keys _ _ _ _ _ _ _ k Hinit Hpre). apply existsb_exists.
      exists o. rewrite Ho. split; [exact Hin | apply key_eqb_refl]. }
    pose proof Hm as Hg. apply od_mem_get in Hg. destruct Hg as [s Hs].
    exists s, (od_update oc k (bump (confidence j))).
    split; [exact Hs |]. split; [apply count_judgment_accept; assumption |].
    split; [rewrite (od_get_update_same _ _ _ _ Hs); reflexivity |].
    split; [intros k' Hne; apply od_get_update_other; exact Hne | apply od_update_names].
Qed.

Lemma threshold_law_witness :
  fst (process_tweets (table_cap mixed_table) [VStr "A"; VStr "B"]
         ([tweet "a-first"; tweet "b-only"] ++ [tweet "weak"])
         (a_b_counts, 0, [EvLoadModels]))
  = ([(KStr "A", VStr "A", {| count := 1; confidence_sum := c090 |});
      (KStr "B", VStr "B", {| count := 1; confidence_sum := c080 |})], 2)
  /\
  exists s oc',
    od_get [(KStr "A", VStr "A", {| count := 1; confidence_sum := c090 |});
            (KStr "B", VStr "B", {| count := 1; confidence_sum := c080 |})] (KStr "A")
    = Some s /\
    fst (process_tweets (table_cap mixed_table) [VStr "A"; VStr "B"]
           ([tweet "a-first"; tweet "b-only"] ++ [tweet "a-second"])
           (a_b_counts, 0, [EvLoadModels]))
    = (oc', 2 + 1) /\
    od_get oc' (KStr "A")
    = Some {| count := count s + 1; confidence_sum := (confidence_sum s + c075)%float |} /\
    (forall k', k' <> KStr "A" ->
       od_get oc' k'
       = od_get [(KStr "A", VStr "A", {| count := 1; confidence_sum := c090 |});
                 (KStr "B", VStr "B", {| count := 1; confidence_sum := c080 |})] k') /\
    map fst oc'
    = map fst [(KStr "A", VStr "A", {| count := 1; confidence_sum := c090 |});
               (KStr "B", VStr "B", {| count := 1; confidence_sum := c080 |})].
Proof.
  assert (Hinit : init_counts [VStr "A"; VStr "B"] [] = Ok a_b_counts)
    by (vm_compute; reflexivity).
  assert (Hpre : process_tweets (table_cap mixed_table) [VStr "A"; VStr "B"]
                   [tweet "a-first"; tweet "b-only"] (a_b_counts, 0, [EvLoadModels])
                 = ([(KStr "A", VStr "A", {| count := 1; confidence_sum := c090 |});
                     (KStr "B", VStr "B", {| count := 1; confidence_sum := c080 |})], 2,
                    [EvLoadModels; EvClassify (VStr "a-first"); EvClassify (VStr "b-only")]))
    by (vm_compute; reflexivity).
  assert (Hweak : tweet_judgment (table_cap mixed_table) [VStr "A"; VStr "B"] (tweet "weak")
                  = Some {| team := VNone; confidence := c040 |})
    by (vm_compute; reflexivity).
  assert (Hgood : tweet_judgment (table_cap mixed_table) [VStr "A"; VStr "B"]
                    (tweet "a-second")
                  = Some {| team := VStr "A"; confidence := c075 |})
    by (vm_compute; reflexivity).
  split.
  - apply (threshold_law _ _ _ _ _ _ _ _ _ Hinit Hpre Hweak).
    right. left. vm_compute. reflexivity.
  - apply (threshold_law _ _ _ _ _ _ _ _ _ Hinit Hpre Hgood) with (o := VStr "A").
    + vm_compute. reflexivity.
    + left. reflexivity.
    + reflexivity.
    + reflexivity.
Defined.

(** C4, as stated, fails on the label [None]: [None] can be one of the
    outcomes. With the outcomes [None] and [No] and one reply judged for
    the label [None] at 0.9, the reply is counted: the count of the
    outcome [None] becomes 1, its confidence sum 0.9, and the record
    reports [total_analyzed] 1. *)
Lemma none_label_is_counted :
  _validate_market_data (market_of "market_123" none_or_no "sentiment" [tweet "x"]) = Ok tt /\
  tweet_judgment (table_cap none_table) none_or_no (tweet "x")
  = Some {| team := VNone; confidence := c090 |} /\
  process_tweets (table_cap none_table) none_or_no [tweet "x"]
    ([(KNone, VNone, stat0); (KStr "No", VStr "No", stat0)], 0, [EvLoadModels])
  = ([(KNone, VNone, {| count := 1; confidence_sum := c090 |});
      (KStr "No", VStr "No", stat0)], 1, [EvLoadModels; EvClassify (VStr "x")]) /\
  is_decided (result_of (resolve_market (table_cap none_table)
                           (market_of "market_123" none_or_no "sentiment" [tweet "x"])))
  = true /\
  field (result_of (resolve_market (table_cap none_table)
                      (market_of "market_123" none_or_no "sentiment" [tweet "x"])))
        "total_analyzed" = Some (VInt 1).
Proof. repeat split; vm_compute; reflexivity. Qed.

End LoopLaw.

(** ** market_resolver.py: the order of the replies, with the winner *)

Module ReplyOrderLaw.
Import Py Ext TeamClassifier MarketResolver Views MoreViews LawViews.
Import Samples MoreSamples LawSamples OdictFacts.
Import Dispatch Tally WinnerScan SentimentRun ReplyOrder ResolverFacts.
Local Open Scope list_scope.

(** *** Binary64 addition commutes *)

Lemma SFadd_comm (x y : spec_float) : SFadd prec emax x y = SFadd prec emax y x.
Proof.
  destruct x as [[|] | [|] | | sx mx ex], y as [[|] | [|] | | sy my ey]; try reflexivity.
  cbn [SFadd]. rewrite (Z.min_comm ex ey), Z.add_comm. reflexivity.
Qed.

Lemma SFadd_zero_l (x : spec_float) :
  SFadd prec emax (S754_zero false) x = match x with S754_zero _ => S754_zero false | _ => x end.
Proof. destruct x as [[|] | [|] | | sx mx ex]; reflexivity. Qed.

(** Two confidences added to 0.0: the order does not matter. *)
Lemma add_two_from_zero (a b : float) : (0 + a + b = 0 + b + a)%float.
Proof.
  apply Prim2SF_inj. rewrite !add_spec. change (Prim2SF 0) with (S754_zero false).
  unfold SF64add. rewrite !SFadd_zero_l.
  destruct (Prim2SF a) as [[|] | [|] | | sa ma ea], (Prim2SF b) as [[|] | [|] | | sb mb eb];
    try reflexivity.
  apply SFadd_comm.
Qed.

Lemma short_sum_permutation (l1 l2 : list float) :
  Permutation l1 l2 -> (List.length l1 <= 2)%nat ->
  fold_left PrimFloat.add l1 0%float = fold_left PrimFloat.add l2 0%float.
Proof.
  intros Hp Hlen. destruct l1 as [|a [|b [|c l1]]].
  - apply Permutation_nil in Hp. subst. reflexivity.
  - apply Permutation_length_1_inv in Hp. subst. reflexivity.
  - apply Permutation_length_2_inv in Hp. destruct Hp as [-> | ->]; [reflexivity |].
    cbn. apply add_two_from_zero.
  - cbn in Hlen. lia.
Qed.

(** *** The counts and the sums in closed form *)

Lemma od_update_absent {A : Type} (d : odict A) k (f : A -> A) :
  ~ In k (od_keys d) -> od_update d k f = d.
Proof.
  induction d as [|[[k0 o0] a0] d IH]; cbn; [reflexivity |]. intros Hn.
  destruct (key_eqb k0 k) eqn:E.
  - apply key_eqb_eq in E. subst. exfalso. apply Hn. left. reflexivity.
  - rewrite IH; [reflexivity |]. intros H. apply Hn. right. exact H.
Qed.

Lemma absorb_nil (s : stat) : absorb s [] = s.
Proof. destruct s. unfold absorb. cbn. f_equal. lia. Qed.

Lemma absorb_cons (s : stat) c l : absorb s (c :: l) = absorb (bump c s) l.
Proof. unfold absorb, bump. cbn [fold_left List.length count confidence_sum]. f_equal. lia. Qed.

Lemma map_absorb_nil (l : counts) : map (fun e => (fst e, absorb (snd e) [])) l = l.
Proof.
  induction l as [|[[k o] s] l IH]; cbn; [reflexivity |]. rewrite absorb_nil, IH. reflexivity.
Qed.

Lemma tally_step_closed cap outcomes (oc : counts) total tw :
  NoDup (od_keys oc) ->
  fst (tally_step cap outcomes (oc, total) tw)
  = map (fun e => (fst e, absorb (snd e) (confidence_for cap outcomes (fst (fst e)) tw))) oc.
Proof.
  intros Hn. unfold tally_step, confidence_for.
  pose proof map_absorb_nil as Hid.
  destruct (tweet_judgment cap outcomes tw) as [j|]; [| symmetry; apply Hid].
  unfold count_judgment.
  destruct (resolver_min_confidence <=? confidence j)%float; [| symmetry; apply Hid].
  destruct (key_of (team j)) as [k'|]; [| symmetry; apply Hid].
  assert (Hupd : od_update oc k' (bump (confidence j))
                 = map (fun e => (fst e, absorb (snd e)
                                           (if key_eqb k' (fst (fst e))
                                            then [confidence j] else []))) oc).
  { clear - Hn Hid. induction oc as [|[[k o] s] oc IH]; cbn; [reflexivity |].
    inversion Hn as [|? ? Hnotin Hn']; subst.
    destruct (key_eqb k k') eqn:E.
    - apply key_eqb_eq in E. subst k'. rewrite key_eqb_refl, absorb_cons, absorb_nil.
      f_equal. rewrite <- (Hid oc) at 1. apply map_ext_in. intros [[k1 o1] s1] Hin. cbn.
      destruct (key_eqb k k1) eqn:E1; [| reflexivity].
      apply key_eqb_eq in E1. subst k1. exfalso. apply Hnotin.
      apply (in_map (fun e => fst (fst e)) oc _ Hin).
    - assert (E' : key_eqb k' k = false).
      { destruct (key_eqb k' k) eqn:E2; [| reflexivity].
        apply key_eqb_eq in E2. subst. rewrite key_eqb_refl in E. discriminate. }
      rewrite E', absorb_nil, (IH Hn'). reflexivity. }
  destruct (od_mem oc k') eqn:M; cbn [fst].
  - exact Hupd.
  - rewrite <- Hupd. symmetry. apply od_update_absent. intros Hin.
    apply (od_get_keys oc k') in Hin. apply od_mem_get in Hin. congruence.
Qed.

Lemma tally_step_keys cap outcomes (oc : counts) total tw :
  od_keys (fst (tally_step cap outcomes (oc, total) tw)) = od_keys oc.
Proof.
  unfold tally_step. destruct (tweet_judgment cap outcomes tw) as [j|]; [| reflexivity].
  unfold count_judgment. destruct (resolver_min_confidence <=? confidence j)%float;
    [| reflexivity].
  destruct (key_of (team j)) as [k'|]; [| reflexivity].
  destruct (od_mem oc k'); [apply od_update_keys | reflexivity].
Qed.

Lemma absorb_app (s : stat) l1 l2 : absorb (absorb s l1) l2 = absorb s (l1 ++ l2).
Proof.
  unfold absorb. cbn [count confidence_sum]. rewrite fold_left_app, length_app. f_equal. lia.
Qed.

(** After the loop every outcome holds the number and the binary64 sum, in
    order of arrival, of the confidences accepted for it. *)
Lemma tally_closed cap outcomes tweets : forall (oc : counts) total,
  NoDup (od_keys oc) ->
  fst (fold_left (tally_step cap outcomes) tweets (oc, total))
  = map (fun e => (fst e, absorb (snd e) (confidences_for cap outcomes (fst (fst e)) tweets)))
        oc.
Proof.
  induction tweets as [|tw tweets IH]; intros oc total Hn; cbn [fold_left].
  - cbn. symmetry. apply map_absorb_nil.
  - pose proof (tally_step_closed cap outcomes oc total tw Hn) as Hstep.
    pose proof (tally_step_keys cap outcomes oc total tw) as Hkeys.
    destruct (tally_step cap outcomes (oc, total) tw) as [oc1 total1]. cbn [fst] in *.
    rewrite IH by (rewrite Hkeys; exact Hn). rewrite Hstep, map_map.
    apply map_ext. intros [[k o] s]. cbn. rewrite absorb_app. reflexivity.
Qed.

Lemma confidences_for_permutation cap outcomes k tweets1 tweets2 :
  Permutation tweets1 tweets2 ->
  Permutation (confidences_for cap outcomes k tweets1) (confidences_for cap outcomes k tweets2).
Proof. intros H. unfold confidences_for. apply Permutation_flat_map. exact H. Qed.

Lemma support_count_of_entry (s : stat) total :
  support_count_of (breakdown_entry s total) = count s.
Proof. reflexivity. Qed.

Lemma Forall2_map_same {A B : Type} (R : B -> B -> Prop) (f g : A -> B) (l : list A) :
  (forall x, In x l -> R (f x) (g x)) -> Forall2 R (map f l) (map g l).
Proof.
  induction l as [|x l IH]; intros H; cbn; constructor.
  - apply H. left. reflexivity.
  - apply IH. intros y Hy. apply H. right. exact Hy.
Qed.

(** The largest count is reached. *)
Lemma largest_count_reached (l : counts) :
  l <> [] -> (forall e, In e l -> 0 <= count (snd e)) ->
  exists e, In e l /\ count (snd e) = largest_count l.
Proof.
  induction l as [|e l IH]; [congruence |]. intros _ Hnn.
  unfold largest_count. cbn [fold_right]. fold (largest_count l).
  destruct l as [|e' l'].
  - exists e. split; [left; reflexivity |]. cbn. pose proof (Hnn e (or_introl eq_refl)). lia.
  - destruct (IH ltac:(discriminate) (fun x Hx => Hnn x (or_intror Hx))) as (x & Hx & Hc).
    destruct (Z.max_spec (count (snd e)) (largest_count (e' :: l'))) as [[_ ->] | [_ ->]].
    + exists x. split; [right; exact Hx | exact Hc].
    + exists e. split; [left; reflexivity | reflexivity].
Qed.

Section TwoOrders.
Variables (cap : capability) (d : list (value * value)) (outcomes : list value).
Variables (tweets1 tweets2 : list value).
Hypothesis Hvalid : _validate_market_data (VDict d) = Ok tt.
Hypothesis Hmethod : resolution_method_of (VDict d) = Ok "sentiment".
Hypothesis Houtcomes : dict_get d "outcomes" = Some (VList outcomes).
Hypothesis Hperm : Permutation tweets1 tweets2.

(** C8, as the code has it. Two markets that differ only in the order of
    their replies are answered alike in everything that does not rest on a
    binary64 sum of three or more confidences. Both answers are the same
    error record, or both are decided records with the same [confidence],
    the same [total_analyzed] and, outcome by outcome, the same
    [support_count] and [support_percentage]; the whole breakdown entry,
    [avg_confidence] included, is the same for every outcome with at most
    two accepted replies; the [winning_outcome] and the [winning_index]
    are the same when one outcome has more support than every other; and
    the two records are equal when no outcome has more than two accepted
    replies. *)
Theorem order_independence :
  exists r1 r2 log1 log2,
    resolve_market cap (VDict (with_replies (VList tweets1) d)) = (Ok r1, log1) /\
    resolve_market cap (VDict (with_replies (VList tweets2) d)) = (Ok r2, log2) /\
    ((is_error r1 = true /\ r2 = r1) \/
     (is_decided r1 = true /\ is_decided r2 = true /\
      field r1 "confidence" = field r2 "confidence" /\
      field r1 "total_analyzed" = field r2 "total_analyzed" /\
      support_view r1 = support_view r2 /\ support_view r1 <> None /\
      Forall2 (fun p1 p2 => fst p1 = fst p2 /\
                            (support_count_of (snd p1) <= 2 -> snd p2 = snd p1))
              (breakdown_of r1) (breakdown_of r2) /\
      (single_leader r1 ->
       field r1 "winning_outcome" = field r2 "winning_outcome" /\
       field r1 "winning_index" = field r2 "winning_index") /\
      (at_most_two_each r1 -> r2 = r1))).
Proof.
  set (d1 := with_replies (VList tweets1) d).
  set (d2 := with_replies (VList tweets2) d).
  pose proof (resolve_market_sentiment cap d1 outcomes tweets1 Hvalid Hmethod Houtcomes
                eq_refl) as E1.
  pose proof (resolve_market_sentiment cap d2 outcomes tweets2 Hvalid Hmethod Houtcomes
                eq_refl) as E2.
  change (error_record cap d1) with (error_record cap d) in E1.
  change (error_record cap d2) with (error_record cap d) in E2.
  destruct (load_models cap) as [e|].
  { do 4 eexists. split; [exact E1 |]. split; [exact E2 |]. left. split; reflexivity. }
  destruct (init_counts outcomes []) as [oc0|e] eqn:Hinit.
  2: { do 4 eexists. split; [exact E1 |]. split; [exact E2 |]. left. split; reflexivity. }
  pose proof (process_tweets_view cap outcomes tweets1 oc0 0 [EvLoadModels]) as V1.
  pose proof (process_tweets_view cap outcomes tweets2 oc0 0 [EvLoadModels]) as V2.
  rewrite (view_permutation cap outcomes tweets1 tweets2 Hperm) in V1.
  destruct (init_counts_inv outcomes [] oc0 well_formed_nil (fun _ _ _ H => match H with end)
              Hinit) as [Hwf0 Hall0].
  pose proof (tally_closed cap outcomes tweets1 oc0 0 (wf_nodup oc0 Hwf0)) as C1.
  pose proof (tally_closed cap outcomes tweets2 oc0 0 (wf_nodup oc0 Hwf0)) as C2.
  pose proof (process_tweets_tally cap outcomes tweets1 oc0 0 [EvLoadModels]) as T1.
  pose proof (process_tweets_tally cap outcomes tweets2 oc0 0 [EvLoadModels]) as T2.
  destruct (process_tweets cap outcomes tweets1 (oc0, 0, [EvLoadModels]))
    as [[oc1 total1] lg1] eqn:P1.
  destruct (process_tweets cap outcomes tweets2 (oc0, 0, [EvLoadModels]))
    as [[oc2 total2] lg2] eqn:P2.
  rewrite <- V2 in V1. injection V1 as Hview Htotal. subst total2.
  assert (Hoc1 : oc1 = map (fun e => (fst e, absorb (snd e)
                   (confidences_for cap outcomes (fst (fst e)) tweets1))) oc0).
  { rewrite <- C1. injection T1 as <- _. reflexivity. }
  assert (Hoc2 : oc2 = map (fun e => (fst e, absorb (snd e)
                   (confidences_for cap outcomes (fst (fst e)) tweets2))) oc0).
  { rewrite <- C2. injection T2 as <- _. reflexivity. }
  clear C1 C2 T1 T2.
  destruct (Z.eq_dec total1 0) as [-> | Hnz].
  { do 4 eexists. split; [exact E1 |]. split; [exact E2 |]. left. split; reflexivity. }
  destruct (finish_sentiment_decided cap d1 outcomes tweets1 Hvalid oc0 oc1 total1 lg1
              Hinit P1 Hnz)
    as (sc1 & wi1 & mid1 & q1 & _ & Hs1 & Hbd1 & Hwf1 & _ & _ & Hpos1 & _ & Gm1 & Gq1 & Hwi1
        & R1).
  destruct (finish_sentiment_decided cap d2 outcomes tweets2 Hvalid oc0 oc2 total1 lg2
              Hinit P2 Hnz)
    as (sc2 & wi2 & mid2 & q2 & _ & Hs2 & Hbd2 & Hwf2 & _ & _ & Hpos2 & _ & Gm2 & Gq2 & Hwi2
        & R2).
  rewrite R1 in E1. rewrite R2 in E2.
  assert (Hmid : mid2 = mid1) by (cbn in Gm1, Gm2; congruence).
  assert (Hq : q2 = q1) by (cbn in Gq1, Gq2; congruence).
  subst mid2 q2.
  do 4 eexists. split; [exact E1 |]. split; [exact E2 |]. right.
  split; [reflexivity |]. split; [reflexivity |].
  destruct Hs1 as [Hm1 Hw1]. destruct Hs2 as [Hm2 Hw2].
  assert (Hmax : max_count sc1 = max_count sc2).
  { rewrite Hm1, Hm2, !largest_count_view, Hview. reflexivity. }
  split; [cbn; rewrite Hmax; reflexivity |]. split; [reflexivity |].
  rewrite (support_view_decided _ _ _ _ _ _ _ oc1 Hbd1).
  rewrite (support_view_decided _ _ _ _ _ _ _ oc2 Hbd2).
  rewrite Hview. split; [reflexivity |]. split; [discriminate |].
  assert (Hb1 : breakdown_of (decided_record cap mid1 q1 outcomes sc1 wi1 total1)
                = map (fun e => (snd (fst e), breakdown_entry (snd e) total1)) oc1).
  { unfold breakdown_of. cbn. unfold breakdown_value. rewrite Hbd1, map_map. reflexivity. }
  assert (Hb2 : breakdown_of (decided_record cap mid1 q1 outcomes sc2 wi2 total1)
                = map (fun e => (snd (fst e), breakdown_entry (snd e) total1)) oc2).
  { unfold breakdown_of. cbn. unfold breakdown_value. rewrite Hbd2, map_map. reflexivity. }
  assert (Hshort : forall e, In e oc0 ->
            count (absorb (snd e) (confidences_for cap outcomes (fst (fst e)) tweets1)) <= 2 ->
            absorb (snd e) (confidences_for cap outcomes (fst (fst e)) tweets2)
            = absorb (snd e) (confidences_for cap outcomes (fst (fst e)) tweets1)).
  { intros [[k o] s] Hin Hle. cbn [fst snd] in *. rewrite (Hall0 k o s Hin) in *.
    pose proof (confidences_for_permutation cap outcomes k tweets1 tweets2 Hperm) as Hp.
    unfold absorb in *. cbn [count confidence_sum stat0] in *.
    rewrite <- (Permutation_length Hp).
    rewrite (short_sum_permutation _ _ Hp) by lia. reflexivity. }
  split; [| split].
  - rewrite Hb1, Hb2, Hoc1, Hoc2, !map_map. apply Forall2_map_same.
    intros e Hin. cbn [fst snd]. split; [reflexivity |].
    rewrite support_count_of_entry. intros Hle. rewrite (Hshort e Hin Hle). reflexivity.
  - intros (pre & p & post & Hsplit & Hlead).
    rewrite Hb1 in Hsplit. apply map_eq_app in Hsplit.
    destruct Hsplit as (pre1 & rest1 & Hoc1' & Hpre1 & Hrest1).
    apply map_eq_cons in Hrest1. destruct Hrest1 as (e1 & post1 & -> & Hp1 & Hpost1).
    subst pre p post.
    assert (Hlead1 : forall x, In x (pre1 ++ post1) -> count (snd x) < count (snd e1)).
    { intros x Hx. specialize (Hlead (snd (fst x), breakdown_entry (snd x) total1)).
      cbn [snd] in Hlead. rewrite !support_count_of_entry in Hlead. apply Hlead.
      rewrite <- map_app. apply (in_map (fun e => (snd (fst e), breakdown_entry (snd e) total1))).
      exact Hx. }
    assert (Hine1 : In e1 oc1).
    { rewrite Hoc1'. apply in_or_app. right. left. reflexivity. }
    pose proof (largest_count_ge oc1 e1 Hine1) as Hge.
    assert (Hlarge : largest_count oc1 = count (snd e1)).
    { destruct (largest_count_reached oc1) as (x & Hx & Hc).
      - rewrite Hoc1'. destruct pre1; discriminate.
      - intros [[k o] s] H. apply (wf_nonneg oc1 Hwf1 k o s H).
      - rewrite Hoc1' in Hx. apply in_app_or in Hx. destruct Hx as [Hx | [<- | Hx]].
        + pose proof (Hlead1 x (in_or_app _ _ _ (or_introl Hx))). lia.
        + symmetry. exact Hc.
        + pose proof (Hlead1 x (in_or_app _ _ _ (or_intror Hx))). lia. }
    assert (Hcv : counts_view oc1
                  = counts_view pre1 ++ (fst e1, count (snd e1)) :: counts_view post1).
    { rewrite Hoc1'. unfold counts_view. rewrite map_app. reflexivity. }
    assert (Hwin : forall (oc : counts) sc,
              counts_view oc = counts_view oc1 -> scan_inv oc sc -> 0 < max_count sc ->
              winning_outcome sc = snd (fst e1)).
    { intros oc sc Hv [Hm Hw] Hp. destruct Hw as [[Hz _] | [_ (pr & k & s & po & Hvis & Hcs & _)]];
        [lia |].
      assert (Hl : largest_count oc = count (snd e1)).
      { rewrite largest_count_view, Hv, <- largest_count_view. exact Hlarge. }
      assert (Hin : In (k, winning_outcome sc, count s) (counts_view oc)).
      { rewrite Hvis. unfold counts_view. rewrite map_app. apply in_or_app. right. left.
        reflexivity. }
      rewrite Hv, Hcv in Hin. apply in_app_or in Hin.
      assert (Hcount : count s = count (snd e1)) by lia.
      destruct Hin as [Hin | [Heq | Hin]].
      - exfalso. unfold counts_view in Hin. apply in_map_iff in Hin.
        destruct Hin as (x & Hx & Hxin). injection Hx as _ Hc'.
        pose proof (Hlead1 x (in_or_app _ _ _ (or_introl Hxin))). lia.
      - injection Heq as Hfst _. rewrite Hfst. reflexivity.
      - exfalso. unfold counts_view in Hin. apply in_map_iff in Hin.
        destruct Hin as (x & Hx & Hxin). injection Hx as _ Hc'.
        pose proof (Hlead1 x (in_or_app _ _ _ (or_intror Hxin))). lia. }
    assert (W1 : winning_outcome sc1 = snd (fst e1))
      by (apply (Hwin oc1 sc1 eq_refl (conj Hm1 Hw1) Hpos1)).
    assert (W2 : winning_outcome sc2 = snd (fst e1))
      by (apply (Hwin oc2 sc2 (eq_sym Hview) (conj Hm2 Hw2) Hpos2)).
    cbn [field decided_record dict_get String.eqb Ascii.eqb Bool.eqb].
    rewrite W1, W2 in *. split; [reflexivity |].
    destruct (truthy (snd (fst e1))); congruence.
  - intros Hfew.
    assert (Heq : oc2 = oc1).
    { rewrite Hoc1, Hoc2. apply map_ext_in. intros e Hin. f_equal.
      apply Hshort; [exact Hin |].
      specialize (Hfew (snd (fst e), breakdown_entry
                          (absorb (snd e) (confidences_for cap outcomes (fst (fst e)) tweets1))
                          total1)).
      cbn [snd] in Hfew. rewrite support_count_of_entry in Hfew. apply Hfew.
      rewrite Hb1, Hoc1, map_map. apply (in_map (fun x => (snd (fst x), _)) oc0 e Hin). }
    rewrite Heq in R2.
    change (finish_sentiment cap (VDict d2) outcomes oc1 total1)
      with (finish_sentiment cap (VDict d1) outcomes oc1 total1) in R2.
    congruence.
Qed.

End TwoOrders.

Lemma order_independence_witness :
  exists r1 r2 log1 log2,
    resolve_market (table_cap tie_table) (VDict (with_replies (VList a_b_a) order_market))
    = (Ok r1, log1) /\
    resolve_market (table_cap tie_table)
      (VDict (with_replies (VList (rev a_b_a)) order_market)) = (Ok r2, log2) /\
    ((is_error r1 = true /\ r2 = r1) \/
     (is_decided r1 = true /\ is_decided r2 = true /\
      field r1 "confidence" = field r2 "confidence" /\
      field r1 "total_analyzed" = field r2 "total_analyzed" /\
      support_view r1 = support_view r2 /\ support_view r1 <> None /\
      Forall2 (fun p1 p2 => fst p1 = fst p2 /\
                            (support_count_of (snd p1) <= 2 -> snd p2 = snd p1))
              (breakdown_of r1) (breakdown_of r2) /\
      (single_leader r1 ->
       field r1 "winning_outcome" = field r2 "winning_outcome" /\
       field r1 "winning_index" = field r2 "winning_index") /\
      (at_most_two_each r1 -> r2 = r1))).
Proof.
  refine (order_independence (table_cap tie_table) order_market [VStr "A"; VStr "B"]
            a_b_a (rev a_b_a) _ _ _ (Permutation_rev a_b_a)); vm_compute; reflexivity.
Defined.

(** In the run of the witness [A] leads alone with two replies and no
    outcome has more than two, so the whole record is the same in both
    orders. *)
Example witness_has_a_single_leader :
  single_leader (result_of (resolve_market (table_cap tie_table)
                              (VDict (with_replies (VList a_b_a) order_market)))) /\
  at_most_two_each (result_of (resolve_market (table_cap tie_table)
                                 (VDict (with_replies (VList a_b_a) order_market)))).
Proof.
  split.
  - exists [], (VStr "A", entry_of {| count := 2; confidence_sum := (c070 + c080)%float |} 3),
           [(VStr "B", entry_of {| count := 1; confidence_sum := c090 |} 3)].
    split; [vm_compute; reflexivity |].
    intros q [<- | []]. vm_compute. reflexivity.
  - intros p Hp. vm_compute in Hp.
    destruct Hp as [<- | [<- | []]]; vm_compute; discriminate.
Qed.

(** C8, as stated, fails where three or more confidences are summed. Both
    outcomes receive the confidences 0.7, 0.8 and 0.9: when [A] receives
    them in rising order and [B] in falling order, the binary64 sums are
    2.4 and 2.4000000000000004 and [B] wins the tie; with the replies of
    each outcome reversed, a permutation of the same replies, [A] wins.
    And three replies for [A] at 0.801, 0.993 and 0.93075 give the
    [avg_confidence] 0.9083 in this order and 0.9082 when the last two
    are exchanged. *)
Lemma reply_order_changes_record :
  Permutation (a_rising ++ b_falling) (rev a_rising ++ rev b_falling) /\
  field (result_of (resolve_market (table_cap tie_table)
           (VDict (with_replies (VList (a_rising ++ b_falling)) order_market))))
        "winning_outcome" = Some (VStr "B") /\
  field (result_of (resolve_market (table_cap tie_table)
           (VDict (with_replies (VList (rev a_rising ++ rev b_falling)) order_market))))
        "winning_outcome" = Some (VStr "A") /\
  Permutation p_q_r p_r_q /\
  map (fun p => (fst p, field (snd p) "avg_confidence"))
      (breakdown_of (result_of (resolve_market (table_cap three_table)
                                  (VDict (with_replies (VList p_q_r) order_market)))))
  = [(VStr "A", Some (VFloat c09083)); (VStr "B", Some (VInt 0))] /\
  map (fun p => (fst p, field (snd p) "avg_confidence"))
      (breakdown_of (result_of (resolve_market (table_cap three_table)
                                  (VDict (with_replies (VList p_r_q) order_market)))))
  = [(VStr "A", Some (VFloat c09082)); (VStr "B", Some (VInt 0))].
Proof.
  split; [exact rising_falling_permutation |].
  split; [vm_compute; reflexivity |]. split; [vm_compute; reflexivity |].
  split.
  - unfold p_q_r, p_r_q. apply perm_skip. apply perm_swap.
  - split; vm_compute; reflexivity.
Qed.

End ReplyOrderLaw.

(** ** Binary64 rounding, in real numbers *)

Module FloatRounding.
Import FloatValue.

Lemma fexp_val (e : Z) : fexp prec emax e = Z.max (e - 53) (-1074).
Proof. reflexivity. Qed.

Lemma Rabs_bounds (x a : R) : (Rabs x <= a -> - a <= x <= a)%R.
Proof. unfold Rabs. destruct (Rcase_abs x); lra. Qed.

(** *** Powers of two *)

Lemma bpow_pos e : (0 < bpow e)%R.
Proof. apply powerRZ_lt. lra. Qed.

Lemma bpow_add a b : bpow (a + b) = (bpow a * bpow b)%R.
Proof. apply powerRZ_add. lra. Qed.

Lemma bpow_IZR n : 0 <= n -> IZR (2 ^ n) = bpow n.
Proof.
  intros H. destruct n as [|p|p]; [reflexivity | | lia].
  unfold bpow, powerRZ. rewrite pow_IZR, positive_nat_Z. reflexivity.
Qed.

Lemma bpow_ge_1 n : 0 <= n -> (1 <= bpow n)%R.
Proof.
  intros H. rewrite <- bpow_IZR by exact H. apply IZR_le.
  assert (0 < 2 ^ n) by (apply Z.pow_pos_nonneg; lia). lia.
Qed.

Lemma bpow_le a b : a <= b -> (bpow a <= bpow b)%R.
Proof.
  intros H. replace b with (a + (b - a)) by lia. rewrite bpow_add.
  pose proof (bpow_ge_1 (b - a) ltac:(lia)). pose proof (bpow_pos a). nra.
Qed.

Lemma bpow_lt a b : a < b -> (bpow a < bpow b)%R.
Proof.
  intros H. replace b with (a + (b - a)) by lia. rewrite bpow_add.
  assert (H1 : (bpow 1 <= bpow (b - a))%R) by (apply bpow_le; lia).
  assert (H2 : bpow 1 = 2%R) by (unfold bpow, powerRZ; simpl; lra).
  pose proof (bpow_pos a). nra.
Qed.

Lemma bpow_lt_inv a b : (bpow a < bpow b)%R -> a < b.
Proof.
  intros H. destruct (Z_lt_le_dec a b) as [L | L]; [exact L |].
  apply bpow_le in L. lra.
Qed.

Lemma bpow_opp n : (bpow (- n) * bpow n = 1)%R.
Proof. rewrite <- bpow_add. replace (- n + n) with 0 by lia. reflexivity. Qed.

Lemma bpow_m52 : (bpow (-52) * bpow 52 = 1)%R.
Proof. exact (bpow_opp 52). Qed.

Lemma bpow_1 : bpow 1 = 2%R.
Proof. unfold bpow, powerRZ. simpl. lra. Qed.

(** *** The number of binary digits *)

Lemma digits2_pos_bounds (m : positive) :
  2 ^ (Zpos (digits2_pos m) - 1) <= Zpos m < 2 ^ Zpos (digits2_pos m).
Proof.
  induction m as [m IH | m IH |]; cbn [digits2_pos].
  - rewrite Pos2Z.inj_succ. replace (Z.succ (Zpos (digits2_pos m)) - 1)
      with (Z.succ (Zpos (digits2_pos m) - 1)) by lia.
    rewrite !Z.pow_succ_r by lia. lia.
  - rewrite Pos2Z.inj_succ. replace (Z.succ (Zpos (digits2_pos m)) - 1)
      with (Z.succ (Zpos (digits2_pos m) - 1)) by lia.
    rewrite !Z.pow_succ_r by lia. lia.
  - cbn. lia.
Qed.

Lemma Zdigits2_bounds (z : Z) :
  0 < z -> 0 < Zdigits2 z /\ 2 ^ (Zdigits2 z - 1) <= z < 2 ^ Zdigits2 z.
Proof.
  destruct z as [|p|p]; try lia. intros _. cbn [Zdigits2].
  split; [lia | apply digits2_pos_bounds].
Qed.

Lemma Zdigits2_nonneg (z : Z) : 0 <= Zdigits2 z.
Proof. destruct z; cbn; lia. Qed.

Lemma Zdigits2_le (z k : Z) : 0 <= z -> 0 <= k -> z < 2 ^ k -> Zdigits2 z <= k.
Proof.
  intros Hz Hk H. destruct (Z.eq_dec z 0) as [-> | Hn]; [cbn; lia |].
  destruct (Zdigits2_bounds z ltac:(lia)) as (Hd & Hl & _).
  assert (Hlt : 2 ^ (Zdigits2 z - 1) < 2 ^ k) by lia.
  apply Z.pow_lt_mono_r_iff in Hlt; lia.
Qed.

Lemma Zdigits2_gt (z k : Z) : 0 <= k -> 2 ^ k <= z -> k < Zdigits2 z.
Proof.
  intros Hk H. assert (0 < 2 ^ k) by (apply Z.pow_pos_nonneg; lia).
  destruct (Zdigits2_bounds z ltac:(lia)) as (Hd & _ & Hu).
  assert (Hlt : 2 ^ k < 2 ^ Zdigits2 z) by lia.
  apply Z.pow_lt_mono_r_iff in Hlt; lia.
Qed.

(** *** Shifting right *)

Lemma shr_1_m (mrs : shr_record) : 0 <= shr_m mrs -> shr_m (shr_1 mrs) = shr_m mrs / 2.
Proof.
  destruct mrs as [m r s]. cbn [shr_m]. intros H. rewrite <- Z.div2_div.
  destruct m as [|[p|p|]|p]; try reflexivity. lia.
Qed.

Lemma iter_pos_shr_1 (p : positive) : forall mrs,
  0 <= shr_m mrs -> shr_m (SpecFloat.iter_pos shr_1 p mrs) = shr_m mrs / 2 ^ Zpos p.
Proof.
  assert (Hdd : forall a b c, 0 < b -> 0 < c -> a / b / c = a / (b * c)).
  { intros. apply Z.div_div; lia. }
  assert (Hp : forall q, 0 < 2 ^ Zpos q) by (intros; apply Z.pow_pos_nonneg; lia).
  induction p as [p IH | p IH |]; intros mrs H; cbn [SpecFloat.iter_pos].
  - pose proof (shr_1_m mrs H) as H1.
    assert (H2 : 0 <= shr_m (shr_1 mrs)) by (rewrite H1; apply Z.div_pos; lia).
    pose proof (IH _ H2) as H3.
    assert (H4 : 0 <= shr_m (SpecFloat.iter_pos shr_1 p (shr_1 mrs)))
      by (rewrite H3; apply Z.div_pos; [lia | apply Hp]).
    rewrite (IH _ H4), H3, H1, !Hdd by (try apply Hp; try lia; pose proof (Hp p); lia).
    f_equal. rewrite Pos2Z.inj_xI, Z.pow_add_r, Z.pow_mul_r, Z.pow_2_r by lia.
    change (2 ^ 1) with 2. change (2 * 2) with 4.
    replace (4 ^ Zpos p) with (2 ^ Zpos p * 2 ^ Zpos p).
    + ring.
    + rewrite <- Z.pow_mul_l. reflexivity.
  - pose proof (IH _ H) as H3.
    assert (H4 : 0 <= shr_m (SpecFloat.iter_pos shr_1 p mrs))
      by (rewrite H3; apply Z.div_pos; [lia | apply Hp]).
    rewrite (IH _ H4), H3, Hdd by apply Hp.
    f_equal. rewrite Pos2Z.inj_xO. rewrite <- Z.pow_add_r by lia. f_equal. lia.
  - rewrite shr_1_m by exact H. reflexivity.
Qed.

Lemma shr_spec (mrs : shr_record) (e n : Z) :
  0 <= shr_m mrs ->
  shr_m (fst (shr mrs e n)) = (if 0 <? n then shr_m mrs / 2 ^ n else shr_m mrs) /\
  snd (shr mrs e n) = (if 0 <? n then e + n else e).
Proof.
  intros H. destruct n as [|p|p]; cbn [shr fst snd]; try (split; reflexivity).
  split; [apply iter_pos_shr_1; exact H | reflexivity].
Qed.

Lemma shr_record_of_loc_m m l : shr_m (shr_record_of_loc m l) = m.
Proof. destruct l as [|[| |]]; reflexivity. Qed.

Lemma round_nearest_even_cases m l :
  round_nearest_even m l = m \/ round_nearest_even m l = m + 1.
Proof.
  destruct l as [|[| |]]; cbn; auto. destruct (Z.even m); auto.
Qed.

(** *** One rounding *)

(** The invariant of a rounded mantissa and exponent. *)
Lemma canonical_of_range (m e : Z) :
  0 < m -> m < 2 ^ 53 -> -1074 <= e -> (m < 2 ^ 52 -> e = -1074) ->
  fexp prec emax (Zdigits2 m + e) = e.
Proof.
  intros Hm Hu He Hs. rewrite fexp_val.
  pose proof (Zdigits2_le m 53 ltac:(lia) ltac:(lia) Hu) as Hd.
  destruct (Z_lt_le_dec m (2 ^ 52)) as [L | L].
  - pose proof (Zdigits2_le m 52 ltac:(lia) ltac:(lia) L). rewrite (Hs L). lia.
  - pose proof (Zdigits2_gt m 52 ltac:(lia) L). lia.
Qed.

Lemma range_of_canonical (m : positive) (e : Z) :
  valid_binary (S754_finite false m e) = true ->
  Zpos m < 2 ^ 53 /\ -1074 <= e <= 971 /\ (Zpos m < 2 ^ 52 -> e = -1074).
Proof.
  cbn [SpecFloat.valid_binary]. unfold SpecFloat.bounded, SpecFloat.canonical_mantissa. rewrite fexp_val.
  intros H. apply andb_prop in H. destruct H as [H1 H2].
  apply Z.eqb_eq in H1. apply Z.leb_le in H2. change (emax - prec) with 971 in H2.
  pose proof (digits2_pos_bounds m) as [Hl Hu].
  assert (Hd : Zpos (digits2_pos m) <= 53) by lia.
  split; [| split; [lia |]].
  - assert (2 ^ Zpos (digits2_pos m) <= 2 ^ 53) by (apply Z.pow_le_mono_r; lia). lia.
  - intros Hs. assert (Hlt : 2 ^ (Zpos (digits2_pos m) - 1) < 2 ^ 52) by lia.
    apply Z.pow_lt_mono_r_iff in Hlt; lia.
Qed.

(** What [binary_round_aux] computes, in arithmetic. *)
Lemma binary_round_aux_shape (sx : bool) (mx ex : Z) (lx : location) :
  0 <= mx ->
  exists m1,
    let n1 := fexp prec emax (Zdigits2 mx + ex) - ex in
    let m0 := if 0 <? n1 then mx / 2 ^ n1 else mx in
    let e1 := if 0 <? n1 then ex + n1 else ex in
    let n2 := fexp prec emax (Zdigits2 m1 + e1) - e1 in
    let m2 := if 0 <? n2 then m1 / 2 ^ n2 else m1 in
    let e2 := if 0 <? n2 then e1 + n2 else e1 in
    (m1 = m0 \/ m1 = m0 + 1) /\
    binary_round_aux prec emax sx mx ex lx
    = match m2 with
      | Z0 => S754_zero sx
      | Zpos m => if e2 <=? 971 then S754_finite sx m e2 else S754_infinity sx
      | Zneg _ => S754_nan
      end.
Proof.
  intros Hmx. unfold binary_round_aux, shr_fexp.
  pose proof (shr_spec (shr_record_of_loc mx lx) ex
                (fexp prec emax (Zdigits2 mx + ex) - ex)) as H1.
  rewrite shr_record_of_loc_m in H1. specialize (H1 Hmx).
  destruct (shr (shr_record_of_loc mx lx) ex (fexp prec emax (Zdigits2 mx + ex) - ex))
    as [mrs1 e1]. cbn [fst snd] in H1. destruct H1 as [Hm1 He1].
  set (m1 := round_nearest_even (shr_m mrs1) (loc_of_shr_record mrs1)).
  exists m1. cbv zeta. rewrite <- Hm1, <- He1.
  split; [apply round_nearest_even_cases |].
  assert (H0 : 0 <= shr_m mrs1).
  { rewrite Hm1. destruct (0 <? _) eqn:E; [| exact Hmx].
    apply Z.ltb_lt in E. apply Z.div_pos; [exact Hmx | apply Z.pow_pos_nonneg; lia]. }
  assert (Hm1' : 0 <= m1).
  { destruct (round_nearest_even_cases (shr_m mrs1) (loc_of_shr_record mrs1)) as [E | E];
      unfold m1; rewrite E; lia. }
  pose proof (shr_spec (shr_record_of_loc m1 loc_Exact) e1
                (fexp prec emax (Zdigits2 m1 + e1) - e1)) as H2.
  rewrite shr_record_of_loc_m in H2. specialize (H2 Hm1').
  destruct (shr (shr_record_of_loc m1 loc_Exact) e1 (fexp prec emax (Zdigits2 m1 + e1) - e1))
    as [mrs2 e2]. cbn [fst snd] in H2. destruct H2 as [Hm2 He2].
  rewrite <- Hm2, <- He2. reflexivity.
Qed.

(** One rounding of the real [x], given by a mantissa [mx] with
    [mx * 2^ex <= x <= (mx + 1) * 2^ex] that is not finer than binary64
    allows: the result is a valid number of the given sign, away from [x]
    by at most the rounding slack. *)
Lemma binary_round_aux_spec (sx : bool) (mx ex : Z) (lx : location) (x : R) :
  0 <= mx ->
  ex <= fexp prec emax (Zdigits2 mx + ex) ->
  (IZR mx * bpow ex <= x <= IZR (mx + 1) * bpow ex)%R ->
  (x < bpow 1000)%R ->
  exists v,
    valid_binary (binary_round_aux prec emax sx mx ex lx) = true /\
    (binary_round_aux prec emax sx mx ex lx = S754_zero sx \/
     exists m e, binary_round_aux prec emax sx mx ex lx = S754_finite sx m e) /\
    SFval (binary_round_aux prec emax sx mx ex lx) = (if sx then - v else v)%R /\
    (0 <= v)%R /\ (Rabs (v - x) <= rounding_slack x)%R.
Proof.
  intros Hmx Hpre Hx Hbig.
  destruct (binary_round_aux_shape sx mx ex lx Hmx) as (m1 & Hm1 & Hshape).
  cbv zeta in Hm1, Hshape. rewrite Hshape. clear Hshape.
  rewrite !fexp_val in *.
  set (d := Zdigits2 mx) in *.
  set (n1 := Z.max (d + ex - 53) (-1074) - ex) in *.
  set (m0 := if 0 <? n1 then mx / 2 ^ n1 else mx) in *.
  set (e1 := if 0 <? n1 then ex + n1 else ex) in *.
  assert (Hd0 : 0 <= d) by apply Zdigits2_nonneg.
  assert (Hn1 : 0 <= n1) by (unfold n1; lia).
  assert (He1 : e1 = ex + n1).
  { unfold e1. destruct (0 <? n1) eqn:E; [reflexivity |]. apply Z.ltb_ge in E. lia. }
  assert (Hp1 : 0 < 2 ^ n1) by (apply Z.pow_pos_nonneg; lia).
  assert (Hm0 : m0 = mx / 2 ^ n1).
  { unfold m0. destruct (0 <? n1) eqn:E; [reflexivity |]. apply Z.ltb_ge in E.
    replace n1 with 0 by lia. rewrite Z.div_1_r. reflexivity. }
  clearbody m0 e1.
  assert (Hdiv : 2 ^ n1 * m0 <= mx < 2 ^ n1 * (m0 + 1)).
  { rewrite Hm0. pose proof (Z.mul_div_le mx (2 ^ n1) Hp1).
    pose proof (Z.mul_succ_div_gt mx (2 ^ n1) Hp1). lia. }
  assert (Hm0nn : 0 <= m0) by (rewrite Hm0; apply Z.div_pos; lia).
  assert (Hemin : -1074 <= e1) by (unfold n1 in *; lia).
  (* the mantissa after the first shift is in range *)
  assert (Hrange : m0 < 2 ^ 53 /\ (m0 < 2 ^ 52 -> e1 = -1074)).
  { destruct (Z.eq_dec mx 0) as [Hz | Hnz].
    - assert (m0 = 0) by nia. subst m0. split; [lia |]. intros _.
      unfold n1, d in *. rewrite Hz in *. cbn [Zdigits2] in *. lia.
    - destruct (Zdigits2_bounds mx ltac:(lia)) as (Hdp & Hdl & Hdu). fold d in Hdp, Hdl, Hdu.
      split.
      + assert (Hle : d <= 53 + n1) by (unfold n1; lia).
        assert (2 ^ d <= 2 ^ (53 + n1)) by (apply Z.pow_le_mono_r; lia).
        rewrite Z.pow_add_r in H by lia. nia.
      + intros Hs. destruct (Z.eq_dec e1 (-1074)) as [E | E]; [exact E | exfalso].
        assert (Hn : n1 = d - 53) by (unfold n1 in *; lia).
        assert (Hpow : 2 ^ (d - 1) = 2 ^ 52 * 2 ^ n1).
        { rewrite <- Z.pow_add_r by lia. f_equal. lia. }
        nia. }
  destruct Hrange as [Hu0 Hs0].
  (* the real is between the two candidates *)
  assert (Hb : (bpow e1 = bpow ex * IZR (2 ^ n1))%R).
  { rewrite He1, bpow_add, bpow_IZR by lia. reflexivity. }
  assert (Hx0 : (IZR m0 * bpow e1 <= x <= IZR (m0 + 1) * bpow e1)%R).
  { rewrite Hb. pose proof (bpow_pos ex) as Hpe.
    assert (A1 : (IZR (2 ^ n1) * IZR m0 <= IZR mx)%R)
      by (rewrite <- mult_IZR; apply IZR_le; lia).
    assert (A2 : (IZR (mx + 1) <= IZR (2 ^ n1) * IZR (m0 + 1))%R)
      by (rewrite <- mult_IZR; apply IZR_le; lia).
    split; [apply Rle_trans with (IZR mx * bpow ex)%R; [nra | lra]
           | apply Rle_trans with (IZR (mx + 1) * bpow ex)%R; [lra | nra]]. }
  assert (Hxnn : (0 <= x)%R).
  { pose proof (bpow_pos e1). assert (0 <= IZR m0)%R by (apply IZR_le; lia). nra. }
  (* the slack covers one unit in the last place *)
  assert (Hulp : (bpow e1 <= rounding_slack x)%R).
  { unfold rounding_slack. rewrite (Rabs_pos_eq x Hxnn).
    destruct (Z_lt_le_dec m0 (2 ^ 52)) as [L | L].
    - rewrite (Hs0 L). pose proof (bpow_pos (-52)). nra.
    - assert (A : (bpow 52 * bpow e1 <= x)%R).
      { rewrite <- bpow_IZR by lia. pose proof (bpow_pos e1).
        assert (IZR (2 ^ 52) <= IZR m0)%R by (apply IZR_le; lia). nra. }
      pose proof (bpow_pos (-52)) as P52. pose proof (bpow_pos (-1074)).
      assert (B : (bpow (-52) * (bpow 52 * bpow e1) <= bpow (-52) * x)%R)
        by (apply Rmult_le_compat_l; lra).
      rewrite <- Rmult_assoc, bpow_m52, Rmult_1_l in B. lra. }
  (* no overflow *)
  assert (Hexp : e1 = -1074 \/ e1 < 948).
  { destruct (Z_lt_le_dec m0 (2 ^ 52)) as [L | L]; [left; auto | right].
    assert (A : (bpow (52 + e1) <= x)%R).
    { rewrite bpow_add, <- bpow_IZR by lia. pose proof (bpow_pos e1).
      assert (IZR (2 ^ 52) <= IZR m0)%R by (apply IZR_le; lia). nra. }
    assert (bpow (52 + e1) < bpow 1000)%R by lra. apply bpow_lt_inv in H. lia. }
  assert (Hcases : (0 <= m1 < 2 ^ 53 /\ (m1 < 2 ^ 52 -> e1 = -1074)) \/ m1 = 2 ^ 53).
  { destruct Hm1 as [-> | ->]; [left; lia |].
    destruct (Z.eq_dec (m0 + 1) (2 ^ 53)) as [E | E]; [right; exact E | left].
    split; [lia |]. intros H. apply Hs0. lia. }
  assert (Hv1 : (Rabs (IZR m1 * bpow e1 - x) <= rounding_slack x)%R).
  { apply Rle_trans with (bpow e1); [| exact Hulp]. pose proof (bpow_pos e1).
    pose proof Hx0 as Hx1. rewrite plus_IZR in Hx1.
    apply Rabs_le. destruct Hm1 as [-> | ->]; [| rewrite plus_IZR]; lra. }
  assert (Hm1nn : (0 <= IZR m1 * bpow e1)%R).
  { pose proof (bpow_pos e1). assert (0 <= IZR m1)%R by (apply IZR_le; lia). nra. }
  exists (IZR m1 * bpow e1)%R.
  destruct Hcases as [[Hr1 Hs1] | Hbig1].
  - (* no second shift *)
    destruct (Z.eq_dec m1 0) as [-> | Hnz].
    + cbn [Zdigits2 Z.add].
      assert (E : (0 <? Z.max (e1 - 53) (-1074) - e1) = false) by (apply Z.ltb_ge; lia).
      rewrite E. cbn [SpecFloat.valid_binary SFval].
      split; [reflexivity |]. split; [left; reflexivity |].
      split; [destruct sx; lra |]. split; [exact Hm1nn | exact Hv1].
    + assert (Hcan := canonical_of_range m1 e1 ltac:(lia) ltac:(lia) Hemin Hs1).
      rewrite fexp_val in Hcan. rewrite Hcan, Z.sub_diag. cbn [Z.ltb Z.compare].
      destruct m1 as [|p|p]; try lia.
      assert (E : (e1 <=? 971) = true) by (apply Z.leb_le; lia). rewrite E.
      split; [| split; [right; eauto |]].
      * cbn [SpecFloat.valid_binary]. unfold SpecFloat.bounded, SpecFloat.canonical_mantissa.
        rewrite fexp_val. cbn [Zdigits2] in Hcan. rewrite Hcan, Z.eqb_refl. apply Z.leb_le.
        change (emax - prec) with 971. lia.
      * cbn [SFval]. split; [destruct sx; lra |]. split; [exact Hm1nn | exact Hv1].
  - (* the mantissa has reached 2^53 and is halved *)
    subst m1. change (Zdigits2 (2 ^ 53)) with 54.
    replace (Z.max (54 + e1 - 53) (-1074) - e1) with 1 by lia.
    cbn [Z.ltb Z.compare]. change (2 ^ 53 / 2 ^ 1) with (Zpos (Z.to_pos (2 ^ 52))).
    assert (E : (e1 + 1 <=? 971) = true) by (apply Z.leb_le; lia). rewrite E.
    split; [| split; [right; eauto |]].
    + cbn [SpecFloat.valid_binary]. unfold SpecFloat.bounded, SpecFloat.canonical_mantissa.
      rewrite fexp_val.
      change (Zpos (digits2_pos (Z.to_pos (2 ^ 52)))) with 53.
      replace (Z.max (53 + (e1 + 1) - 53) (-1074)) with (e1 + 1) by lia.
      rewrite Z.eqb_refl. apply Z.leb_le. change (emax - prec) with 971. lia.
    + assert (Hsame : (IZR (Zpos (Z.to_pos (2 ^ 52))) * bpow (e1 + 1)
                       = IZR (2 ^ 53) * bpow e1)%R).
      { rewrite bpow_add, bpow_1. change (Zpos (Z.to_pos (2 ^ 52))) with (2 ^ 52).
        change (2 ^ 53) with (2 * 2 ^ 52). rewrite mult_IZR. lra. }
      cbn [SFval]. split; [destruct sx; lra |]. split; [exact Hm1nn | exact Hv1].
Qed.

(** *** Division of two positive integers *)

Lemma div_core_spec (p q : positive) :
  exists Q e' loc,
    SFdiv_core_binary prec emax (Zpos p) 0 (Zpos q) 0 = (Q, e', loc) /\
    0 <= Q /\ e' <= fexp prec emax (Zdigits2 Q + e') /\
    (IZR Q * bpow e' <= IZR (Zpos p) / IZR (Zpos q) <= IZR (Q + 1) * bpow e')%R.
Proof.
  unfold SFdiv_core_binary. rewrite !fexp_val.
  destruct (Zdigits2_bounds (Zpos p) ltac:(lia)) as (Hd1 & Hl1 & Hu1).
  destruct (Zdigits2_bounds (Zpos q) ltac:(lia)) as (Hd2 & Hl2 & Hu2).
  set (d1 := Zdigits2 (Zpos p)) in *. set (d2 := Zdigits2 (Zpos q)) in *.
  set (e' := Z.min (Z.max (d1 + 0 - (d2 + 0) - 53) (-1074)) (0 - 0)).
  set (s := 0 - 0 - e').
  assert (Hs : 0 <= s) by (unfold s, e'; lia).
  set (m' := match s with Zpos _ => Z.shiftl (Zpos p) s | Z0 => Zpos p | Zneg _ => 0 end).
  assert (Hm' : m' = Zpos p * 2 ^ s).
  { unfold m'. destruct s as [|k|k]; [cbn; lia | apply Z.shiftl_mul_pow2; lia | lia]. }
  clearbody m'.
  pose proof (Z_div_mod m' (Zpos q) ltac:(lia)) as Hdm.
  destruct (Z.div_eucl m' (Zpos q)) as [Q r]. destruct Hdm as [Hdm Hr].
  exists Q, e', (new_location (Zpos q) r). split; [reflexivity |].
  assert (Hps : 0 < 2 ^ s) by (apply Z.pow_pos_nonneg; lia).
  assert (HQ : 0 <= Q) by nia.
  split; [exact HQ |]. split.
  - rewrite fexp_val. destruct (Z.eq_dec e' (-1074)) as [E | E]; [lia |].
    assert (Hbig : 2 ^ 52 * 2 ^ d2 <= m').
    { rewrite Hm', <- Z.pow_add_r by lia.
      apply Z.le_trans with (2 ^ (d1 - 1) * 2 ^ s); [| nia].
      rewrite <- Z.pow_add_r by lia. apply Z.pow_le_mono_r; [lia |]. unfold s, e' in *. lia. }
    assert (HQ52 : 2 ^ 52 <= Q) by nia.
    pose proof (Zdigits2_gt Q 52 ltac:(lia) HQ52). lia.
  - assert (Hbe : (bpow e' * IZR (2 ^ s) = 1)%R).
    { rewrite bpow_IZR by lia. replace e' with (- s) by (unfold s; lia). apply bpow_opp. }
    assert (Hq : (0 < IZR (Zpos q))%R) by (apply IZR_lt; lia).
    assert (Hm'R : (IZR m' = IZR (Zpos p) * IZR (2 ^ s))%R) by (rewrite Hm', mult_IZR; ring).
    assert (HdR : (IZR m' = IZR (Zpos q) * IZR Q + IZR r)%R)
      by (rewrite Hdm, plus_IZR, mult_IZR; ring).
    assert (Hr0 : (0 <= IZR r)%R) by (apply IZR_le; lia).
    assert (Hr1 : (IZR r < IZR (Zpos q))%R) by (apply IZR_lt; lia).
    pose proof (bpow_pos e') as Hbp.
    assert (Hpq : (IZR (Zpos p) / IZR (Zpos q) = IZR m' / IZR (Zpos q) * bpow e')%R).
    { rewrite Hm'R. field_simplify_eq; [| lra]. rewrite Rmult_assoc, (Rmult_comm (IZR (2 ^ s))), Hbe.
      ring. }
    rewrite Hpq, plus_IZR.
    assert (A1 : (IZR Q <= IZR m' / IZR (Zpos q))%R).
    { apply Rmult_le_reg_r with (IZR (Zpos q)); [exact Hq |]. field_simplify; [| lra]. nra. }
    assert (A2 : (IZR m' / IZR (Zpos q) <= IZR Q + 1)%R).
    { apply Rmult_le_reg_r with (IZR (Zpos q)); [exact Hq |]. field_simplify; [| lra]. nra. }
    split; apply Rmult_le_compat_r; lra.
Qed.

Lemma ratio_spec (p q : positive) :
  (IZR (Zpos p) / IZR (Zpos q) < bpow 1000)%R ->
  nonneg_number (Prim2SF (F64.ratio p q)) = true /\
  (Rabs (SFval (Prim2SF (F64.ratio p q)) - IZR (Zpos p) / IZR (Zpos q))
   <= rounding_slack (IZR (Zpos p) / IZR (Zpos q)))%R.
Proof.
  intros Hbig. unfold F64.ratio.
  destruct (div_core_spec p q) as (Q & e' & loc & -> & HQ & Hpre & Hx).
  destruct (binary_round_aux_spec false Q e' loc _ HQ Hpre Hx Hbig)
    as (v & Hvalid & Hshape & Hval & Hv & Herr).
  rewrite (Prim2SF_SF2Prim _ Hvalid), Hval.
  split; [| exact Herr].
  destruct Hshape as [-> | (m & e & ->)]; reflexivity.
Qed.

(** *** Aligning mantissas *)

Lemma pos_iter_xO (m d : positive) : Zpos (Pos.iter xO m d) = Zpos m * 2 ^ Zpos d.
Proof.
  induction d as [|d IH] using Pos.peano_ind.
  - cbn. lia.
  - rewrite Pos.iter_succ, Pos2Z.inj_xO, IH, Pos2Z.inj_succ, Z.pow_succ_r by lia. ring.
Qed.

Lemma shl_align_spec (m : positive) (e e' : Z) :
  snd (shl_align m e e') = Z.min e e' /\
  Zpos (fst (shl_align m e e')) = Zpos m * 2 ^ (e - snd (shl_align m e e')).
Proof.
  unfold shl_align. destruct (e' - e) as [|k|k] eqn:E; cbn [fst snd].
  - split; [lia |]. rewrite Z.sub_diag. cbn. lia.
  - split; [lia |]. rewrite Z.sub_diag. cbn. lia.
  - split; [lia |]. rewrite pos_iter_xO. f_equal. f_equal. lia.
Qed.

Lemma shl_align_value (m : positive) (e e' : Z) :
  (IZR (Zpos (fst (shl_align m e e'))) * bpow (snd (shl_align m e e'))
   = IZR (Zpos m) * bpow e)%R.
Proof.
  destruct (shl_align_spec m e e') as [H1 H2]. rewrite H2, mult_IZR, bpow_IZR by lia.
  rewrite Rmult_assoc, <- bpow_add. f_equal. f_equal. lia.
Qed.

Lemma Zdigits2_shift (m k : Z) : 0 < m -> 0 <= k -> Zdigits2 (m * 2 ^ k) = Zdigits2 m + k.
Proof.
  intros Hm Hk. destruct (Zdigits2_bounds m Hm) as (Hd & Hl & Hu).
  assert (Hp : 0 < 2 ^ k) by (apply Z.pow_pos_nonneg; lia).
  assert (H1 : 2 ^ (Zdigits2 m - 1 + k) <= m * 2 ^ k) by (rewrite Z.pow_add_r by lia; nia).
  assert (H2 : m * 2 ^ k < 2 ^ (Zdigits2 m + k)) by (rewrite Z.pow_add_r by lia; nia).
  pose proof (Zdigits2_gt (m * 2 ^ k) (Zdigits2 m - 1 + k) ltac:(lia) H1).
  pose proof (Zdigits2_le (m * 2 ^ k) (Zdigits2 m + k) ltac:(nia) ltac:(lia) H2). lia.
Qed.

(** One rounding of a positive integer multiple of a power of two. *)
Lemma binary_round_spec (sx : bool) (m : positive) (e : Z) :
  (IZR (Zpos m) * bpow e < bpow 1000)%R ->
  exists v,
    valid_binary (binary_round prec emax sx m e) = true /\
    (binary_round prec emax sx m e = S754_zero sx \/
     exists m' e', binary_round prec emax sx m e = S754_finite sx m' e') /\
    SFval (binary_round prec emax sx m e) = (if sx then - v else v)%R /\
    (0 <= v)%R /\
    (Rabs (v - IZR (Zpos m) * bpow e) <= rounding_slack (IZR (Zpos m) * bpow e))%R.
Proof.
  intros Hbig. unfold binary_round.
  pose proof (shl_align_spec m e (fexp prec emax (Zpos (digits2_pos m) + e))) as [H1 H2].
  pose proof (shl_align_value m e (fexp prec emax (Zpos (digits2_pos m) + e))) as H3.
  destruct (shl_align m e (fexp prec emax (Zpos (digits2_pos m) + e))) as [mz ez].
  cbn [fst snd] in *.
  apply binary_round_aux_spec.
  - lia.
  - rewrite H2, Zdigits2_shift by lia. cbn [Zdigits2].
    replace (Zpos (digits2_pos m) + (e - ez) + ez) with (Zpos (digits2_pos m) + e) by lia.
    lia.
  - rewrite plus_IZR, <- H3. pose proof (bpow_pos ez). split; nra.
  - exact Hbig.
Qed.

(** *** Numbers and their values *)

Lemma nonneg_number_cases (f : spec_float) :
  nonneg_number f = true ->
  f = S754_zero false \/ exists m e, f = S754_finite false m e.
Proof.
  destruct f as [[|] | [|] | | [|] m e]; cbn; try discriminate; eauto.
Qed.

Lemma SFval_nonneg (f : spec_float) : nonneg_number f = true -> (0 <= SFval f)%R.
Proof.
  intros H. destruct (nonneg_number_cases f H) as [-> | (m & e & ->)]; cbn [SFval]; [lra |].
  pose proof (bpow_pos e). assert (0 < IZR (Zpos m))%R by (apply IZR_lt; lia). nra.
Qed.

Lemma rounding_slack_nonneg (x : R) : (0 <= rounding_slack x)%R.
Proof.
  unfold rounding_slack. pose proof (Rabs_pos x). pose proof (bpow_pos (-52)).
  pose proof (bpow_pos (-1074)). nra.
Qed.

Lemma rounding_slack_le (x y : R) :
  (Rabs x <= y)%R -> (rounding_slack x <= bpow (-52) * y + bpow (-1074))%R.
Proof. intros H. unfold rounding_slack. pose proof (bpow_pos (-52)). nra. Qed.

(** *** Multiplication by 100.0 *)

Lemma hundred_datum : Prim2SF (F64.Z2float 100) = S754_finite false 7036874417766400 (-46).
Proof. vm_compute. reflexivity. Qed.

Lemma hundred_value : (IZR 7036874417766400 * bpow (-46) = 100)%R.
Proof.
  assert (H : (bpow (-46) * IZR (2 ^ 46) = 1)%R).
  { rewrite bpow_IZR by lia. exact (bpow_opp 46). }
  change (2 ^ 46) with 70368744177664 in H.
  replace 7036874417766400%R with (100 * 70368744177664)%R by lra. lra.
Qed.

Lemma times_100_spec (x : float) :
  nonneg_number (Prim2SF x) = true ->
  (SFval (Prim2SF x) < bpow 900)%R ->
  nonneg_number (Prim2SF (x * F64.Z2float 100)) = true /\
  (Rabs (SFval (Prim2SF (x * F64.Z2float 100)) - 100 * SFval (Prim2SF x))
   <= rounding_slack (100 * SFval (Prim2SF x)))%R.
Proof.
  intros Hx Hbig. rewrite mul_spec, hundred_datum. unfold SF64mul.
  pose proof (Prim2SF_valid x) as Hvalid.
  destruct (nonneg_number_cases _ Hx) as [E | (m & e & E)]; rewrite E in *.
  - cbn [SFmul xorb SFval nonneg_number]. split; [reflexivity |].
    rewrite Rmult_0_r, Rminus_diag, Rabs_R0. apply rounding_slack_nonneg.
  - cbn [SFmul xorb SFval] in *.
    assert (Hval : (IZR (Zpos (m * 7036874417766400)) * bpow (e + -46)
                    = 100 * (1 * IZR (Zpos m) * bpow e))%R).
    { rewrite Pos2Z.inj_mul, mult_IZR, bpow_add, <- hundred_value. ring. }
    destruct (binary_round_aux_spec false (Zpos (m * 7036874417766400)) (e + -46) loc_Exact
                (100 * (1 * IZR (Zpos m) * bpow e))%R) as (v & _ & Hshape & Hv & _ & Herr).
    + lia.
    + rewrite fexp_val.
      assert (H52 : 2 ^ 52 <= Zpos (m * 7036874417766400)).
      { rewrite Pos2Z.inj_mul. change (2 ^ 52) with 4503599627370496. lia. }
      pose proof (Zdigits2_gt _ 52 ltac:(lia) H52). lia.
    + rewrite plus_IZR, Hval. pose proof (bpow_pos (e + -46)). split; nra.
    + assert (H : (bpow 900 * 128 <= bpow 1000)%R).
      { replace 128%R with (bpow 7) by (rewrite <- bpow_IZR by lia; reflexivity).
        rewrite <- bpow_add. apply bpow_le. lia. }
      pose proof (bpow_pos 900). nra.
    + rewrite Hv. split; [| exact Herr].
      destruct Hshape as [-> | (m' & e' & ->)]; reflexivity.
Qed.

(** *** Rounding to two decimals *)

Lemma round_half_even_spec (n d : Z) :
  0 <= n -> 0 < d ->
  0 <= F64.round_half_even n d /\
  - d <= 2 * (F64.round_half_even n d * d - n) <= d.
Proof.
  intros Hn Hd. unfold F64.round_half_even.
  pose proof (Z.div_mod n d ltac:(lia)) as Hdm.
  pose proof (Z.mod_pos_bound n d Hd) as Hr.
  assert (Hq : 0 <= n / d) by (apply Z.div_pos; lia).
  destruct (Z.compare_spec (2 * (n mod d)) d) as [E | E | E];
    [destruct (Z.even (n / d)) |  |]; split; nia.
Qed.

Lemma scaled_round_spec (m : positive) (e : Z) :
  0 <= F64.scaled_round m e 2 /\
  (Rabs (IZR (F64.scaled_round m e 2) - 100 * (IZR (Zpos m) * bpow e)) <= / 2)%R.
Proof.
  unfold F64.scaled_round. change (10 ^ 2) with 100.
  destruct (0 <=? e) eqn:E.
  - apply Z.leb_le in E. split; [assert (0 < 2 ^ e) by (apply Z.pow_pos_nonneg; lia); nia |].
    rewrite !mult_IZR, bpow_IZR by lia.
    replace (IZR (Zpos m) * bpow e * 100 - 100 * (IZR (Zpos m) * bpow e))%R with 0%R by ring.
    rewrite Rabs_R0. lra.
  - apply Z.leb_gt in E.
    assert (Hd : 0 < 2 ^ (- e)) by (apply Z.pow_pos_nonneg; lia).
    destruct (round_half_even_spec (Zpos m * 100) (2 ^ (- e)) ltac:(lia) Hd) as [H0 H1].
    split; [exact H0 |].
    set (k := F64.round_half_even (Zpos m * 100) (2 ^ (- e))) in *.
    assert (Hb : (bpow e * IZR (2 ^ (- e)) = 1)%R).
    { rewrite bpow_IZR by lia. rewrite <- bpow_add. replace (e + - e) with 0 by lia.
      reflexivity. }
    assert (Hdr : (0 < IZR (2 ^ (- e)))%R) by (apply IZR_lt; lia).
    assert (A1 : (- IZR (2 ^ (- e)) <= 2 * (IZR k * IZR (2 ^ (- e)) - IZR (Zpos m) * 100))%R).
    { rewrite <- !mult_IZR, <- minus_IZR, <- mult_IZR, <- opp_IZR. apply IZR_le. lia. }
    assert (A2 : (2 * (IZR k * IZR (2 ^ (- e)) - IZR (Zpos m) * 100) <= IZR (2 ^ (- e)))%R).
    { rewrite <- !mult_IZR, <- minus_IZR, <- mult_IZR. apply IZR_le. lia. }
    pose proof (bpow_pos e) as Hbe.
    set (D := IZR (2 ^ (- e))) in *. set (b := bpow e) in *.
    assert (Hinv : (IZR (Zpos m) * 100 = IZR (Zpos m) * 100 * (b * D))%R) by (rewrite Hb; ring).
    apply Rabs_le.
    assert (A3 : (- (D * b) <= 2 * (IZR k * D - IZR (Zpos m) * 100) * b)%R) by nra.
    assert (A4 : (2 * (IZR k * D - IZR (Zpos m) * 100) * b <= D * b)%R) by nra.
    replace (D * b)%R with 1%R in A3, A4 by (rewrite <- Hb; ring).
    replace (2 * (IZR k * D - IZR (Zpos m) * 100) * b)%R
      with (2 * (IZR k * (b * D) - 100 * (IZR (Zpos m) * b)))%R in A3, A4 by ring.
    rewrite Hb in A3, A4. split; lra.
Qed.

Lemma py_round_2_spec (x : float) :
  nonneg_number (Prim2SF x) = true ->
  (SFval (Prim2SF x) <= 1000)%R ->
  nonneg_number (Prim2SF (F64.py_round x 2)) = true /\
  (Rabs (SFval (Prim2SF (F64.py_round x 2)) - SFval (Prim2SF x))
   <= / 200 + (bpow (-52) * 1001 + bpow (-1074)))%R.
Proof.
  intros Hx Hbig. unfold F64.py_round.
  pose proof (bpow_pos (-52)) as P52. pose proof (bpow_pos (-1074)) as P1074.
  destruct (nonneg_number_cases _ Hx) as [E | (m & e & E)]; rewrite E in *.
  - rewrite E. cbn [SFval nonneg_number]. split; [reflexivity |].
    rewrite Rminus_diag, Rabs_R0. lra.
  - destruct (scaled_round_spec m e) as [Hk0 Hk]. cbn [SFval] in *.
    apply Rabs_bounds in Hk.
    destruct (F64.scaled_round m e 2) as [|n|n] eqn:K; try lia.
    + change (Prim2SF 0) with (S754_zero false). cbn [SFval nonneg_number].
      split; [reflexivity |]. apply Rabs_le. lra.
    + change (Z.to_pos (10 ^ 2)) with 100%positive.
      assert (Hq : (IZR (Zpos n) / IZR 100 <= 1001)%R) by lra.
      assert (Hq0 : (0 <= IZR (Zpos n) / IZR 100)%R).
      { assert (0 < IZR (Zpos n))%R by (apply IZR_lt; lia). lra. }
      destruct (ratio_spec n 100) as [Hnn Herr].
      * assert (H : (1024 <= bpow 1000)%R).
        { replace 1024%R with (bpow 10) by (rewrite <- bpow_IZR by lia; reflexivity).
          apply bpow_le. lia. }
        lra.
      * split; [exact Hnn |].
        pose proof (rounding_slack_le (IZR (Zpos n) / IZR 100) 1001
                      ltac:(rewrite Rabs_pos_eq; lra)) as Hs.
        apply Rabs_bounds in Herr. apply Rabs_le. lra.
Qed.

(** *** Addition of non-negative numbers *)

Lemma add_zero_r (a b : float) :
  nonneg_number (Prim2SF a) = true -> Prim2SF b = S754_zero false ->
  Prim2SF (a + b) = Prim2SF a.
Proof.
  intros Ha Hb. rewrite add_spec, Hb. unfold SF64add.
  destruct (nonneg_number_cases _ Ha) as [-> | (m & e & ->)]; reflexivity.
Qed.

Lemma add_nonneg_spec (a b : float) :
  nonneg_number (Prim2SF a) = true -> nonneg_number (Prim2SF b) = true ->
  (SFval (Prim2SF a) + SFval (Prim2SF b) < bpow 1000)%R ->
  nonneg_number (Prim2SF (a + b)) = true /\
  (Rabs (SFval (Prim2SF (a + b)) - (SFval (Prim2SF a) + SFval (Prim2SF b)))
   <= rounding_slack (SFval (Prim2SF a) + SFval (Prim2SF b)))%R.
Proof.
  intros Ha Hb Hbig. rewrite add_spec. unfold SF64add.
  assert (Hexact : forall f g : spec_float, nonneg_number f = true ->
            (Rabs (SFval f - (SFval f + SFval g)) <= rounding_slack (SFval f + SFval g) ->
             nonneg_number f = true /\
             Rabs (SFval f - (SFval f + SFval g)) <= rounding_slack (SFval f + SFval g))%R)
    by (intros; split; assumption).
  destruct (nonneg_number_cases _ Ha) as [Ea | (ma & ea & Ea)];
    destruct (nonneg_number_cases _ Hb) as [Eb | (mb & eb & Eb)]; rewrite Ea, Eb in *.
  - cbn [SFadd SFval nonneg_number]. split; [reflexivity |].
    rewrite Rplus_0_r, Rminus_diag, Rabs_R0. apply rounding_slack_nonneg.
  - cbn [SFadd SFval nonneg_number]. split; [reflexivity |].
    rewrite Rplus_0_l, Rminus_diag, Rabs_R0. apply rounding_slack_nonneg.
  - cbn [SFadd SFval nonneg_number]. split; [reflexivity |].
    rewrite Rplus_0_r, Rminus_diag, Rabs_R0. apply rounding_slack_nonneg.
  - cbn [SFadd cond_Zopp Z.add binary_normalize SFval] in *.
    pose proof (shl_align_spec ma ea (Z.min ea eb)) as [A1 _].
    pose proof (shl_align_spec mb eb (Z.min ea eb)) as [B1 _].
    pose proof (shl_align_value ma ea (Z.min ea eb)) as A2.
    pose proof (shl_align_value mb eb (Z.min ea eb)) as B2.
    rewrite A1 in A2. rewrite B1 in B2.
    replace (Z.min ea (Z.min ea eb)) with (Z.min ea eb) in A2 by lia.
    replace (Z.min eb (Z.min ea eb)) with (Z.min ea eb) in B2 by lia.
    set (pa := fst (shl_align ma ea (Z.min ea eb))) in *.
    set (pb := fst (shl_align mb eb (Z.min ea eb))) in *.
    assert (Hsum : (IZR (Zpos (pa + pb)) * bpow (Z.min ea eb)
                    = 1 * IZR (Zpos ma) * bpow ea + 1 * IZR (Zpos mb) * bpow eb)%R).
    { rewrite Pos2Z.inj_add, plus_IZR. lra. }
    destruct (binary_round_spec false (pa + pb) (Z.min ea eb)) as (v & _ & Hshape & Hv & _ & Herr).
    + rewrite Hsum. exact Hbig.
    + rewrite Hv. rewrite Hsum in Herr. split; [| exact Herr].
      destruct Hshape as [-> | (m' & e' & ->)]; reflexivity.
Qed.

(** *** Subtraction of a positive number *)

Lemma sub_spec_finite (a b : float) (mb : positive) (eb : Z) :
  nonneg_number (Prim2SF a) = true -> Prim2SF b = S754_finite false mb eb ->
  (SFval (Prim2SF a) < bpow 999)%R -> (SFval (Prim2SF b) < bpow 999)%R ->
  finite_number (Prim2SF (a - b)) = true /\
  (Rabs (SFval (Prim2SF (a - b)) - (SFval (Prim2SF a) - SFval (Prim2SF b)))
   <= rounding_slack (SFval (Prim2SF a) - SFval (Prim2SF b)))%R.
Proof.
  intros Ha Eb Hbiga Hbigb. rewrite sub_spec. unfold SF64sub.
  pose proof (SFval_nonneg _ Ha) as Hann.
  assert (Hbnn : (0 < SFval (Prim2SF b))%R).
  { rewrite Eb. cbn [SFval]. pose proof (bpow_pos eb).
    assert (0 < IZR (Zpos mb))%R by (apply IZR_lt; lia). nra. }
  assert (H1000 : (bpow 999 <= bpow 1000)%R) by (apply bpow_le; lia).
  destruct (nonneg_number_cases _ Ha) as [Ea | (ma & ea & Ea)]; rewrite Ea, Eb in *.
  - cbn [SFsub negb SFval finite_number]. split; [reflexivity |].
    replace (-1 * IZR (Zpos mb) * bpow eb - (0 - 1 * IZR (Zpos mb) * bpow eb))%R with 0%R by ring.
    rewrite Rabs_R0. apply rounding_slack_nonneg.
  - cbn [SFsub cond_Zopp SFval] in *.
    pose proof (shl_align_spec ma ea (Z.min ea eb)) as [A1 _].
    pose proof (shl_align_spec mb eb (Z.min ea eb)) as [B1 _].
    pose proof (shl_align_value ma ea (Z.min ea eb)) as A2.
    pose proof (shl_align_value mb eb (Z.min ea eb)) as B2.
    rewrite A1 in A2. rewrite B1 in B2.
    replace (Z.min ea (Z.min ea eb)) with (Z.min ea eb) in A2 by lia.
    replace (Z.min eb (Z.min ea eb)) with (Z.min ea eb) in B2 by lia.
    set (pa := fst (shl_align ma ea (Z.min ea eb))) in *.
    set (pb := fst (shl_align mb eb (Z.min ea eb))) in *.
    assert (Hdiff : (IZR (Zpos pa - Zpos pb) * bpow (Z.min ea eb)
                     = 1 * IZR (Zpos ma) * bpow ea - 1 * IZR (Zpos mb) * bpow eb)%R).
    { rewrite minus_IZR. lra. }
    set (x := (1 * IZR (Zpos ma) * bpow ea - 1 * IZR (Zpos mb) * bpow eb)%R) in *.
    destruct (Zpos pa - Zpos pb) as [|M|M] eqn:EM; cbn [binary_normalize].
    + cbn [SFval finite_number]. split; [reflexivity |].
      rewrite <- Hdiff. rewrite Rmult_0_l, Rminus_diag, Rabs_R0. apply rounding_slack_nonneg.
    + destruct (binary_round_spec false M (Z.min ea eb)) as (v & _ & Hshape & Hv & _ & Herr).
      * rewrite Hdiff. unfold x. lra.
      * rewrite Hv. rewrite Hdiff in Herr. split; [| exact Herr].
        destruct Hshape as [-> | (m' & e' & ->)]; reflexivity.
    + assert (Hneg : (IZR (Zpos M) * bpow (Z.min ea eb) = - x)%R).
      { rewrite <- Hdiff. change (Zneg M) with (- Zpos M). rewrite opp_IZR. ring. }
      destruct (binary_round_spec true M (Z.min ea eb)) as (v & _ & Hshape & Hv & _ & Herr).
      * rewrite Hneg. unfold x. lra.
      * rewrite Hv. rewrite Hneg in Herr. split.
        -- destruct Hshape as [-> | (m' & e' & ->)]; reflexivity.
        -- unfold rounding_slack in *. rewrite Rabs_Ropp in Herr.
           replace (- v - x)%R with (- (v - - x))%R by ring. rewrite Rabs_Ropp. exact Herr.
Qed.

(** *** The absolute value and the comparison *)

Lemma abs_spec_finite (x : float) :
  finite_number (Prim2SF x) = true ->
  nonneg_number (Prim2SF (abs x)) = true /\
  SFval (Prim2SF (abs x)) = Rabs (SFval (Prim2SF x)).
Proof.
  intros H. rewrite abs_spec.
  destruct (Prim2SF x) as [s | s | | s m e]; try discriminate; cbn [SFabs SFval nonneg_number].
  - split; [reflexivity |]. rewrite Rabs_R0. reflexivity.
  - split; [reflexivity |]. pose proof (bpow_pos e).
    assert (0 < IZR (Zpos m))%R by (apply IZR_lt; lia).
    destruct s; [rewrite Rabs_left by nra | rewrite Rabs_pos_eq by nra]; ring.
Qed.

Lemma leb_of_values (x y : float) :
  nonneg_number (Prim2SF x) = true -> nonneg_number (Prim2SF y) = true ->
  (SFval (Prim2SF x) <= SFval (Prim2SF y))%R ->
  (x <=? y)%float = true.
Proof.
  intros Hx Hy Hle. rewrite leb_spec. unfold SFleb.
  pose proof (Prim2SF_valid x) as Vx. pose proof (Prim2SF_valid y) as Vy.
  destruct (nonneg_number_cases _ Hx) as [Ex | (mx & ex & Ex)];
    destruct (nonneg_number_cases _ Hy) as [Ey | (my & ey & Ey)]; rewrite Ex, Ey in *;
    cbn [SFcompare SFval] in *; try reflexivity.
  - exfalso. pose proof (bpow_pos ex). assert (0 < IZR (Zpos mx))%R by (apply IZR_lt; lia). nra.
  - destruct (range_of_canonical mx ex Vx) as (Hux & Hex & Hsx).
    destruct (range_of_canonical my ey Vy) as (Huy & Hey & Hsy).
    destruct (Z.compare_spec ex ey) as [E | E | E]; [| reflexivity | exfalso].
    + subst ey. pose proof (bpow_pos ex).
      assert (Hm : (IZR (Zpos mx) <= IZR (Zpos my))%R) by nra.
      apply le_IZR in Hm. change (Pos.compare_cont Eq mx my) with (Pos.compare mx my).
      destruct (Pos.compare_spec mx my); try reflexivity. lia.
    + assert (H52 : 2 ^ 52 <= Zpos mx) by lia.
      assert (A : (bpow 52 * bpow ex <= 1 * IZR (Zpos mx) * bpow ex)%R).
      { rewrite <- (bpow_IZR 52) by lia. pose proof (bpow_pos ex).
        assert (IZR (2 ^ 52) <= IZR (Zpos mx))%R by (apply IZR_le; lia). nra. }
      assert (B : (1 * IZR (Zpos my) * bpow ey < bpow 53 * bpow ey)%R).
      { rewrite <- (bpow_IZR 53) by lia. pose proof (bpow_pos ey).
        assert (IZR (Zpos my) < IZR (2 ^ 53))%R by (apply IZR_lt; lia). nra. }
      assert (C : (bpow 53 * bpow ey <= bpow 52 * bpow ex)%R).
      { rewrite <- !bpow_add. apply bpow_le. lia. }
      lra.
Qed.

End FloatRounding.

(** ** The percentages of the breakdown *)

Module PercentFacts.
Import Py Ext MarketResolver Views LawViews FloatValue FloatRounding PercentViews.
Local Open Scope list_scope.

Lemma eps_value : (bpow (-52) * 4503599627370496 = 1)%R.
Proof. rewrite <- bpow_m52. f_equal. rewrite <- bpow_IZR by lia. reflexivity. Qed.

Lemma tiny_le_eps : (bpow (-1074) <= bpow (-52))%R.
Proof. apply bpow_le. lia. Qed.

Lemma million_le_big : (1000000 <= bpow 900)%R.
Proof.
  apply Rle_trans with (bpow 20); [| apply bpow_le; lia].
  rewrite <- bpow_IZR by lia. apply IZR_le. cbn. lia.
Qed.

Lemma big_le_bigger : (bpow 900 <= bpow 999 /\ bpow 999 <= bpow 1000)%R.
Proof. split; apply bpow_le; lia. Qed.

Lemma percentage_of_zero (total : Z) : Prim2SF (percentage_of 0 total) = S754_zero false.
Proof. unfold percentage_of. cbn [F64.int_div]. vm_compute. reflexivity. Qed.

(** One percentage is within [percentage_slack] of [100 * c / total]. *)
Lemma percentage_of_spec (c total : Z) :
  0 < c <= total ->
  nonneg_number (Prim2SF (percentage_of c total)) = true /\
  (Rabs (SFval (Prim2SF (percentage_of c total)) - 100 * IZR c / IZR total)
   <= percentage_slack)%R.
Proof.
  intros Hc. unfold percentage_of, percentage_slack.
  destruct c as [|pc|pc]; try lia. destruct total as [|pt|pt]; try lia.
  cbn [F64.int_div].
  assert (Hc' : (0 < IZR (Zpos pc))%R) by (apply IZR_lt; lia).
  assert (Ht' : (0 < IZR (Zpos pt))%R) by (apply IZR_lt; lia).
  assert (Hct : (IZR (Zpos pc) <= IZR (Zpos pt))%R) by (apply IZR_le; lia).
  set (x := (IZR (Zpos pc) / IZR (Zpos pt))%R).
  assert (Hx : (0 < x <= 1)%R).
  { unfold x. split; [apply Rdiv_lt_0_compat; assumption |].
    apply Rmult_le_reg_r with (IZR (Zpos pt)); [exact Ht' |]. field_simplify; lra. }
  pose proof eps_value as He. pose proof tiny_le_eps as Ht. pose proof (bpow_pos (-52)) as Hep.
  pose proof (bpow_pos (-1074)) as Htp.
  pose proof million_le_big as Hm. pose proof big_le_bigger as [Hb1 Hb2].
  assert (Hesmall : (bpow (-52) <= / 1000000)%R) by nra.
  destruct (ratio_spec pc pt) as [Hq Hqerr]; [fold x; lra |]. fold x in Hqerr.
  set (q := F64.ratio pc pt) in *.
  pose proof (rounding_slack_le x 1 ltac:(rewrite Rabs_pos_eq; lra)) as Hs1.
  apply Rabs_bounds in Hqerr.
  pose proof (SFval_nonneg _ Hq) as Hq0.
  destruct (times_100_spec q Hq) as [Hmn Hmerr]; [lra |].
  set (m := (q * F64.Z2float 100)%float) in *.
  pose proof (rounding_slack_le (100 * SFval (Prim2SF q)) 200
                ltac:(rewrite Rabs_pos_eq; lra)) as Hs2.
  apply Rabs_bounds in Hmerr.
  destruct (py_round_2_spec m Hmn) as [Hpn Hperr]; [lra |].
  apply Rabs_bounds in Hperr.
  split; [exact Hpn |]. apply Rabs_le.
  replace (100 * IZR (Zpos pc) / IZR (Zpos pt))%R with (100 * x)%R by (unfold x; field; lra).
  lra.
Qed.

(** The sum of the percentages, as a sum over the counts. *)
Lemma sum_percentages_counts (total : Z) (oc : counts) : forall acc,
  fold_left (fun acc p =>
               match field (snd p) "support_percentage" with
               | Some (VFloat f) => (acc + f)%float
               | _ => acc
               end)
            (map (fun e => (snd (fst e), entry_of (snd e) total)) oc) acc
  = fold_left (fun a c => (a + percentage_of c total)%float)
              (map (fun e => count (snd e)) oc) acc.
Proof.
  induction oc as [|[[k o] s] oc IH]; intros acc; cbn [map fold_left]; [reflexivity |].
  rewrite <- IH. reflexivity.
Qed.

Lemma exact_sum_counts (total : Z) (oc : counts) :
  exact_sum_percentages (map (fun e => (snd (fst e), entry_of (snd e) total)) oc)
  = fold_right (fun c acc => (SFval (Prim2SF (percentage_of c total)) + acc)%R) 0%R
               (map (fun e => count (snd e)) oc).
Proof.
  induction oc as [|[[k o] s] oc IH]; cbn [map exact_sum_percentages fold_right];
    [reflexivity |].
  unfold exact_sum_percentages in IH. rewrite IH. reflexivity.
Qed.

Lemma supported_counts (total : Z) (oc : counts) :
  List.length (filter (fun p : value * value => 0 <? support_count_of (snd p))
                 (map (fun e => (snd (fst e), entry_of (snd e) total)) oc))
  = List.length (filter (fun c => (0 <? c)%Z) (map (fun e => count (snd e)) oc)).
Proof.
  induction oc as [|[[k o] s] oc IH]; cbn [map filter]; [reflexivity |].
  change (support_count_of (snd (snd (fst (k, o, s)), entry_of (snd (k, o, s)) total)))
    with (count s). cbn [snd].
  destruct (0 <? count s); cbn [List.length]; rewrite IH; reflexivity.
Qed.

Lemma sum_of_counts_map (oc : counts) :
  sum_of_counts oc = fold_right Z.add 0 (map (fun e => count (snd e)) oc).
Proof.
  unfold sum_of_counts. induction oc as [|e oc IH]; cbn; [reflexivity |]. rewrite IH.
  reflexivity.
Qed.

Lemma INR_19 (n : nat) : (n <= 19)%nat -> (0 <= INR n <= 19)%R.
Proof.
  intros H. split; [apply pos_INR |]. apply le_INR in H.
  replace 19%R with (INR 19) by (simpl; lra). exact H.
Qed.

(** The exact sum of the percentages of supported outcomes. *)
Lemma exact_sum_bound (total : Z) (Htotal : 0 < total) : forall cs : list Z,
  Forall (fun c => 0 <= c) cs -> fold_right Z.add 0%Z cs <= total ->
  (Rabs (fold_right (fun c acc => SFval (Prim2SF (percentage_of c total)) + acc) 0 cs
         - 100 * IZR (fold_right Z.add 0%Z cs) / IZR total)
   <= INR (List.length (filter (fun c => (0 <? c)%Z) cs)) * percentage_slack)%R.
Proof.
  assert (Ht' : (0 < IZR total)%R) by (apply IZR_lt; lia).
  induction cs as [|c cs IH]; intros Hnn Hsum.
  - cbn. replace (0 - 100 * 0 / IZR total)%R with 0%R by (field; lra).
    rewrite Rabs_R0. lra.
  - inversion Hnn as [|? ? Hc Hnn']; subst. cbn [fold_right filter] in *.
    assert (Hrest : 0 <= fold_right Z.add 0%Z cs).
    { clear - Hnn'. induction Hnn'; cbn; lia. }
    specialize (IH Hnn' ltac:(lia)). apply Rabs_bounds in IH.
    rewrite plus_IZR.
    replace (100 * (IZR c + IZR (fold_right Z.add 0%Z cs)) / IZR total)%R
      with (100 * IZR c / IZR total + 100 * IZR (fold_right Z.add 0%Z cs) / IZR total)%R
      by (field; lra).
    destruct (0 <? c) eqn:E.
    + apply Z.ltb_lt in E. destruct (percentage_of_spec c total ltac:(lia)) as [_ Hp].
      apply Rabs_bounds in Hp. cbn [List.length]. rewrite S_INR. apply Rabs_le. lra.
    + apply Z.ltb_ge in E. assert (c = 0) by lia. subst c.
      rewrite percentage_of_zero. cbn [SFval].
      replace (100 * 0 / IZR total)%R with 0%R by (field; lra).
      apply Rabs_le. lra.
Qed.

(** The binary64 sum of the percentages, accumulated in order. *)
Lemma float_sum_bound (total : Z) (Htotal : 0 < total) :
  forall (cs : list Z) (acc : float) (n : nat) (C : Z),
    Forall (fun c => 0 <= c) cs -> 0 <= C -> C + fold_right Z.add 0%Z cs <= total ->
    (n + List.length (filter (fun c => (0 <? c)%Z) cs) <= 19)%nat ->
    nonneg_number (Prim2SF acc) = true ->
    (Rabs (SFval (Prim2SF acc) - 100 * IZR C / IZR total) <= INR n * term_slack)%R ->
    nonneg_number
      (Prim2SF (fold_left (fun a c => (a + percentage_of c total)%float) cs acc)) = true /\
    (Rabs (SFval (Prim2SF (fold_left (fun a c => (a + percentage_of c total)%float) cs acc))
           - 100 * IZR (C + fold_right Z.add 0%Z cs) / IZR total)
     <= INR (n + List.length (filter (fun c => (0 <? c)%Z) cs)) * term_slack)%R.
Proof.
  assert (Ht' : (0 < IZR total)%R) by (apply IZR_lt; lia).
  pose proof eps_value as He. pose proof tiny_le_eps as Ht. pose proof (bpow_pos (-52)) as Hep.
  pose proof (bpow_pos (-1074)) as Htp.
  pose proof million_le_big as Hm. pose proof big_le_bigger as [Hb1 Hb2].
  assert (Hesmall : (bpow (-52) <= / 1000000)%R) by nra.
  induction cs as [|c cs IH]; intros acc n C Hnn HC Hsum Hn Hacc Herr.
  - cbn [fold_left fold_right filter List.length]. rewrite Z.add_0_r, Nat.add_0_r.
    split; assumption.
  - inversion Hnn as [|? ? Hc Hnn']; subst. cbn [fold_left fold_right filter] in *.
    assert (Hrest : 0 <= fold_right Z.add 0%Z cs).
    { clear - Hnn'. induction Hnn'; cbn; lia. }
    replace (C + (c + fold_right Z.add 0%Z cs)) with ((C + c) + fold_right Z.add 0%Z cs) by lia.
    destruct (0 <? c) eqn:E.
    + apply Z.ltb_lt in E. cbn [List.length] in Hn |- *.
      replace (n + S (List.length (filter (fun c0 => (0 <? c0)%Z) cs)))%nat
        with (S n + List.length (filter (fun c0 => (0 <? c0)%Z) cs))%nat by lia.
      apply IH; try assumption; try lia.
      * destruct (percentage_of_spec c total ltac:(lia)) as [Hpn Hp].
        apply Rabs_bounds in Hp. unfold percentage_slack in Hp.
        apply Rabs_bounds in Herr. unfold term_slack in Herr.
        pose proof (INR_19 n ltac:(lia)) as Hn19.
        assert (HCt : (0 <= 100 * IZR C / IZR total <= 100)%R).
        { assert (0 <= IZR C)%R by (apply IZR_le; lia).
          assert (IZR C <= IZR total)%R by (apply IZR_le; lia).
          split; [apply Rmult_le_reg_r with (IZR total); [lra |]; field_simplify; lra
                 | apply Rmult_le_reg_r with (IZR total); [lra |]; field_simplify; lra]. }
        assert (Hct : (0 <= 100 * IZR c / IZR total <= 100)%R).
        { assert (0 <= IZR c)%R by (apply IZR_le; lia).
          assert (IZR c <= IZR total)%R by (apply IZR_le; lia).
          split; [apply Rmult_le_reg_r with (IZR total); [lra |]; field_simplify; lra
                 | apply Rmult_le_reg_r with (IZR total); [lra |]; field_simplify; lra]. }
        assert (Hva : (SFval (Prim2SF acc) <= 101)%R) by nra.
        assert (Hvp : (SFval (Prim2SF (percentage_of c total)) <= 101)%R) by lra.
        pose proof (SFval_nonneg _ Hacc). pose proof (SFval_nonneg _ Hpn).
        destruct (add_nonneg_spec acc (percentage_of c total) Hacc Hpn) as [Hsn Hs]; [lra |].
        pose proof (rounding_slack_le
                      (SFval (Prim2SF acc) + SFval (Prim2SF (percentage_of c total))) 202
                      ltac:(rewrite Rabs_pos_eq; lra)) as Hsl.
        apply Rabs_bounds in Hs. exact Hsn.
      * destruct (percentage_of_spec c total ltac:(lia)) as [Hpn Hp].
        apply Rabs_bounds in Hp. unfold percentage_slack in Hp.
        apply Rabs_bounds in Herr. unfold term_slack in Herr |- *.
        pose proof (INR_19 n ltac:(lia)) as Hn19.
        assert (HCt : (0 <= 100 * IZR C / IZR total <= 100)%R).
        { assert (0 <= IZR C)%R by (apply IZR_le; lia).
          assert (IZR C <= IZR total)%R by (apply IZR_le; lia).
          split; [apply Rmult_le_reg_r with (IZR total); [lra |]; field_simplify; lra
                 | apply Rmult_le_reg_r with (IZR total); [lra |]; field_simplify; lra]. }
        assert (Hct : (0 <= 100 * IZR c / IZR total <= 100)%R).
        { assert (0 <= IZR c)%R by (apply IZR_le; lia).
          assert (IZR c <= IZR total)%R by (apply IZR_le; lia).
          split; [apply Rmult_le_reg_r with (IZR total); [lra |]; field_simplify; lra
                 | apply Rmult_le_reg_r with (IZR total); [lra |]; field_simplify; lra]. }
        assert (Hva : (SFval (Prim2SF acc) <= 101)%R) by nra.
        assert (Hvp : (SFval (Prim2SF (percentage_of c total)) <= 101)%R) by lra.
        pose proof (SFval_nonneg _ Hacc). pose proof (SFval_nonneg _ Hpn).
        destruct (add_nonneg_spec acc (percentage_of c total) Hacc Hpn) as [Hsn Hs]; [lra |].
        pose proof (rounding_slack_le
                      (SFval (Prim2SF acc) + SFval (Prim2SF (percentage_of c total))) 202
                      ltac:(rewrite Rabs_pos_eq; lra)) as Hsl.
        apply Rabs_bounds in Hs. rewrite S_INR, plus_IZR.
        replace (100 * (IZR C + IZR c) / IZR total)%R
          with (100 * IZR C / IZR total + 100 * IZR c / IZR total)%R by (field; lra).
        apply Rabs_le. lra.
    + apply Z.ltb_ge in E. assert (c = 0) by lia. subst c. rewrite Z.add_0_r.
      assert (Hsame : Prim2SF (acc + percentage_of 0 total) = Prim2SF acc)
        by (apply add_zero_r; [exact Hacc | apply percentage_of_zero]).
      apply IH; try assumption; try lia; rewrite Hsame; assumption.
Qed.

Lemma hundred_literal : Prim2SF 100 = S754_finite false 7036874417766400 (-46).
Proof. vm_compute. reflexivity. Qed.

Lemma tolerance_datum :
  Prim2SF 0x1.999999999999ap-4 = S754_finite false 7205759403792794 (-56).
Proof. vm_compute. reflexivity. Qed.

Lemma tolerance_value : (/ 10 <= SFval (Prim2SF 0x1.999999999999ap-4))%R.
Proof.
  rewrite tolerance_datum. cbn [SFval].
  assert (H : (bpow (-56) * IZR (2 ^ 56) = 1)%R).
  { rewrite bpow_IZR by lia. exact (bpow_opp 56). }
  change (2 ^ 56) with 72057594037927936 in H. lra.
Qed.

(** The check [abs(s - 100) <= 0.1] on a binary64 sum [s] whose value is
    within 0.0951 of 100. *)
Lemma close_to_100 (s : float) :
  nonneg_number (Prim2SF s) = true ->
  (Rabs (SFval (Prim2SF s) - 100) <= 951 / 10000)%R ->
  (abs (s - 100) <=? 0x1.999999999999ap-4)%float = true.
Proof.
  intros Hs Herr. apply Rabs_bounds in Herr.
  pose proof eps_value as He. pose proof tiny_le_eps as Ht. pose proof (bpow_pos (-52)) as Hep.
  pose proof (bpow_pos (-1074)) as Htp.
  pose proof million_le_big as Hm. pose proof big_le_bigger as [Hb1 Hb2].
  assert (Hesmall : (bpow (-52) <= / 1000000)%R) by nra.
  pose proof hundred_value as H100.
  destruct (sub_spec_finite s 100 _ _ Hs hundred_literal) as [Hfin Hd].
  - lra.
  - rewrite hundred_literal. cbn [SFval]. lra.
  - rewrite hundred_literal in Hd. cbn [SFval] in Hd.
    replace (1 * IZR 7036874417766400 * bpow (-46))%R with 100%R in Hd by lra.
    pose proof (rounding_slack_le (SFval (Prim2SF s) - 100) 1 ltac:(apply Rabs_le; lra)) as Hsl.
    apply Rabs_bounds in Hd.
    destruct (abs_spec_finite (s - 100) Hfin) as [Hnn Habs].
    apply leb_of_values; [exact Hnn | rewrite tolerance_datum; reflexivity |].
    rewrite Habs. apply Rle_trans with (/ 10)%R; [| apply tolerance_value].
    apply Rabs_le. lra.
Qed.

End PercentFacts.

(** ** market_resolver.py: the breakdown and the sum of its percentages *)

Module BreakdownLaw.
Import Py Ext TeamClassifier MarketResolver Views MoreViews LawViews FloatValue PercentViews.
Import Samples MoreSamples PercentSamples OdictFacts Dispatch Tally WinnerScan SentimentRun Laws.
Import FloatRounding PercentFacts.
Local Open Scope list_scope.

Section Run.
Variables (cap : capability) (d : list (value * value)) (outcomes tweets : list value).
Hypothesis Hvalid : _validate_market_data (VDict d) = Ok tt.
Hypothesis Hmethod : resolution_method_of (VDict d) = Ok "sentiment".
Hypothesis Houtcomes : dict_get d "outcomes" = Some (VList outcomes).
Hypothesis Htweets : py_iter (dict_get_default d "reply_tweets" (VList [])) = Ok tweets.

(** C9, as the code has it. In a decided record the breakdown lists the
    outcomes in the order of [outcome_counts]; each entry holds the count,
    [round(count / total_analyzed * 100, 2)] and
    [round(confidence_sum / count, 4)], the integer 0 standing for the
    mean of an outcome without support; [total_analyzed] is positive and
    is the sum of the support counts, and the formula of the percentage
    answers the integer 0 for a [total_analyzed] of 0. When at most 19
    outcomes have support, the percentages sum to within 0.1 of 100: the
    exact sum of the reported numbers is less than 0.1 away from 100, and
    the check [abs(s - 100) <= 0.1] holds of their binary64 sum [s]. *)
Theorem breakdown_law (r : value) (log : list event)
    (Hrun : resolve_market cap (VDict d) = (Ok r, log))
    (Hdecided : is_decided r = true) :
  exists oc0 oc total,
    init_counts outcomes [] = Ok oc0 /\
    process_tweets cap outcomes tweets (oc0, 0, [EvLoadModels]) = (oc, total, log) /\
    0 < total /\
    field r "total_analyzed" = Some (VInt total) /\
    field r "sentiment_breakdown"
    = Some (VDict (map (fun e => (snd (fst e), entry_of (snd e) total)) oc)) /\
    sum_of_counts oc = total /\
    (forall cnt, support_percentage cnt 0 = VInt 0) /\
    ((List.length (supported_outcomes r) <= 19)%nat ->
     (Rabs (exact_sum_percentages (breakdown_of r) - 100) < / 10)%R /\
     F64.le (abs (sum_percentages (breakdown_of r) - 100)) 0x1.999999999999ap-4).
Proof.
  destruct (decided_inversion cap d outcomes tweets Hvalid Hmethod Houtcomes Htweets
              r log Hrun Hdecided) as (oc0 & oc & total & Hload & Hinit & Hproc & Hfin).
  assert (Hnz : total <> 0).
  { intros ->. unfold finish_sentiment in Hfin. cbn in Hfin. discriminate. }
  destruct (finish_sentiment_decided cap d outcomes tweets Hvalid oc0 oc total log
              Hinit Hproc Hnz)
    as (sc & wi & mid & q & Hscan & Hsinv & Hbd & Hwf & Hsum & Hpos & Hmax & Hnames & _ & _ & _ & Hrec).
  rewrite Hrec in Hfin. injection Hfin as <-.
  assert (Hfield : field (decided_record cap mid q outcomes sc wi total) "sentiment_breakdown"
                   = Some (VDict (map (fun e => (snd (fst e), entry_of (snd e) total)) oc))).
  { cbn. unfold breakdown_value. rewrite Hbd, map_map. do 2 f_equal.
    apply map_ext. intros [[k o] s]. cbn. rewrite breakdown_entry_positive by exact Hpos.
    reflexivity. }
  exists oc0, oc, total. repeat (split; [first [assumption | reflexivity] |]).
  intros Hfew. unfold supported_outcomes, breakdown_of in *. rewrite Hfield in *.
  rewrite supported_counts in Hfew.
  assert (Hnn : Forall (fun c => 0 <= c) (map (fun e => count (snd e)) oc)).
  { apply Forall_forall. intros c Hc. apply in_map_iff in Hc.
    destruct Hc as ([[k o] s] & <- & Hin). exact (wf_nonneg oc Hwf k o s Hin). }
  assert (Ht' : (0 < IZR total)%R) by (apply IZR_lt; lia).
  pose proof eps_value as He. pose proof (bpow_pos (-52)) as Hep.
  split.
  - rewrite exact_sum_counts.
    pose proof (exact_sum_bound total Hpos _ Hnn) as Hb.
    rewrite <- sum_of_counts_map, Hsum in Hb. specialize (Hb ltac:(lia)).
    replace (100 * IZR total / IZR total)%R with 100%R in Hb by (field; lra).
    pose proof (INR_19 _ Hfew) as Hn. unfold percentage_slack in Hb.
    apply Rabs_bounds in Hb. apply Rabs_def1; nra.
  - unfold F64.le, sum_percentages. rewrite sum_percentages_counts.
    destruct (float_sum_bound total Hpos (map (fun e => count (snd e)) oc) 0%float 0%nat 0
                Hnn ltac:(lia)) as [Hs Hb].
    + rewrite <- sum_of_counts_map, Hsum. lia.
    + exact Hfew.
    + reflexivity.
    + cbn [INR]. change (Prim2SF 0) with (S754_zero false). cbn [SFval].
      replace (0 - 100 * 0 / IZR total)%R with 0%R by (field; lra).
      rewrite Rabs_R0. lra.
    + rewrite <- sum_of_counts_map, Hsum, Z.add_0_l, Nat.add_0_l in Hb.
      replace (100 * IZR total / IZR total)%R with 100%R in Hb by (field; lra).
      pose proof (INR_19 _ Hfew) as Hn. unfold term_slack in Hb.
      apply close_to_100; [exact Hs |].
      apply Rabs_bounds in Hb. apply Rabs_le. nra.
Qed.

End Run.

Lemma breakdown_law_witness :
  exists oc0 oc total,
    init_counts (map VStr thirds) [] = Ok oc0 /\
    process_tweets echo_cap (map VStr thirds) (map tweet thirds) (oc0, 0, [EvLoadModels])
    = (oc, total, snd (resolve_market echo_cap (VDict thirds_market))) /\
    0 < total /\
    field (result_of (resolve_market echo_cap (VDict thirds_market))) "total_analyzed"
    = Some (VInt total) /\
    field (result_of (resolve_market echo_cap (VDict thirds_market))) "sentiment_breakdown"
    = Some (VDict (map (fun e => (snd (fst e), entry_of (snd e) total)) oc)) /\
    sum_of_counts oc = total /\
    (Rabs (exact_sum_percentages
             (breakdown_of (result_of (resolve_market echo_cap (VDict thirds_market)))) - 100)
     < / 10)%R /\
    F64.le (abs (sum_percentages
                   (breakdown_of (result_of (resolve_market echo_cap (VDict thirds_market))))
                 - 100))
           0x1.999999999999ap-4.
Proof.
  assert (Hvalid : _validate_market_data (VDict thirds_market) = Ok tt)
    by (vm_compute; reflexivity).
  assert (Hmethod : resolution_method_of (VDict thirds_market) = Ok "sentiment")
    by (vm_compute; reflexivity).
  assert (Hrun : resolve_market echo_cap (VDict thirds_market)
                 = (Ok (result_of (resolve_market echo_cap (VDict thirds_market))),
                    snd (resolve_market echo_cap (VDict thirds_market))))
    by (vm_compute; reflexivity).
  assert (Hdecided : is_decided (result_of (resolve_market echo_cap (VDict thirds_market)))
                     = true) by (vm_compute; reflexivity).
  assert (Hfew : (List.length (supported_outcomes
                                 (result_of (resolve_market echo_cap (VDict thirds_market))))
                  <= 19)%nat) by (vm_compute; lia).
  destruct (breakdown_law echo_cap thirds_market (map VStr thirds) (map tweet thirds)
              Hvalid Hmethod eq_refl eq_refl _ _ Hrun Hdecided)
    as (oc0 & oc & total & H1 & H2 & H3 & H4 & H5 & H6 & _ & H7).
  destruct (H7 Hfew) as [H8 H9].
  exists oc0, oc, total. repeat (split; [assumption |]). exact H9.
Defined.

(** In the run of the witness each percentage is 33.33 and the binary64
    sum is 99.99. *)
Example thirds_sum :
  map (fun p => field (snd p) "support_percentage")
      (breakdown_of (result_of (resolve_market echo_cap (VDict thirds_market))))
  = [Some (VFloat 0x1.0aa3d70a3d70ap+5); Some (VFloat 0x1.0aa3d70a3d70ap+5);
     Some (VFloat 0x1.0aa3d70a3d70ap+5)] /\
  sum_percentages (breakdown_of (result_of (resolve_market echo_cap (VDict thirds_market))))
  = 0x1.8ff5c28f5c28fp+6%float.
Proof. split; vm_compute; reflexivity. Qed.

(** The bound of 19 supported outcomes is the largest for the check on
    the binary64 sum. With 20 supported outcomes and 32 accepted replies,
    17 percentages are [round(3.125, 2) = 3.12] and three are
    [round(15.625, 2) = 15.62]; added in the order of the outcomes they
    give 99.89999999999999, and [abs(s - 100) <= 0.1] fails. *)
Example twenty_supported_outcomes_miss :
  is_decided (result_of (resolve_market echo_cap twenty_market)) = true /\
  field (result_of (resolve_market echo_cap twenty_market)) "total_analyzed"
  = Some (VInt 32) /\
  List.length (supported_outcomes (result_of (resolve_market echo_cap twenty_market)))
  = 20%nat /\
  sum_percentages (breakdown_of (result_of (resolve_market echo_cap twenty_market)))
  = 0x1.8f99999999999p+6%float /\
  (0x1.999999999999ap-4
   <? abs (sum_percentages (breakdown_of (result_of (resolve_market echo_cap twenty_market)))
           - 100))%float = true.
Proof. repeat split; vm_compute; reflexivity. Qed.

End BreakdownLaw.
